(** * A shallow embedding of the API ETL pipeline

    The development follows the four stages of the repository:

    - [ApiAdapter]       for [src/extractors/api_adapter.py],
    - [SchemaValidator]  for [src/validators/schema_validator.py],
    - [DataTransformer]  for [src/transformers/data_transformer.py],
    - [PostgresLoader]   for [src/loaders/postgres_loader.py],

    and the set-up script [src/airflow_init_connections.py] in
    [InitConnections].

    Python values that come out of [json.load] / [yaml.safe_load] are
    modelled by the inductive type [json]; Python exceptions by the error
    monad [result]; the file system, the HTTP server, the clock and the
    database are explicit pieces of state that the functions thread. *)

From Stdlib Require Import String Ascii List ZArith QArith Bool Lia.
From Stdlib Require Import DecimalString.
From Stdlib Require DecimalFacts DecimalNat DecimalZ DecimalPos.
Import ListNotations.

Local Open Scope string_scope.
Local Open Scope list_scope.
Local Open Scope Z_scope.

(* ===================================================================== *)
(** ** Python values, dictionaries and exceptions                         *)
(* ===================================================================== *)

Module Py.

Set Warnings "-register-all".

(** The values [json.load] and [yaml.safe_load] produce.  A [JObj] holds
    the items of a Python [dict] in insertion order. *)
Inductive json : Type :=
| JNull
| JBool (b : bool)
| JInt (z : Z)
| JFloat (q : Q)
| JStr (s : string)
| JArr (l : list json)
| JObj (kvs : list (string * json)).

(** Python's [bool(x)]. *)
Definition truthy (j : json) : bool :=
  match j with
  | JNull => false
  | JBool b => b
  | JInt z => negb (z =? 0)
  | JFloat q => negb (Qeq_bool q 0)
  | JStr s => negb (s =? "")%string
  | JArr l => match l with [] => false | _ :: _ => true end
  | JObj kvs => match kvs with [] => false | _ :: _ => true end
  end.

Definition is_list (j : json) : bool :=
  match j with JArr _ => true | _ => false end.

Definition is_dict (j : json) : bool :=
  match j with JObj _ => true | _ => false end.

(** [len(x)] of a list value. *)
Definition list_len (j : json) : Z :=
  match j with JArr l => Z.of_nat (length l) | _ => 0 end.

(** Structural equality of values. *)
Fixpoint json_eqb (a b : json) : bool :=
  match a, b with
  | JNull, JNull => true
  | JBool x, JBool y => Bool.eqb x y
  | JInt x, JInt y => x =? y
  | JFloat x, JFloat y => Qeq_bool x y
  | JStr x, JStr y => (x =? y)%string
  | JArr l, JArr m =>
      (fix all2 (l m : list json) : bool :=
         match l, m with
         | [], [] => true
         | x :: l', y :: m' => json_eqb x y && all2 l' m'
         | _, _ => false
         end) l m
  | JObj l, JObj m =>
      (fix all2 (l m : list (string * json)) : bool :=
         match l, m with
         | [], [] => true
         | (k, x) :: l', (k', y) :: m' =>
             (k =? k')%string && json_eqb x y && all2 l' m'
         | _, _ => false
         end) l m
  | _, _ => false
  end.

(** Exceptions carry their class name and the text [str(e)] returns. *)
Record exn : Type := Exn { exn_class : string; exn_msg : string }.

Definition AttributeError (m : string) : exn := Exn "AttributeError" m.
Definition KeyError (k : string) : exn := Exn "KeyError" k.
Definition TypeError (m : string) : exn := Exn "TypeError" m.
Definition ZeroDivisionError : exn := Exn "ZeroDivisionError" "float division by zero".

Inductive result (A : Type) : Type :=
| Ok (a : A)
| Raise (e : exn).
Arguments Ok {A} a.
Arguments Raise {A} e.

Definition bind {A B : Type} (m : result A) (k : A -> result B) : result B :=
  match m with
  | Ok a => k a
  | Raise e => Raise e
  end.

(** [d.get(k)] on the items of a dict: the value, or [None] when absent. *)
Fixpoint items_get (k : string) (kvs : list (string * json)) : option json :=
  match kvs with
  | [] => None
  | (k', v) :: rest => if (k' =? k)%string then Some v else items_get k rest
  end.

(** [d[k] = v]: replaces the value in place, or appends a new item. *)
Fixpoint items_set (k : string) (v : json) (kvs : list (string * json))
  : list (string * json) :=
  match kvs with
  | [] => [(k, v)]
  | (k', v') :: rest =>
      if (k' =? k)%string then (k', v) :: rest else (k', v') :: items_set k v rest
  end.

(** [x.get(k, None)] on an arbitrary value: only dicts have [get]. *)
Definition py_get (x : json) (k : string) : result json :=
  match x with
  | JObj kvs => Ok (match items_get k kvs with Some v => v | None => JNull end)
  | _ => Raise (AttributeError "object has no attribute 'get'")
  end.

(** [s.split('.')]. *)
Fixpoint split_dot_aux (s : string) (cur : string) : list string :=
  match s with
  | EmptyString => [cur]
  | String c rest =>
      if Ascii.eqb c "."%char
      then cur :: split_dot_aux rest ""
      else split_dot_aux rest (cur ++ String c "")%string
  end.

Definition split_dot (s : string) : list string := split_dot_aux s "".

(** [s.rstrip('/')]. *)
Fixpoint rstrip_slash (s : string) : string :=
  match s with
  | EmptyString => EmptyString
  | String c rest =>
      match rstrip_slash rest with
      | EmptyString =>
          if Ascii.eqb c "/"%char then EmptyString else String c EmptyString
      | r => String c r
      end
  end.

End Py.
Export Py.

Notation "x <- m ;; k" := (bind m (fun x => k))
  (at level 61, m at next level, right associativity).

(* ===================================================================== *)
(** ** [src/extractors/api_adapter.py]                                    *)
(* ===================================================================== *)

Module ApiAdapter.

(** The [pagination] mapping of the YAML config. *)
Record pagination_cfg : Type := {
  pag_type : string;
  page_param : string;
  start_page : option Z;
  cursor_param : string;
  cursor_key : string;
  next_link_key : string
}.

(** The keys of the config [extract_api] reads.  [rate_limit] is [None]
    when the key is absent, and the YAML value otherwise. *)
Record config : Type := {
  name : string;
  base_url : string;
  endpoint : string;
  params : list (string * json);
  pagination : option pagination_cfg;
  rate_limit : option json
}.

(** [requests_per_minute = rate_limit.get('requests_per_minute', 60)]
    with [rate_limit = config.get('rate_limit', {})]. *)
Definition requests_per_minute (cfg : config) : result json :=
  match rate_limit cfg with
  | None => Ok (JInt 60)
  | Some (JObj kvs) =>
      Ok (match items_get "requests_per_minute" kvs with
          | Some v => v
          | None => JInt 60
          end)
  | Some _ => Raise (AttributeError "object has no attribute 'get'")
  end.

(** [60.0 / x] for a truthy value [x]; floats are modelled by exact
    rationals. *)
Definition float_div_60 (x : json) : result Q :=
  match x with
  | JInt z => Ok (60 / inject_Z z)%Q
  | JFloat q => Ok (60 / q)%Q
  | JBool _ => Ok (60 / 1)%Q
  | _ => Raise (TypeError "unsupported operand type(s) for /")
  end.

(** [sleep_time = 60.0 / requests_per_minute if requests_per_minute else 0] *)
Definition sleep_time (cfg : config) : result Q :=
  rpm <- requests_per_minute cfg ;;
  if truthy rpm then float_div_60 rpm else Ok 0%Q.

(** [f"response_{response_idx:03d}.json"] under [out_dir]. *)
Definition pad3 (s : string) : string :=
  match String.length s with
  | O => ("000" ++ s)%string
  | S O => ("00" ++ s)%string
  | S (S O) => ("0" ++ s)%string
  | _ => s
  end.

Definition out_dir (cfg : config) (execution_date : string) : string :=
  ("data/raw/" ++ name cfg ++ "/" ++ execution_date)%string.

Definition out_path (dir : string) (response_idx : nat) : string :=
  (dir ++ "/response_"
       ++ pad3 (NilZero.string_of_uint (Nat.to_uint response_idx))
       ++ ".json")%string.

(** What [session.get] and [resp.json()] can deliver. *)
Inductive response : Type :=
| RequestException
| Response (status_code : Z) (body : result json).

Section Extract.

(** The remote service: its state, and the answer it gives to one GET
    (after the session's own bounded retries). *)
Variable Server : Type.
Variable session_get :
  Server -> json -> list (string * json) -> list (string * string) ->
  response * Server.

(** The world around [extract_api]: the server, the files written so far
    (latest last) and the arguments of the [time.sleep] calls. *)
Record world : Type := {
  srv : Server;
  files : list (string * json);
  sleeps : list Q
}.

(** The local variables of the [while has_more] loop. *)
Record state : Type := {
  saved_files : list string;
  page_num : Z;
  cursor : json;
  response_idx : nat;
  url : json
}.

Inductive outcome : Type :=
| Next (s : state) (w : world)
| Done (s : state) (w : world)
| Crash (e : exn) (w : world).

Variable cfg : config.
Variable dir : string.
Variable headers : list (string * string).
Variable sleep_t : Q.

Definition pag_is (ty : string) : bool :=
  match pagination cfg with
  | Some p => (pag_type p =? ty)%string
  | None => false
  end.

Definition req_params (s : state) : list (string * json) :=
  match pagination cfg with
  | Some p =>
      if (pag_type p =? "page")%string
      then items_set (page_param p) (JInt (page_num s)) (params cfg)
      else if (pag_type p =? "cursor")%string && truthy (cursor s)
      then items_set (cursor_param p) (cursor s) (params cfg)
      else params cfg
  | None => params cfg
  end.

(** [json.dump(data, f)] into the next numbered file. *)
Definition save (data : json) (s : state) (w : world) : state * world :=
  let path := out_path dir (response_idx s) in
  ({| saved_files := saved_files s ++ [path];
      page_num := page_num s;
      cursor := cursor s;
      response_idx := S (response_idx s);
      url := url s |},
   {| srv := srv w; files := files w ++ [(path, data)]; sleeps := sleeps w |}).

(** The [for key in ...split('.')] loop over the link path. *)
Fixpoint follow_link (keys : list string) (next_link : json) : result json :=
  match keys with
  | [] => Ok next_link
  | key :: rest =>
      v <- py_get next_link key ;;
      match v with
      | JNull => Ok JNull
      | _ => follow_link rest v
      end
  end.

(** The end of an iteration whose [has_more] is still true:
    [if has_more and sleep_time > 0: time.sleep(sleep_time)]. *)
Definition continue (s : state) (w : world) : outcome :=
  if Qlt_le_dec 0 sleep_t
  then Next s {| srv := srv w; files := files w;
                 sleeps := sleeps w ++ [sleep_t] |}
  else Next s w.

(** What one iteration does with a decoded body. *)
Definition handle_data (data : json) (s : state) (w : world) : outcome :=
  if pag_is "page" then
    if negb (truthy data) || (is_list data && (list_len data =? 0))
    then Done s w
    else
      let (s1, w1) := save data s w in
      continue {| saved_files := saved_files s1;
                  page_num := page_num s1 + 1;
                  cursor := cursor s1;
                  response_idx := response_idx s1;
                  url := url s1 |} w1
  else
    let (s1, w1) := save data s w in
    match pagination cfg with
    | Some p =>
        if (pag_type p =? "cursor")%string then
          match py_get data (cursor_key p) with
          | Raise e => Crash e w1
          | Ok c =>
              let s2 := {| saved_files := saved_files s1;
                           page_num := page_num s1;
                           cursor := c;
                           response_idx := response_idx s1;
                           url := url s1 |} in
              if truthy c then continue s2 w1 else Done s2 w1
          end
        else if (pag_type p =? "next_link")%string then
          match follow_link (split_dot (next_link_key p)) data with
          | Raise e => Crash e w1
          | Ok next_link =>
              if truthy next_link
              then continue {| saved_files := saved_files s1;
                               page_num := page_num s1;
                               cursor := cursor s1;
                               response_idx := response_idx s1;
                               url := next_link |} w1
              else Done s1 w1
          end
        else Done s1 w1
    | None => Done s1 w1
    end.

(** One pass through the body of [while has_more]. *)
Definition loop_body (s : state) (w : world) : outcome :=
  let (resp, srv') := session_get (srv w) (url s) (req_params s) headers in
  let w0 := {| srv := srv'; files := files w; sleeps := sleeps w |} in
  match resp with
  | RequestException => Done s w0
  | Response status_code body =>
      if status_code =? 401 then Done s w0
      else if status_code >=? 400 then Done s w0
      else match body with
           | Raise e => Crash e w0
           | Ok data => handle_data data s w0
           end
  end.

(** The loop, with a bound on the number of iterations: [None] when the
    bound is reached while [has_more] is still true. *)
Fixpoint run (fuel : nat) (s : state) (w : world)
  : option (result (list string) * world) :=
  match fuel with
  | O => None
  | S fuel' =>
      match loop_body s w with
      | Next s' w' => run fuel' s' w'
      | Done s' w' => Some (Ok (saved_files s'), w')
      | Crash e w' => Some (Raise e, w')
      end
  end.

Definition init_state : state :=
  {| saved_files := [];
     page_num := match pagination cfg with
                 | Some p => match start_page p with Some n => n | None => 1 end
                 | None => 1
                 end;
     cursor := JNull;
     response_idx := 1%nat;
     url := JStr (rstrip_slash (base_url cfg) ++ endpoint cfg)%string |}.

End Extract.

Arguments srv {Server} w.
Arguments files {Server} w.
Arguments sleeps {Server} w.
Arguments Build_world {Server} srv files sleeps.
Arguments Next {Server} s w.
Arguments Done {Server} s w.
Arguments Crash {Server} e w.
Arguments loop_body {Server} session_get cfg dir headers sleep_t s w.
Arguments handle_data {Server} cfg dir sleep_t data s w.
Arguments continue {Server} sleep_t s w.
Arguments save {Server} dir data s w.
Arguments run {Server} session_get cfg dir headers sleep_t fuel s w.

(** [extract_api], from the resolved request headers on: the rate limit
    is read once, a missing or empty execution date is replaced by the
    date of the day, then the loop runs from the initial state. *)
Definition extract_api {Server : Type}
  (session_get : Server -> json -> list (string * json) ->
                 list (string * string) -> response * Server)
  (headers : list (string * string)) (today : string)
  (cfg : config) (execution_date : option string)
  (fuel : nat) (w : world Server)
  : option (result (list string) * world Server) :=
  match sleep_time cfg with
  | Raise e => Some (Raise e, w)
  | Ok t =>
      let date := match execution_date with
                  | Some d => if (d =? "")%string then today else d
                  | None => today
                  end in
      run session_get cfg (out_dir cfg date) headers t fuel (init_state cfg) w
  end.




Definition world_of {Server : Type} (o : outcome Server) : world Server :=
  match o with Next _ w | Done _ w | Crash _ w => w end.


(** A scripted server for concrete runs: it answers the n-th request with
    the n-th canned response. *)
Definition scripted (pages : list response)
  : nat -> json -> list (string * json) -> list (string * string) ->
    response * nat :=
  fun n _ _ _ => (nth n pages RequestException, S n).

(** The saved files of a state are numbered from 1 up to the index
    before the next one. *)
Definition numbered (dir : string) (s : state) : Prop :=
  saved_files s
  = map (out_path dir) (seq 1 (response_idx s - 1))
  /\ (1 <= response_idx s)%nat.

(** A successful response with a decoded body. *)
Definition ok_page (body : json) : response := Response 200 (Ok body).

(** *** Concrete data for the examples *)

Definition page_pagination : pagination_cfg :=
  {| pag_type := "page"; page_param := "page"; start_page := Some 1;
     cursor_param := ""; cursor_key := ""; next_link_key := "" |}.

Definition cfg_rate (rl : option json) (p : option pagination_cfg) : config :=
  {| name := "test_api"; base_url := "http://example.com";
     endpoint := "/data"; params := []; pagination := p; rate_limit := rl |}.

Definition two_pages : list response :=
  [ Response 200 (Ok (JArr [JObj [("id", JInt 1)]]));
    Response 200 (Ok (JArr [JObj [("id", JInt 2)]]));
    Response 200 (Ok (JArr [])) ].

Definition empty_world : world nat :=
  {| srv := 0%nat; files := []; sleeps := [] |}.



Definition cursor_pagination : pagination_cfg :=
  {| pag_type := "cursor"; page_param := ""; start_page := None;
     cursor_param := "after"; cursor_key := "next_cursor";
     next_link_key := "" |}.

(** Two pages, then the service is unavailable. *)
Definition pages_then_503 : list response :=
  [ ok_page (JArr [JObj [("id", JInt 1)]]);
    ok_page (JArr [JObj [("id", JInt 2)]]);
    Response 503 (Raise (Exn "JSONDecodeError" "Expecting value")) ].

End ApiAdapter.

(* ===================================================================== *)
(** ** The raw page store, as the validator and the transformer read it  *)
(* ===================================================================== *)

Module RawStore.

(** The decoded [*.json] files of one (api, date) directory, in sorted
    file-name order, concatenated into one list of rows: a list extends
    the rows, a dict is one row, anything else is skipped. *)
Fixpoint _load_rows (pages : list json) : list json :=
  match pages with
  | [] => []
  | JArr l :: rest => l ++ _load_rows rest
  | JObj kvs :: rest => JObj kvs :: _load_rows rest
  | _ :: rest => _load_rows rest
  end.

(** What a stage does to the file system. *)
Inductive effect : Type :=
| MakeDirs (path : string)
| WriteJson (path : string) (content : json)
| WriteYaml (path : string) (content : json).

Definition raw_dir (base_dir api_name execution_date : string) : string :=
  (base_dir ++ "/data/raw/" ++ api_name ++ "/" ++ execution_date)%string.

Definition invalid_dir (base_dir api_name execution_date : string) : string :=
  (base_dir ++ "/data/invalid/" ++ api_name ++ "/" ++ execution_date)%string.

(** Membership of a string in a list of strings. *)
Definition mem (x : string) (l : list string) : bool :=
  existsb (String.eqb x) l.

(** The columns of [pd.DataFrame(rows)]: the keys of the rows in order of
    first appearance.  Rows are JSON objects (a raw page is an object or
    an array of objects); a row of another kind brings no key. *)
Fixpoint add_keys (kvs : list (string * json)) (cols : list string)
  : list string :=
  match kvs with
  | [] => cols
  | (k, _) :: rest =>
      add_keys rest (if mem k cols then cols else cols ++ [k])
  end.

Fixpoint columns_from (rows : list json) (cols : list string) : list string :=
  match rows with
  | [] => cols
  | JObj kvs :: rest => columns_from rest (add_keys kvs cols)
  | _ :: rest => columns_from rest cols
  end.

Definition columns (rows : list json) : list string := columns_from rows [].

(** The cell of a row under a column: [None] is the NaN pandas fills in
    for a key the row does not have. *)
Definition cell (row : json) (col : string) : option json :=
  match row with
  | JObj kvs => items_get col kvs
  | _ => None
  end.

(** [pd.isna] of a cell. *)
Definition cell_isna (c : option json) : bool :=
  match c with
  | None => true
  | Some JNull => true
  | Some _ => false
  end.

(** One row of [df.to_json(orient='records')]. *)
Definition record_of (cols : list string) (row : json) : json :=
  JObj (map (fun c => (c, match cell row c with
                          | Some v => v
                          | None => JNull
                          end)) cols).

(** *** The frame pandas builds from the rows

    [pd.DataFrame(rows)] infers a dtype for each column, and the cells
    are held in that dtype.  A column whose cells are all numbers, nulls
    or missing, and not all integers, is a float64 column: its integers
    are held as floats (so [1] becomes [1.0]; the float keeps the exact
    value of the integer here, where a float64 rounds beyond 2^53).
    Every other cell is held as it is. *)
Definition is_number (v : json) : bool :=
  match v with JInt _ | JFloat _ => true | _ => false end.

Definition numeric_column (col : list (option json)) : bool :=
  forallb (fun c => match c with
                    | None | Some JNull => true
                    | Some v => is_number v
                    end) col.

Definition widened (col : list (option json)) : bool :=
  numeric_column col
  && existsb (fun c => match c with Some (JInt _) => false | _ => true end) col.

Definition held (col : list (option json)) (v : json) : json :=
  match v with
  | JInt z => if widened col then JFloat (inject_Z z) else v
  | _ => v
  end.

Definition column_cells (rows : list json) (col : string) : list (option json) :=
  map (fun r => cell r col) rows.

(** A row with every value replaced by [g key value]. *)
Definition relabel (g : string -> json -> json) (r : json) : json :=
  match r with
  | JObj kvs => JObj (map (fun kv => (fst kv, g (fst kv) (snd kv))) kvs)
  | _ => r
  end.

Definition data_frame (rows : list json) : list json :=
  map (relabel (fun col v => held (column_cells rows col) v)) rows.

End RawStore.

(* ===================================================================== *)
(** ** [src/validators/schema_validator.py]                               *)
(* ===================================================================== *)

Module SchemaValidator.
Import RawStore.

(** The [schema] mapping of the config; [unique_keys] and
    [non_null_fields] are the entries of its [validation] mapping, empty
    when absent. *)
Record schema_cfg : Type := {
  required_columns : list string;
  dtypes : list (string * string);
  unique_keys : list string;
  non_null_fields : list string
}.

Record config : Type := {
  name : string;
  schema : option schema_cfg
}.

Record report : Type := {
  valid_rows : Z;
  invalid_rows : Z;
  errors : list json;
  inferred_schema : option json
}.

Inductive pandera_dtype : Type := PaInt | PaFloat | PaString | PaDateTime | PaBool.

Definition dtype_to_pandera (dtype : string) : result pandera_dtype :=
  if (dtype =? "int")%string then Ok PaInt
  else if (dtype =? "float")%string then Ok PaFloat
  else if (dtype =? "string")%string then Ok PaString
  else if (dtype =? "datetime")%string then Ok PaDateTime
  else if (dtype =? "bool")%string then Ok PaBool
  else Raise (KeyError dtype).

Record column : Type := {
  col_dtype : pandera_dtype;
  nullable : bool
}.

(** [columns[col] = ...] in a dict of columns. *)
Fixpoint columns_set (k : string) (c : column) (cols : list (string * column))
  : list (string * column) :=
  match cols with
  | [] => [(k, c)]
  | (k', c') :: rest =>
      if (k' =? k)%string then (k', c) :: rest
      else (k', c') :: columns_set k c rest
  end.

Fixpoint dtype_of (col : string) (dts : list (string * string)) : result string :=
  match dts with
  | [] => Raise (KeyError col)
  | (k, d) :: rest => if (k =? col)%string then Ok d else dtype_of col rest
  end.

(** The loop that builds the pandera columns from [required_columns]. *)
Fixpoint build_columns (sc : schema_cfg) (required : list string)
         (cols : list (string * column)) : result (list (string * column)) :=
  match required with
  | [] => Ok cols
  | col :: rest =>
      dtype <- dtype_of col (dtypes sc) ;;
      pa <- dtype_to_pandera dtype ;;
      build_columns sc rest
        (columns_set col {| col_dtype := pa;
                            nullable := negb (mem col (non_null_fields sc)) |}
                     cols)
  end.

(** One row of pandera's [failure_cases]: its [index] entry when that is
    a Python [int], and the record [to_dict('records')] gives for it. *)
Record failure_case : Type := {
  fc_index : option Z;
  fc_record : json
}.

(** What [schema.validate(df, lazy=True)] can do. *)
Inductive validation : Type :=
| Validated (len : Z)
| SchemaErrors (failure_cases : list failure_case)
| ValidateRaises (e : exn).

(** [set(valid_indices)], sorted. *)
Fixpoint insert_sorted (i : Z) (l : list Z) : list Z :=
  match l with
  | [] => [i]
  | j :: rest =>
      if i <? j then i :: l
      else if i =? j then l
      else j :: insert_sorted i rest
  end.

Definition sorted_set (l : list Z) : list Z :=
  fold_right insert_sorted [] l.

Fixpoint valid_indices (fcs : list failure_case) : list Z :=
  match fcs with
  | [] => []
  | fc :: rest =>
      match fc_index fc with
      | Some i => i :: valid_indices rest
      | None => valid_indices rest
      end
  end.

(** [df.loc[labels]]: a label outside the index raises. *)
Fixpoint loc (rows : list json) (labels : list Z) : result (list json) :=
  match labels with
  | [] => Ok []
  | i :: rest =>
      if (0 <=? i) && (i <? Z.of_nat (length rows)) then
        tl <- loc rows rest ;;
        Ok (nth (Z.to_nat i) rows JNull :: tl)
      else Raise (KeyError "not in index")
  end.

(** [df[field].isnull().any()]: the column must exist. *)
Definition isnull_any (rows : list json) (field : string) : result bool :=
  if mem field (columns rows)
  then Ok (existsb (fun r => cell_isna (cell r field)) rows)
  else Raise (KeyError field).

(** [repr] of a list of plain strings, as an f-string prints it. *)
Fixpoint join_quoted (l : list string) : string :=
  match l with
  | [] => ""
  | [x] => ("'" ++ x ++ "'")%string
  | x :: rest => ("'" ++ x ++ "', " ++ join_quoted rest)%string
  end.

Definition repr_list (l : list string) : string :=
  ("[" ++ join_quoted l ++ "]")%string.

Definition duplicate_error (keys : list string) : json :=
  JStr ("Duplicate values found in unique_keys: " ++ repr_list keys)%string.

Definition null_error (field : string) : json :=
  JStr ("Null values found in non_null_field: " ++ field)%string.

(** [invalid_rows / len(df) > 0.05], with the quotient and the threshold
    taken as exact rationals. *)
Definition over_threshold (invalid total : Z) : bool :=
  (0 <? total)
  && negb (Qle_bool (inject_Z invalid / inject_Z total) (5 # 100)).

Inductive pandas_dtype : Type :=
| DtInteger | DtFloat | DtBool | DtDatetime | DtObject.

Definition infer_dtype (dt : pandas_dtype) : string :=
  match dt with
  | DtInteger => "int"
  | DtFloat => "float"
  | DtBool => "bool"
  | DtDatetime => "datetime"
  | DtObject => "string"
  end.

(** The fields of the non-null loop that get an error. *)
Definition null_fields (rows : list json) (fields : list string) : list string :=
  filter (fun f => existsb (fun r => cell_isna (cell r f)) rows) fields.

Section Validate.

(** pandera and pandas, as far as the validator relies on them: the lazy
    validation of a frame against the built columns, the duplicate test
    over a subset of existing columns, and the dtype pandas infers for
    a column of cells. *)
Variable schema_validate : list (string * column) -> list json -> validation.
Variable duplicated_any : list json -> list string -> bool.
Variable series_dtype : list (option json) -> pandas_dtype.

(** [df.duplicated(subset=unique_keys).any()]: the columns must exist. *)
Definition duplicated (rows : list json) (keys : list string) : result bool :=
  match filter (fun k => negb (mem k (columns rows))) keys with
  | [] => Ok (duplicated_any rows keys)
  | k :: _ => Raise (KeyError k)
  end.

(** A frame with the dtypes it was built with.  [df.head(n)] keeps the
    first [n] rows, and with them the columns and the dtypes of the
    frame it is taken from. *)
Record typed_frame : Type := {
  tf_rows : list json;
  tf_columns : list string;
  tf_dtype : string -> pandas_dtype
}.

Definition frame_of (df : list json) : typed_frame :=
  {| tf_rows := df;
     tf_columns := columns df;
     tf_dtype := fun c => series_dtype (column_cells df c) |}.

Definition head (n : nat) (f : typed_frame) : typed_frame :=
  {| tf_rows := firstn n (tf_rows f);
     tf_columns := tf_columns f;
     tf_dtype := tf_dtype f |}.

Definition infer_schema (f : typed_frame) : json :=
  let cols := tf_columns f in
  JObj [ ("required_columns", JArr (map JStr cols));
         ("dtypes",
          JObj (map (fun c => (c, JStr (infer_dtype (tf_dtype f c)))) cols));
         ("validation",
          JObj [("unique_keys", JArr []); ("non_null_fields", JArr [])]) ].

(** The [for field in non_null_fields] loop. *)
Fixpoint check_non_null (rows : list json) (fields : list string)
         (errs : list json) : result (list json) :=
  match fields with
  | [] => Ok errs
  | field :: rest =>
      b <- isnull_any rows field ;;
      check_non_null rows rest (if b then errs ++ [null_error field] else errs)
  end.

(** The checks after the threshold gate, and the final report. *)
Definition finish (sc : schema_cfg) (rows : list json)
           (valid invalid : Z) (errs : list json) : result report :=
  errs1 <- (match unique_keys sc with
            | [] => Ok errs
            | _ :: _ =>
                d <- duplicated rows (unique_keys sc) ;;
                Ok (if d then errs ++ [duplicate_error (unique_keys sc)]
                    else errs)
            end) ;;
  errs2 <- check_non_null rows (non_null_fields sc) errs1 ;;
  Ok {| valid_rows := valid; invalid_rows := invalid; errors := errs2;
        inferred_schema := None |}.

(** The counts the [except SchemaErrors] branch computes. *)
Definition count_invalid (fcs : list failure_case) (total : Z) : Z :=
  match valid_indices fcs with
  | [] => total
  | _ :: _ => Z.of_nat (length (sorted_set (valid_indices fcs)))
  end.

(** [validate_schema]: [base_dir] is the root the probing of candidate
    directories settles on, [pages] the decoded files of its raw
    directory for the api and date.  The result comes with the effects on
    the file system, in order. *)
Definition validate_schema (cfg : config) (base_dir execution_date : string)
           (pages : list json) : result report * list effect :=
  let inv_dir := invalid_dir base_dir (name cfg) execution_date in
  let fx0 := [MakeDirs inv_dir] in
  let all_rows := _load_rows pages in
  match all_rows with
  | [] =>
      (Ok {| valid_rows := 0; invalid_rows := 0;
             errors := [JStr "No data found."]; inferred_schema := None |},
       fx0)
  | _ :: _ =>
      let df := data_frame all_rows in
      let total := Z.of_nat (length df) in
      match schema cfg with
      | Some sc =>
          match build_columns sc (required_columns sc) [] with
          | Raise e => (Raise e, fx0)
          | Ok cols =>
              match schema_validate cols df with
              | ValidateRaises e => (Raise e, fx0)
              | Validated len => (finish sc df len 0 [], fx0)
              | SchemaErrors fcs =>
                  let invalid := count_invalid fcs total in
                  let valid := total - invalid in
                  let file := (inv_dir ++ "/invalid_rows.json")%string in
                  let dumped :=
                    match valid_indices fcs with
                    | [] => Ok df
                    | _ :: _ => loc df (sorted_set (valid_indices fcs))
                    end in
                  match dumped with
                  | Raise e => (Raise e, fx0)
                  | Ok bad =>
                      let fx1 :=
                        fx0 ++ [WriteJson file
                                  (JArr (map (record_of (columns df)) bad))] in
                      let errs := map fc_record fcs in
                      if over_threshold invalid total
                      then (Ok {| valid_rows := valid; invalid_rows := invalid;
                                  errors := errs; inferred_schema := None |},
                            fx1)
                      else (finish sc df valid invalid errs, fx1)
                  end
              end
          end
      | None =>
          let inferred := infer_schema (head 100 (frame_of df)) in
          let inferred_dir := (base_dir ++ "/configs/inferred_schemas")%string in
          (Ok {| valid_rows := total; invalid_rows := 0; errors := [];
                 inferred_schema := Some inferred |},
           fx0 ++ [MakeDirs inferred_dir;
                   WriteYaml (inferred_dir ++ "/" ++ name cfg ++ ".yaml")%string
                             inferred])
      end
  end.

(** The error the unique-key check appends, if any. *)
Definition duplicate_errors (rows : list json) (keys : list string) : list json :=
  match keys with
  | [] => []
  | _ :: _ => if duplicated_any rows keys then [duplicate_error keys] else []
  end.

End Validate.

(** *** Concrete data for the examples *)

(** Stand-ins for pandera and pandas in the concrete runs below: a
    column validator that reports, as pandera does, the cells that are
    null in a column that is not nullable (the runs below have no cell
    that fails a coercion), and a duplicate test that compares the key
    cells of two rows structurally. *)
Fixpoint null_cells (col : string) (rows : list json) (i : Z)
  : list failure_case :=
  match rows with
  | [] => []
  | r :: rest =>
      (if cell_isna (cell r col)
       then [{| fc_index := Some i;
                fc_record := JObj [ ("schema_context", JStr "Column");
                                    ("column", JStr col);
                                    ("check", JStr "not_nullable");
                                    ("check_number", JNull);
                                    ("failure_case", JNull);
                                    ("index", JInt i) ] |}]
       else [])
      ++ null_cells col rest (i + 1)
  end.

Definition nullable_validator (cols : list (string * column))
           (rows : list json) : validation :=
  match flat_map (fun kc => if nullable (snd kc) then []
                            else null_cells (fst kc) rows 0) cols with
  | [] => Validated (Z.of_nat (length rows))
  | fcs => SchemaErrors fcs
  end.

Definition cell_eqb (a b : option json) : bool :=
  match a, b with
  | Some x, Some y => json_eqb x y
  | None, None => true
  | _, _ => false
  end.

Fixpoint structural_duplicates (rows : list json) (keys : list string) : bool :=
  match rows with
  | [] => false
  | r :: rest =>
      existsb (fun r' => forallb (fun k => cell_eqb (cell r k) (cell r' k)) keys)
              rest
      || structural_duplicates rest keys
  end.

(** The dtype of a column of cells, as far as the runs below need it:
    integers, numbers with nulls, booleans, and objects otherwise. *)
Definition plain_dtype (col : list (option json)) : pandas_dtype :=
  if forallb (fun c => match c with Some (JInt _) => true | _ => false end) col
  then DtInteger
  else if numeric_column col then DtFloat
  else if forallb (fun c => match c with Some (JBool _) => true | _ => false end)
                  col
  then DtBool
  else DtObject.

Definition event_schema : schema_cfg :=
  {| required_columns := ["id"; "type"];
     dtypes := [("id", "int"); ("type", "string")];
     unique_keys := ["id"];
     non_null_fields := ["type"] |}.

Definition event_cfg : config :=
  {| name := "test_api"; schema := Some event_schema |}.

Definition event (i : Z) : json :=
  JObj [("id", JInt i); ("type", JStr "PushEvent")].

(** Twenty rows: the second has a null type and shares its id with
    the first. *)
Definition twenty_rows : list json :=
  [ event 1; JObj [("id", JInt 1); ("type", JNull)] ]
  ++ map (fun n => event (Z.of_nat n)) (seq 2 18).

(** The rows that have a failure case: the positions that occur among
    the integer labels of the failure cases. *)
Definition failing_rows (fcs : list failure_case) (n : nat) : list nat :=
  filter (fun i => existsb (Z.eqb (Z.of_nat i)) (valid_indices fcs)) (seq 0 n).

(** The rows the failure cases make invalid: all of them when no
    failure case carries a row label, and otherwise the rows that have a
    failure case, each counted once. *)
Definition rows_with_failures (fcs : list failure_case) (n : nat) : Z :=
  match valid_indices fcs with
  | [] => Z.of_nat n
  | _ :: _ => Z.of_nat (length (failing_rows fcs n))
  end.

(** A schema whose non-null field [actor] is not a required column. *)
Definition absent_actor_cfg : config :=
  {| name := "test_api";
     schema := Some {| required_columns := ["id"; "type"];
                       dtypes := [("id", "int"); ("type", "string")];
                       unique_keys := [];
                       non_null_fields := ["type"; "actor"] |} |}.

(** A list of integers that increases strictly, from [lo] on. *)
Fixpoint increasing_from (lo : Z) (l : list Z) : Prop :=
  match l with
  | [] => True
  | i :: rest => lo <= i /\ increasing_from (i + 1) rest
  end.

(** The entry of a column in the dict of pandera columns. *)
Fixpoint columns_get (k : string) (cols : list (string * column))
  : option column :=
  match cols with
  | [] => None
  | (k', c) :: rest => if (k' =? k)%string then Some c else columns_get k rest
  end.

(** A column has a pandera type when the schema declares a dtype for it
    and the dtype is one of the five names. *)
Definition typed (sc : schema_cfg) (col : string) (pa : pandera_dtype) : Prop :=
  exists d, dtype_of col (dtypes sc) = Ok d /\ dtype_to_pandera d = Ok pa.





End SchemaValidator.

(* ===================================================================== *)
(** ** [src/transformers/data_transformer.py]                             *)
(* ===================================================================== *)

Module DataTransformer.
Import RawStore.

(** One entry of [mappings]; an optional key is [None] when it is absent
    or null. *)
Record mapping : Type := {
  source : string;
  target : string;
  type_ : option string;
  format : option string;
  scale : option json;
  offset : option json
}.

Record config : Type := {
  name : string;
  mappings : list mapping
}.

(** A converted cell: [None] is [pd.NA] / [NaT]. *)
Inductive value : Type :=
| VInt (z : Z)
| VFloat (q : Q)
| VBool (b : bool)
| VStr (s : string)
| VTime (t : Z).

Definition series : Type := list (option value).

(** A data frame: the row labels that are left, and the columns in order,
    each aligned with the labels. *)
Record frame : Type := {
  index : list nat;
  columns : list (string * series)
}.

(** [df[label] = col]: replaces the column in place or appends it. *)
Fixpoint frame_set (label : string) (col : series)
         (cols : list (string * series)) : list (string * series) :=
  match cols with
  | [] => [(label, col)]
  | (l, c) :: rest =>
      if (l =? label)%string then (l, col) :: rest
      else (l, c) :: frame_set label col rest
  end.

Fixpoint frame_get (label : string) (cols : list (string * series))
  : result series :=
  match cols with
  | [] => Raise (KeyError label)
  | (l, c) :: rest =>
      if (l =? label)%string then Ok c else frame_get label rest
  end.

(** [df[labels]]: the listed columns, in the listed order. *)
Fixpoint frame_select (labels : list string) (cols : list (string * series))
  : result (list (string * series)) :=
  match labels with
  | [] => Ok []
  | l :: rest =>
      c <- frame_get l cols ;;
      tl <- frame_select rest cols ;;
      Ok ((l, c) :: tl)
  end.

(** [x[mask]] on anything aligned with the rows. *)
Fixpoint keep {A : Type} (mask : list bool) (l : list A) : list A :=
  match mask, l with
  | b :: mask', x :: l' => if b then x :: keep mask' l' else keep mask' l'
  | _, _ => []
  end.

(** [json_normalize(rows, sep='.')], row by row: values that are not
    dicts keep their key, nested dicts are walked with dot-joined keys and
    override a plain key of the same name. *)
Definition new_key (key_string key : string) : string :=
  match key_string with
  | EmptyString => key
  | _ => (key_string ++ "." ++ key)%string
  end.

Fixpoint normalise_json (data : json) (key_string : string)
         (normalized_dict : list (string * json)) : list (string * json) :=
  match data with
  | JObj kvs =>
      (fix items (kvs : list (string * json)) (acc : list (string * json))
         : list (string * json) :=
         match kvs with
         | [] => acc
         | (key, v) :: rest =>
             items rest (normalise_json v (new_key key_string key) acc)
         end) kvs normalized_dict
  | _ => items_set key_string data normalized_dict
  end.

Definition normalise_json_ordered (kvs : list (string * json))
  : list (string * json) :=
  let top_dict := filter (fun kv => negb (is_dict (snd kv))) kvs in
  let nested := filter (fun kv => is_dict (snd kv)) kvs in
  fold_left (fun acc kv => items_set (fst kv) (snd kv) acc)
            (normalise_json (JObj nested) "" [])
            top_dict.

Definition flatten_row (row : json) : json :=
  match row with
  | JObj kvs => JObj (normalise_json_ordered kvs)
  | _ => JObj []
  end.

(** The frame [json_normalize] returns: the flattened rows, held in the
    dtypes pandas infers for their columns. *)
Definition json_normalize (rows : list json) : list json :=
  data_frame (map flatten_row rows).

(** [str.lower] and [str.strip] on UTF-8 strings.  [lower] maps the
    ASCII capitals; a character outside ASCII never lowers to a string
    of the ASCII letters the words below are made of, so the comparison
    with those words is not affected.  [strip] removes the characters
    [str.isspace] holds of: the ASCII ones (9 to 13, 28 to 32) and
    U+0085, U+00A0, U+1680, U+2000 to U+200A, U+2028, U+2029, U+202F,
    U+205F and U+3000 in their UTF-8 encodings. *)
Definition lower_ascii (c : ascii) : ascii :=
  let n := nat_of_ascii c in
  if (65 <=? n)%nat && (n <=? 90)%nat then ascii_of_nat (n + 32) else c.

Fixpoint lower (s : string) : string :=
  match s with
  | EmptyString => EmptyString
  | String c rest => String (lower_ascii c) (lower rest)
  end.

Definition is_space (c : ascii) : bool :=
  let n := nat_of_ascii c in
  ((9 <=? n)%nat && (n <=? 13)%nat)
  || ((28 <=? n)%nat && (n <=? 32)%nat).

(** The second byte of a two-byte space after 0xC2, and the last two
    bytes of a three-byte space after 0xE1, 0xE2 or 0xE3. *)
Definition space_c2 (b : ascii) : bool :=
  let n := nat_of_ascii b in (n =? 133)%nat || (n =? 160)%nat.

Definition space_3 (a b c : ascii) : bool :=
  let x := nat_of_ascii a in
  let y := nat_of_ascii b in
  let z := nat_of_ascii c in
  ((x =? 225) && (y =? 154) && (z =? 128))%nat
  || ((x =? 226) && (y =? 128)
      && (((128 <=? z) && (z <=? 138)) || (z =? 168) || (z =? 169)
          || (z =? 175)))%nat
  || ((x =? 226) && (y =? 129) && (z =? 159))%nat
  || ((x =? 227) && (y =? 128) && (z =? 128))%nat.

Fixpoint lstrip (s : string) : string :=
  match s with
  | EmptyString => EmptyString
  | String a rest =>
      if is_space a then lstrip rest
      else
        match rest with
        | String b rest2 =>
            if (nat_of_ascii a =? 194)%nat && space_c2 b then lstrip rest2
            else
              match rest2 with
              | String c rest3 => if space_3 a b c then lstrip rest3 else s
              | EmptyString => s
              end
        | EmptyString => s
        end
  end.

(** A string made of spaces only. *)
Fixpoint all_space (s : string) : bool :=
  match s with
  | EmptyString => true
  | String a rest =>
      if is_space a then all_space rest
      else
        match rest with
        | String b rest2 =>
            if (nat_of_ascii a =? 194)%nat && space_c2 b then all_space rest2
            else
              match rest2 with
              | String c rest3 => space_3 a b c && all_space rest3
              | EmptyString => false
              end
        | EmptyString => false
        end
  end.

Fixpoint rstrip (s : string) : string :=
  match s with
  | EmptyString => EmptyString
  | String c rest => if all_space s then EmptyString else String c (rstrip rest)
  end.

Definition strip (s : string) : string := rstrip (lstrip s).

Definition truthy_words : list string := ["true"; "1"; "yes"; "y"; "t"].
Definition falsy_words : list string := ["false"; "0"; "no"; "n"; "f"].

(** The integral value of a rational, if it has one. *)
Definition integral (q : Q) : option Z :=
  if (Z.pos (Qden q) * (Qnum q / Z.pos (Qden q)) =? Qnum q)
  then Some (Qnum q / Z.pos (Qden q)) else None.

(** [.astype('Int64')] of a numeric column: a value with a fractional
    part, or outside the 64-bit signed range, cannot be cast.  The
    message is the one pandas gives for a float64 column. *)
Definition int64_min : Z := - 2 ^ 63.
Definition int64_max : Z := 2 ^ 63 - 1.

Definition cast_int64 (q : Q) : option Z :=
  match integral q with
  | Some z => if (int64_min <=? z) && (z <=? int64_max) then Some z else None
  | None => None
  end.

Fixpoint astype_Int64 (col : list (option Q)) : result series :=
  match col with
  | [] => Ok []
  | None :: rest => tl <- astype_Int64 rest ;; Ok (None :: tl)
  | Some q :: rest =>
      match cast_int64 q with
      | Some z => tl <- astype_Int64 rest ;; Ok (Some (VInt z) :: tl)
      | None => Raise (TypeError "cannot safely cast non-equivalent float64 to int64")
      end
  end.

Definition astype_Float64 (col : list (option Q)) : series :=
  map (option_map VFloat) col.

(** [m <- f x] over a column. *)
Fixpoint map_result {A B : Type} (f : A -> result B) (l : list A)
  : result (list B) :=
  match l with
  | [] => Ok []
  | x :: rest => y <- f x ;; tl <- map_result f rest ;; Ok (y :: tl)
  end.

Section Convert.

(** pandas and Python, as far as the transformer relies on them:
    - [parse_datetime now fmt col c]: the UTC instant [pd.to_datetime]
      (with [errors='coerce', utc=True]) gives the cell [c] of the column
      [col] when the wall clock reads [now] during the call: pandas
      resolves the strings ["now"] and ["today"] against it (one
      reading stands for the whole call);
    - [numeric_cell col c]: the number [pd.to_numeric] (with
      [errors='coerce']) gives the cell [c] of the column [col];
    - [str_other]: [str(x)] of a float or a list;
    - [to_bool_list]: what [to_bool] does with a list-valued cell, whose
      [pd.isna] is an array;
    - [value_mul], [value_add]: [x * scale] and [x + offset] on one
      converted value. *)
Variable parse_datetime :
  Z -> option string -> list (option json) -> option json -> option Z.
Variable numeric_cell : list (option json) -> option json -> option Q.
Variable str_other : json -> string.
Variable to_bool_list : list json -> result (option bool).
Variable value_mul : value -> json -> result value.
Variable value_add : value -> json -> result value.

(** [str(x)] of a cell value, as the column holds it. *)
Definition py_str (x : json) : string :=
  match x with
  | JNull => "None"
  | JBool true => "True"
  | JBool false => "False"
  | JInt z => NilZero.string_of_int (Z.to_int z)
  | JStr s => s
  | _ => str_other x
  end.

(** The inner function [to_bool] of [_convert_series]. *)
Definition to_bool (x : option json) : result (option bool) :=
  match x with
  | Some (JBool b) => Ok (Some b)
  | None => Ok None
  | Some JNull => Ok None
  | Some (JArr l) => to_bool_list l
  | Some v =>
      let s := lower (strip (py_str v)) in
      if mem s truthy_words then Ok (Some true)
      else if mem s falsy_words then Ok (Some false)
      else Ok None
  end.

(** [series.astype('string')]: missing cells stay missing. *)
Definition astype_string (col : list (option json)) : series :=
  map (fun c => if cell_isna c then None
                else match c with
                     | Some v => Some (VStr (py_str v))
                     | None => None
                     end) col.

(** [converted * scale] and [converted + offset] inside their
    [try]/[except]: a failure turns the whole column into NA. *)
Definition arith (op : value -> json -> result value) (k : json)
           (converted : series) : series :=
  match map_result (fun c => match c with
                             | None => Ok None
                             | Some v => x <- op v k ;; Ok (Some x)
                             end) converted with
  | Ok col => col
  | Raise _ => map (fun _ => None) converted
  end.

Definition apply_units (scale offset : option json) (converted : series)
  : series :=
  let scaled := match scale with
                | Some k => arith value_mul k converted
                | None => converted
                end in
  match offset with
  | Some k => arith value_add k scaled
  | None => scaled
  end.

(** [_convert_series], with the reading [now] of the wall clock during
    the call. *)
Definition _convert_series (now : Z) (col : list (option json))
           (target_type : string)
           (fmt : option string) (scale offset : option json)
  : result series :=
  if (target_type =? "datetime")%string then
    Ok (map (fun c => option_map VTime (parse_datetime now fmt col c)) col)
  else
    converted <-
      (if (target_type =? "int")%string then
         astype_Int64 (map (numeric_cell col) col)
       else if (target_type =? "float")%string then
         Ok (astype_Float64 (map (numeric_cell col) col))
       else if (target_type =? "bool")%string then
         bs <- map_result to_bool col ;;
         Ok (map (option_map VBool) bs)
       else Ok (astype_string col)) ;;
    Ok (apply_units scale offset converted).

(** The source column of a mapping in the flattened frame, or an all-NA
    column when the frame has no such column. *)
Definition source_series (df_flat : list json) (m : mapping)
  : list (option json) :=
  if mem (source m) (RawStore.columns df_flat)
  then map (fun r => cell r (source m)) df_flat
  else map (fun _ => None) df_flat.

Definition convert_mapping (now : Z) (df_flat : list json) (m : mapping)
  : result series :=
  _convert_series now (source_series df_flat m)
                 (match type_ m with Some t => t | None => "string" end)
                 (format m) (scale m) (offset m).

Definition isna (col : series) : list bool :=
  map (fun c => match c with None => true | Some _ => false end) col.

Fixpoint mask_or (a b : list bool) : list bool :=
  match a, b with
  | x :: a', y :: b' => (x || y) :: mask_or a' b'
  | _, _ => []
  end.

(** The [for m in mappings] loop: the columns of [out_df] and the mask of
    invalid rows.  [k] is the position of the next mapping in the
    config, and [times k] the reading of the wall clock while it is
    converted. *)
Fixpoint apply_mappings (times : nat -> Z) (df_flat : list json)
         (ms : list mapping) (k : nat)
         (out : list (string * series)) (invalid_mask : list bool)
  : result (list (string * series) * list bool) :=
  match ms with
  | [] => Ok (out, invalid_mask)
  | m :: rest =>
      converted <- convert_mapping (times k) df_flat m ;;
      apply_mappings times df_flat rest (S k)
                     (frame_set (target m) converted out)
                     (mask_or invalid_mask (isna converted))
  end.

Definition header (cfg : config) : list string :=
  map target (mappings cfg) ++ ["ingestion_timestamp"; "source"].

(** [transform_data]: [base_dir] and [pages] as for the validator,
    [times] the readings of the wall clock during the conversions, and
    [now_utc] the reading of [datetime.now(timezone.utc)]. *)
Definition transform_data (cfg : config) (base_dir execution_date : string)
           (pages : list json) (times : nat -> Z) (now_utc : Z)
  : result frame * list effect :=
  let inv_dir := invalid_dir base_dir (name cfg) execution_date in
  let fx0 := [MakeDirs inv_dir] in
  let rows := _load_rows pages in
  match rows with
  | [] => (Ok {| index := []; columns := map (fun c => (c, [])) (header cfg) |},
           fx0)
  | _ :: _ =>
      let df_flat := json_normalize rows in
      let labels := seq 0 (length df_flat) in
      match apply_mappings times df_flat (mappings cfg) 0 []
                           (map (fun _ => false) df_flat) with
      | Raise e => (Raise e, fx0)
      | Ok (out, invalid_mask) =>
          let invalid_rows := keep invalid_mask df_flat in
          let fx1 :=
            match invalid_rows with
            | [] => fx0
            | _ :: _ =>
                fx0 ++ [WriteJson
                          (inv_dir ++ "/transform_invalid_rows.json")%string
                          (JArr (map (record_of (RawStore.columns df_flat))
                                     invalid_rows))]
            end in
          let valid := map negb invalid_mask in
          let clean_index := keep valid labels in
          let clean := map (fun lc => (fst lc, keep valid (snd lc))) out in
          let stamped :=
            frame_set "source" (map (fun _ => Some (VStr (name cfg))) clean_index)
              (frame_set "ingestion_timestamp"
                         (map (fun _ => Some (VTime now_utc)) clean_index)
                         clean) in
          match frame_select (header cfg) stamped with
          | Raise e => (Raise e, fx1)
          | Ok cols => (Ok {| index := clean_index; columns := cols |}, fx1)
          end
      end
  end.

(** The mapped field [m] of row [i] converted to a non-null value, at
    the clock reading [now]. *)
Definition field_converted (now : Z) (df_flat : list json) (m : mapping)
           (i : nat) : Prop :=
  exists col v, convert_mapping now df_flat m = Ok col
                /\ nth_error col i = Some (Some v).

End Convert.

(** The frame after the two metadata columns are set. *)
Definition stamped (cfg : config) (now_utc : Z) (clean_index : list nat)
           (clean : list (string * series)) : list (string * series) :=
  frame_set "source" (map (fun _ => Some (VStr (name cfg))) clean_index)
    (frame_set "ingestion_timestamp"
               (map (fun _ => Some (VTime now_utc)) clean_index) clean).

(** Two frames that agree on the rows, on the column labels and on every
    cell outside the [ingestion_timestamp] columns, which hold the clock
    reading of their own run. *)
Definition agree_but_timestamp (now1 now2 : Z) (f1 f2 : frame) : Prop :=
  index f1 = index f2
  /\ Forall2
       (fun a b =>
          fst a = fst b
          /\ (fst a <> "ingestion_timestamp"%string -> snd a = snd b)
          /\ (fst a = "ingestion_timestamp"%string ->
              snd a = map (fun _ => Some (VTime now1)) (index f1)
              /\ snd b = map (fun _ => Some (VTime now2)) (index f2)))
       (columns f1) (columns f2).

Definition epoch_ns (now : Z) (_ : option string) (_ : list (option json))
           (c : option json) : option Z :=
  match c with
  | Some (JInt n) => Some n
  | Some (JFloat q) => integral q
  | Some (JStr s) => if (s =? "now")%string then Some now else None
  | _ => None
  end.

Definition plain_numeric (_ : list (option json)) (c : option json) : option Q :=
  match c with
  | Some (JInt z) => Some (inject_Z z)
  | Some (JFloat q) => Some q
  | _ => None
  end.

(** [str] of a float with an integral value, as [1.0]; the runs below
    print no other float and no list. *)
Definition plain_str (x : json) : string :=
  match x with
  | JFloat q =>
      match integral q with
      | Some z => (NilZero.string_of_int (Z.to_int z) ++ ".0")%string
      | None => "<float>"
      end
  | _ => "<object>"
  end.

Definition no_bool_list (_ : list json) : result (option bool) := Ok None.

Definition int_mul (v : value) (k : json) : result value :=
  match v, k with
  | VInt z, JInt n => Ok (VInt (z * n))
  | _, _ => Raise (TypeError "unsupported operand type(s) for *")
  end.

Definition int_add (v : value) (k : json) : result value :=
  match v, k with
  | VInt z, JInt n => Ok (VInt (z + n))
  | _, _ => Raise (TypeError "unsupported operand type(s) for +")
  end.

(** A wall clock that reads [t] at every conversion. *)
Definition still (t : Z) : nat -> Z := fun _ => t.

Definition demo_transform (cfg : config) (base_dir execution_date : string)
           (pages : list json) : Z -> result frame * list effect :=
  transform_data epoch_ns plain_numeric plain_str no_bool_list int_mul int_add
                 cfg base_dir execution_date pages (still 0).

Definition demo_convert :=
  convert_mapping epoch_ns plain_numeric plain_str no_bool_list int_mul int_add 0.

Definition plain_mapping (src tgt ty : string) : mapping :=
  {| source := src; target := tgt; type_ := Some ty; format := None;
     scale := None; offset := None |}.

Definition events_cfg : config :=
  {| name := "test_api";
     mappings := [ plain_mapping "type" "event_type" "string";
                   plain_mapping "repo.id" "repo_id" "int" ] |}.

(** Two events; the nested id of the second is not a number. *)
Definition event_pages : list json :=
  [ JArr [ JObj [("type", JStr "PushEvent"); ("repo", JObj [("id", JInt 123)])];
           JObj [("type", JStr "ForkEvent");
                 ("repo", JObj [("id", JStr "not_int")])] ] ].

Definition events_out (now_utc : Z) : frame :=
  {| index := [0%nat];
     columns := [ ("event_type", [Some (VStr "PushEvent")]);
                  ("repo_id", [Some (VInt 123)]);
                  ("ingestion_timestamp", [Some (VTime now_utc)]);
                  ("source", [Some (VStr "test_api")]) ] |}.

Definition events_fx : list effect :=
  [ MakeDirs "/opt/airflow/data/invalid/test_api/2024-06-10";
    WriteJson
      "/opt/airflow/data/invalid/test_api/2024-06-10/transform_invalid_rows.json"
      (JArr [JObj [("type", JStr "ForkEvent"); ("repo.id", JStr "not_int")]]) ].

Definition login_cfg : config :=
  {| name := "test_api";
     mappings := [ plain_mapping "actor.login" "user_login" "string" ] |}.

(** Two rows; the login of the second is a JSON null. *)
Definition login_pages : list json :=
  [ JArr [ JObj [("actor", JObj [("login", JStr "alice")])];
           JObj [("actor", JObj [("login", JNull)])] ] ].

(** Every column the loop has set so far is as long as the frame, and
    its nulls are in the mask. *)
Definition masked (df_flat : list json) (out : list (string * series))
           (mask : list bool) : Prop :=
  forall l c, In (l, c) out ->
    (length c = length df_flat)%nat
    /\ forall i, nth_error c i = Some None -> nth_error mask i = Some true.

(** The dtype of the column [_convert_series] builds for a target type,
    before any scale or offset: the dtype of [pd.to_datetime] made
    naive, or the one named in the [astype] of its branch. *)
Definition converted_dtype (target_type : string) : string :=
  if (target_type =? "datetime")%string then "datetime64[ns]"
  else if (target_type =? "int")%string then "Int64"
  else if (target_type =? "float")%string then "Float64"
  else if (target_type =? "bool")%string then "boolean"
  else "string".

(** A datetime mapping, and a page whose cell is the string [now]. *)
Definition timed_cfg : config :=
  {| name := "test_api";
     mappings := [ plain_mapping "created_at" "event_time" "datetime" ] |}.

Definition now_pages : list json := [ JArr [ JObj [("created_at", JStr "now")] ] ].

Definition epoch_pages : list json :=
  [ JArr [ JObj [("created_at", JInt 1718020800)];
           JObj [("created_at", JInt 1718024400)] ] ].

(** Three rows with a count, of which the second holds a null: pandas
    holds the column as floats. *)
Definition count_pages : list json :=
  [ JArr [ JObj [("n", JInt 1)]; JObj [("n", JNull)]; JObj [("n", JInt 2)] ] ].

(** A mapping whose source no event has. *)
Definition typo_cfg : config :=
  {| name := "test_api";
     mappings := [ plain_mapping "type" "event_type" "string";
                   plain_mapping "actor.name" "actor" "string" ] |}.

(** One event whose nested id has a fractional part. *)
Definition fractional_pages : list json :=
  [ JArr [ JObj [("type", JStr "PushEvent");
                 ("repo", JObj [("id", JFloat (3 # 2))])] ] ].

(** A mapping that targets the [source] column. *)
Definition source_target_cfg : config :=
  {| name := "test_api";
     mappings := [ plain_mapping "type" "source" "string" ] |}.

End DataTransformer.

(* ===================================================================== *)
(** ** [src/loaders/postgres_loader.py]                                   *)
(* ===================================================================== *)

Module PostgresLoader.
Import DataTransformer.

(** The keys of the config [load_to_postgres] reads. *)
Record config : Type := {
  name : string;
  output_table : option string;
  unique_keys : list string
}.

(** One row of [pipeline_monitor]. *)
Record run_record : Type := {
  rr_run_id : string;
  rr_dag_id : string;
  rr_run_date : string;
  rr_rows_processed : Z;
  rr_duration_sec : Q;
  rr_status : string;
  rr_error_message : option string
}.

(** The dict [load_to_postgres] returns. *)
Record load_result : Type := {
  run_id : string;
  rows_processed : Z;
  duration_sec : Q;
  status : string
}.

(** What the loader asks of the database, one transaction each:
    - [CreateMonitorTable]: [_create_pipeline_monitor_table];
    - [CreateAnalyticsTable]: the [CREATE TABLE IF NOT EXISTS] of
      [_create_analytics_table], derived from the frame;
    - [UpsertByKey]: the [INSERT ... ON CONFLICT] of [_upsert_data], with
      the columns it updates on conflict;
    - [DeleteThenInsert]: its [DELETE WHERE run_date] followed by the
      insert of all rows;
    - [LogRun]: the insert of [_log_pipeline_run]. *)
Inductive db_call : Type :=
| CreateMonitorTable
| CreateAnalyticsTable (table : string) (df : frame) (keys : list string)
| UpsertByKey (table : string) (df : frame) (keys : list string)
              (update_columns : list string)
| DeleteThenInsert (table : string) (run_date : string) (df : frame)
| LogRun (entry : run_record).

(** [df.empty]: no rows or no columns. *)
Definition frame_empty (df : frame) : bool :=
  match index df, columns df with
  | _ :: _, _ :: _ => false
  | _, _ => true
  end.

Section Load.

(** The database: its state, and its answer to one call, which is the
    number of affected rows or an exception. *)
Variable DB : Type.
Variable exec : DB -> db_call -> result Z * DB.

(** The other collaborators of one invocation: the parsed config (or the
    exception of reading it), [create_engine], the result of
    [transform_data(config_path, execution_date)], the fresh run id, and
    the successive readings of [time.time()]. *)
Variable read_config : string -> result config.
Variable create_engine : result unit.
Variable transform : string -> string -> result frame.
Variable fresh_run_id : string.
Variable clock : nat -> Q.

(** The database, the calls issued so far with the answers they got
    (latest last), and the number of clock readings taken. *)
Record world : Type := {
  db : DB;
  calls : list (db_call * result Z);
  ticks : nat
}.

Definition M (A : Type) : Type := world -> result A * world.

Definition ret {A : Type} (a : A) : M A := fun w => (Ok a, w).

Definition mbind {A B : Type} (m : M A) (k : A -> M B) : M B :=
  fun w => match m w with
           | (Ok a, w') => k a w'
           | (Raise e, w') => (Raise e, w')
           end.

Definition lift {A : Type} (r : result A) : M A := fun w => (r, w).

Definition call (c : db_call) : M Z :=
  fun w => let (r, db') := exec (db w) c in
           (r, {| db := db'; calls := calls w ++ [(c, r)]; ticks := ticks w |}).

(** [time.time()]. *)
Definition tick (w : world) : Q * world :=
  (clock (ticks w), {| db := db w; calls := calls w; ticks := S (ticks w) |}).

Definition time : M Q := fun w => let (t, w') := tick w in (Ok t, w').

Definition _create_pipeline_monitor_table : M Z := call CreateMonitorTable.

Definition _create_analytics_table (table : string) (df : frame)
           (keys : list string) : M Z :=
  call (CreateAnalyticsTable table df keys).

Definition _log_pipeline_run (dag_id run_date : string) (rows : Z)
           (duration : Q) (st : string) (error_message : option string) : M Z :=
  call (LogRun {| rr_run_id := fresh_run_id; rr_dag_id := dag_id;
                  rr_run_date := run_date; rr_rows_processed := rows;
                  rr_duration_sec := duration; rr_status := st;
                  rr_error_message := error_message |}).

Definition _upsert_data (table : string) (df : frame) (keys : list string)
           (run_date : string) : M Z :=
  if frame_empty df then ret 0
  else
    match keys with
    | _ :: _ =>
        call (UpsertByKey table df keys
                (filter (fun c => negb (RawStore.mem c keys))
                        (map fst (columns df))))
    | [] =>
        mbind (call (DeleteThenInsert table run_date df))
              (fun _ => ret (Z.of_nat (length (index df))))
    end.

(** [df['run_date'] = execution_date] when no unique keys are configured
    and the frame has no such column. *)
Definition with_run_date (keys : list string) (execution_date : string)
           (df : frame) : frame :=
  match keys with
  | [] =>
      if RawStore.mem "run_date" (map fst (columns df)) then df
      else {| index := index df;
              columns := frame_set "run_date"
                           (map (fun _ => Some (VStr execution_date)) (index df))
                           (columns df) |}
  | _ :: _ => df
  end.

Definition success (rows : Z) (duration : Q) : load_result :=
  {| run_id := fresh_run_id; rows_processed := rows;
     duration_sec := duration; status := "success" |}.

(** The [try] block from the point where [engine] is bound. *)
Definition try_block (cfg : config) (config_path execution_date : string)
           (start_time : Q) : M load_result :=
  let api_name := name cfg in
  let table := match output_table cfg with
               | Some t => t
               | None => (api_name ++ "_events")%string
               end in
  mbind _create_pipeline_monitor_table (fun _ =>
  mbind (lift (transform config_path execution_date)) (fun df =>
  if frame_empty df then
    mbind time (fun t =>
    let duration := (t - start_time)%Q in
    mbind (_log_pipeline_run api_name execution_date 0 duration "success" None)
          (fun _ => ret (success 0 duration)))
  else
    mbind (_create_analytics_table table df (unique_keys cfg)) (fun _ =>
    let df1 := with_run_date (unique_keys cfg) execution_date df in
    mbind (_upsert_data table df1 (unique_keys cfg) execution_date) (fun rows =>
    mbind time (fun t =>
    let duration := (t - start_time)%Q in
    mbind (_log_pipeline_run api_name execution_date rows duration "success" None)
          (fun _ => ret (success rows duration))))))).

(** The [except] handler: the duration is taken and, when [engine] is
    bound ([bound] holds the config read before it), the failed run is
    logged, whatever becomes of that insert; the exception is then raised
    again. *)
Definition handler (bound : option config) (execution_date : string)
           (start_time : Q) (e : exn) : M load_result :=
  fun w =>
    let (t, w1) := tick w in
    match bound with
    | Some cfg =>
        let (_, w2) :=
          _log_pipeline_run (name cfg) execution_date 0 (t - start_time)%Q
                            "failed" (Some (exn_msg e)) w1 in
        (Raise e, w2)
    | None => (Raise e, w1)
    end.

Definition load_to_postgres (config_path execution_date : string)
  : M load_result :=
  mbind time (fun start_time w =>
    match read_config config_path with
    | Raise e => handler None execution_date start_time e w
    | Ok cfg =>
        match create_engine with
        | Raise e => handler None execution_date start_time e w
        | Ok _ =>
            match try_block cfg config_path execution_date start_time w with
            | (Ok res, w') => (Ok res, w')
            | (Raise e, w') =>
                handler (Some cfg) execution_date start_time e w'
            end
        end
    end).

(** A call the database answered without an exception. *)
Definition went_through (c : db_call * result Z) : Prop :=
  exists n, snd c = Ok n.

(** The first failure among the steps of the block is the exception [e]:
    either every call went through and [transform_data] raised [e], or
    the last call raised [e] after calls that all went through. *)
Definition first_failure (steps : list (db_call * result Z))
           (transformed : result frame) (e : exn) : Prop :=
  (snd (last steps (CreateMonitorTable, Ok 0)) = Raise e
   /\ Forall went_through (removelast steps))
  \/ (transformed = Raise e /\ Forall went_through steps).

(** The ledger entry of a failed run. *)
Definition failed_entry (cfg : config) (execution_date : string)
           (duration : Q) (e : exn) : run_record :=
  {| rr_run_id := fresh_run_id; rr_dag_id := name cfg;
     rr_run_date := execution_date; rr_rows_processed := 0;
     rr_duration_sec := duration; rr_status := "failed";
     rr_error_message := Some (exn_msg e) |}.

(** The ledger entry of a successful run. *)
Definition success_entry (cfg : config) (execution_date : string)
           (rows : Z) (duration : Q) : run_record :=
  {| rr_run_id := fresh_run_id; rr_dag_id := name cfg;
     rr_run_date := execution_date; rr_rows_processed := rows;
     rr_duration_sec := duration; rr_status := "success";
     rr_error_message := None |}.

End Load.

Arguments db {DB} w.
Arguments calls {DB} w.
Arguments ticks {DB} w.
Arguments Build_world {DB} db calls ticks.

(** *** Concrete data for the examples *)

Definition accepting (d : list db_call) (c : db_call)
  : result Z * list db_call :=
  (Ok 1, d ++ [c]).

Definition flaky (d : list db_call) (c : db_call) : result Z * list db_call :=
  match c with
  | UpsertByKey _ _ _ _ =>
      (Raise (Exn "OperationalError" "connection lost"), d)
  | LogRun entry =>
      if (rr_status entry =? "failed")%string
      then (Raise (Exn "OperationalError" "ledger unavailable"), d)
      else (Ok 1, d ++ [c])
  | _ => (Ok 1, d ++ [c])
  end.

Definition loader_cfg : config :=
  {| name := "test_api"; output_table := Some "test_events";
     unique_keys := ["repo_id"] |}.

Definition seconds (n : nat) : Q := inject_Z (Z.of_nat n).

Definition one_event : frame :=
  {| index := [0%nat];
     columns := [ ("event_type", [Some (VStr "PushEvent")]);
                  ("repo_id", [Some (VInt 123)]);
                  ("ingestion_timestamp", [Some (VTime 0)]);
                  ("source", [Some (VStr "test_api")]) ] |}.

Definition no_events : frame :=
  {| index := [];
     columns := [ ("event_type", []); ("repo_id", []);
                  ("ingestion_timestamp", []); ("source", []) ] |}.

Definition fresh : world (list db_call) :=
  {| db := []; calls := []; ticks := 0 |}.

(** [needle in hay] on strings. *)
Fixpoint contains (needle hay : string) : bool :=
  String.prefix needle hay
  || match hay with
     | EmptyString => false
     | String _ rest => contains needle rest
     end.

(** The SQL type [_create_analytics_table] picks for a column from
    [str(dtype)]. *)
Definition sql_type (dtype : string) : string :=
  if contains "int" dtype then "INTEGER"
  else if contains "float" dtype then "DOUBLE PRECISION"
  else if contains "datetime" dtype then "TIMESTAMP"
  else "VARCHAR(500)".

(** [', '.join(l)]. *)
Fixpoint join_comma (l : list string) : string :=
  match l with
  | [] => ""
  | [x] => x
  | x :: rest => (x ++ ", " ++ join_comma rest)%string
  end.

(** The list [columns] of [_create_analytics_table]: one definition for
    each column of the frame, given with its dtype, and the primary key
    when unique keys are configured. *)
Definition table_columns (dtypes : list (string * string))
           (keys : list string) : list string :=
  map (fun cd => (fst cd ++ " " ++ sql_type (snd cd))%string) dtypes
  ++ match keys with
     | [] => []
     | _ :: _ => [("PRIMARY KEY (" ++ join_comma keys ++ ")")%string]
     end.

(** The destination table of a config. *)
Definition table_of (cfg : config) : string :=
  match output_table cfg with
  | Some t => t
  | None => (name cfg ++ "_events")%string
  end.

(** The ledger inserts among the calls of a run: those attempted, and
    those the database accepted. *)
Definition is_log_run (c : db_call) : bool :=
  match c with LogRun _ => true | _ => false end.

Definition accepted (r : result Z) : bool :=
  match r with Ok _ => true | Raise _ => false end.

Definition log_attempts (steps : list (db_call * result Z)) : nat :=
  length (filter (fun c => is_log_run (fst c)) steps).

Definition log_writes (steps : list (db_call * result Z)) : nat :=
  length (filter (fun c => is_log_run (fst c) && accepted (snd c)) steps).

(** A config without unique keys and without a table name. *)
Definition unkeyed_cfg : config :=
  {| name := "test_api"; output_table := None; unique_keys := [] |}.

(** The frame of one event with its [run_date] column. *)
Definition one_event_dated : frame :=
  {| index := [0%nat];
     columns := [ ("event_type", [Some (VStr "PushEvent")]);
                  ("repo_id", [Some (VInt 123)]);
                  ("ingestion_timestamp", [Some (VTime 0)]);
                  ("source", [Some (VStr "test_api")]);
                  ("run_date", [Some (VStr "2024-06-10")]) ] |}.

Definition demo_load_unkeyed
           (exec : list db_call -> db_call -> result Z * list db_call)
           (df : frame) :=
  load_to_postgres (list db_call) exec (fun _ => Ok unkeyed_cfg) (Ok tt)
                   (fun _ _ => Ok df) "run-1" seconds
                   "configs/test_api.yaml" "2024-06-10" fresh.

(** A load whose config cannot be read. *)
Definition demo_load_unreadable :=
  load_to_postgres (list db_call) accepting
                   (fun _ => Raise (KeyError "name")) (Ok tt)
                   (fun _ _ => Ok one_event) "run-1" seconds
                   "configs/test_api.yaml" "2024-06-10" fresh.

Definition demo_load (exec : list db_call -> db_call -> result Z * list db_call)
           (df : frame) :=
  load_to_postgres (list db_call) exec (fun _ => Ok loader_cfg) (Ok tt)
                   (fun _ _ => Ok df) "run-1" seconds
                   "configs/test_api.yaml" "2024-06-10" fresh.

End PostgresLoader.

(* ===================================================================== *)
(** ** [src/airflow_init_connections.py]                                  *)
(* ===================================================================== *)

Module InitConnections.

(** A row of Airflow's connection table, with the fields the script
    sets; a field that is not given is [None]. *)
Record connection : Type := {
  conn_id : string;
  conn_type : option string;
  host : option string;
  login : option string;
  password : option string;
  schema : option string;
  port : option Z;
  extra : option string
}.

(** The committed rows of the connection table, in insertion order, and
    the lines printed so far. *)
Record session : Type := {
  rows : list connection;
  printed : list string
}.

(** [session.query(Connection).filter(Connection.conn_id == conn_id)]. *)
Definition matching (id : string) (l : list connection) : list connection :=
  filter (fun c => (conn_id c =? id)%string) l.

Definition MultipleResultsFound : exn :=
  Exn "MultipleResultsFound"
      "Multiple rows were found when exactly one was required".

(** [get_or_create_connection(conn_id, **kwargs)], with [conn] the
    connection the keyword arguments describe: [.one()] returns the only
    matching row, raises [NoResultFound] when there is none, which the
    function handles by adding and committing [conn], and raises
    [MultipleResultsFound] when there are several, which it does not
    handle.  The query and the commit themselves are taken to go
    through. *)
Definition get_or_create_connection (conn : connection) (s : session)
  : result unit * session :=
  match matching (conn_id conn) (rows s) with
  | [] =>
      (Ok tt,
       {| rows := rows s ++ [conn];
          printed := printed s
                     ++ [("Connection '" ++ conn_id conn ++ "' created.")%string] |})
  | [_] =>
      (Ok tt,
       {| rows := rows s;
          printed := printed s
                     ++ [("Connection '" ++ conn_id conn
                          ++ "' already exists.")%string] |})
  | _ :: _ :: _ => (Raise MultipleResultsFound, s)
  end.

(** [os.environ.get(key, default)]. *)
Definition getenv (env : string -> option string) (key default : string)
  : string :=
  match env key with Some v => v | None => default end.

Definition postgres_default (env : string -> option string) : connection :=
  {| conn_id := "postgres_default"; conn_type := Some "postgres";
     host := Some "postgres";
     login := Some (getenv env "POSTGRES_USER" "airflow");
     password := Some (getenv env "POSTGRES_PASSWORD" "airflow");
     schema := Some "airflow"; port := Some 5432; extra := None |}.

Definition minio_access_key (env : string -> option string) : string :=
  getenv env "MINIO_ACCESS_KEY" (getenv env "MINIO_ROOT_USER" "minioadmin").

Definition minio_secret_key (env : string -> option string) : string :=
  getenv env "MINIO_SECRET_KEY" (getenv env "MINIO_ROOT_PASSWORD" "minioadmin").

(** A double quote, and a quoted string. *)
Definition dquote : string := String (ascii_of_nat 34) EmptyString.

Definition quoted (x : string) : string := (dquote ++ x ++ dquote)%string.

Definition minio_extra (env : string -> option string) : string :=
  ("{" ++ quoted "aws_access_key_id" ++ ": " ++ quoted (minio_access_key env)
   ++ ", " ++ quoted "aws_secret_access_key" ++ ": "
   ++ quoted (minio_secret_key env)
   ++ ", " ++ quoted "endpoint_url" ++ ": " ++ quoted "http://minio:9000"
   ++ "}")%string.

Definition minio_default (env : string -> option string) : connection :=
  {| conn_id := "minio_default"; conn_type := Some "s3";
     host := Some "http://minio:9000";
     login := Some (minio_access_key env);
     password := Some (minio_secret_key env);
     schema := None; port := None; extra := Some (minio_extra env) |}.

Definition slack_default (webhook : string) : connection :=
  {| conn_id := "slack_default"; conn_type := Some "http";
     host := Some "slack.com"; login := None; password := Some webhook;
     schema := None; port := None; extra := None |}.

(** The webhook, when the variable is set to a non-empty string. *)
Definition slack_webhook (env : string -> option string) : option string :=
  match env "SLACK_WEBHOOK_URL" with
  | Some wh => if (wh =? "")%string then None else Some wh
  | None => None
  end.

(** [main()]: an exception of one call ends the script. *)
Definition main (env : string -> option string) (s : session)
  : result unit * session :=
  match get_or_create_connection (postgres_default env) s with
  | (Raise e, s1) => (Raise e, s1)
  | (Ok _, s1) =>
      match get_or_create_connection (minio_default env) s1 with
      | (Raise e, s2) => (Raise e, s2)
      | (Ok _, s2) =>
          match slack_webhook env with
          | Some wh => get_or_create_connection (slack_default wh) s2
          | None => (Ok tt, s2)
          end
      end
  end.

(** The connection ids of a table. *)
Definition ids (l : list connection) : list string := map conn_id l.

(** *** Concrete data for the examples *)

Definition no_env : string -> option string := fun _ => None.

Definition slack_env : string -> option string :=
  fun k => if (k =? "SLACK_WEBHOOK_URL")%string
           then Some "https://hooks.slack.com/services/T0" else None.

(** A table that already has a [postgres_default] of its own. *)
Definition custom_postgres : connection :=
  {| conn_id := "postgres_default"; conn_type := Some "postgres";
     host := Some "db.internal"; login := Some "etl"; password := Some "secret";
     schema := Some "warehouse"; port := Some 6432; extra := None |}.

Definition custom_session : session :=
  {| rows := [custom_postgres]; printed := [] |}.

End InitConnections.

(* ===================================================================== *)
(** * Properties                                                          *)
(* ===================================================================== *)

(** ** Pagination and rate limiting in [extract_api] *)

Module ApiAdapterFacts.
Import ApiAdapter.

Section Facts.

Variable Server : Type.
Variable session_get :
  Server -> json -> list (string * json) -> list (string * string) ->
  response * Server.
Variable cfg : config.
Variable dir : string.
Variable headers : list (string * string).
Variable sleep_t : Q.

Lemma page_empty_test (data : json) :
  negb (truthy data) || (is_list data && (list_len data =? 0))
  = negb (truthy data).
Proof.
  destruct data as [ |b|z|q|s0|l|kvs]; simpl;
    try reflexivity; try (now rewrite orb_false_r).
  destruct l; reflexivity.
Qed.

(** Every way in which an iteration changes the list of sleeps. *)
Lemma handle_data_sleeps (data : json) (s : state) (w : world Server) :
  match handle_data cfg dir sleep_t data s w with
  | Next _ w' =>
      sleeps w' = (if Qlt_le_dec 0 sleep_t
                   then sleeps w ++ [sleep_t] else sleeps w)
  | Done _ w' => sleeps w' = sleeps w
  | Crash _ w' => sleeps w' = sleeps w
  end.
Proof.
  unfold handle_data, continue, save.
  destruct (pag_is cfg "page").
  - destruct (negb (truthy data) || _); [reflexivity|].
    destruct (Qlt_le_dec 0 sleep_t); reflexivity.
  - destruct (pagination cfg) as [p|]; [|reflexivity].
    destruct (pag_type p =? "cursor")%string.
    + destruct (py_get data (cursor_key p)) as [c|e]; [|reflexivity].
      destruct (truthy c); [|reflexivity].
      destruct (Qlt_le_dec 0 sleep_t); reflexivity.
    + destruct (pag_type p =? "next_link")%string; [|reflexivity].
      destruct (follow_link _ data) as [l|e]; [|reflexivity].
      destruct (truthy l); [|reflexivity].
      destruct (Qlt_le_dec 0 sleep_t); reflexivity.
Qed.

Lemma loop_body_sleeps (s : state) (w : world Server) :
  match loop_body session_get cfg dir headers sleep_t s w with
  | Next _ w' =>
      sleeps w' = (if Qlt_le_dec 0 sleep_t
                   then sleeps w ++ [sleep_t] else sleeps w)
  | Done _ w' => sleeps w' = sleeps w
  | Crash _ w' => sleeps w' = sleeps w
  end.
Proof.
  unfold loop_body.
  destruct (session_get (srv w) (url s) (req_params cfg s) headers)
    as [resp srv'].
  destruct resp as [|code body]; [reflexivity|].
  destruct (code =? 401); [reflexivity|].
  destruct (code >=? 400); [reflexivity|].
  destruct body as [data|e]; [|reflexivity].
  apply (handle_data_sleeps data s
           {| srv := srv'; files := files w; sleeps := sleeps w |}).
Qed.


End Facts.

(** The sign of the sleep time for a value of [requests_per_minute]. *)
Lemma sleep_sign (rpm : json) (t : Q) :
  (if truthy rpm then float_div_60 rpm else Ok 0%Q) = Ok t ->
  (0 < t)%Q
  <-> match rpm with
      | JInt z => 0 < z
      | JFloat q => (0 < q)%Q
      | JBool b => b = true
      | _ => False
      end.
Proof.
  destruct rpm as [ |b|z|q|s0|l|kvs]; simpl.
  - intros H. injection H as <-. split; [intros H; discriminate H|tauto].
  - destruct b; intros H; injection H as <-.
    + split; [reflexivity|intros _; reflexivity].
    + split; [intros H; discriminate H|discriminate].
  - destruct (Z.eqb_spec z 0) as [->|Hz]; simpl; intros H; injection H as <-.
    + split; [intros H; discriminate H|lia].
    + destruct z as [|p|p]; [contradiction| |];
        unfold Qlt, Qdiv, Qmult, Qinv, inject_Z; simpl; lia.
  - destruct (Qeq_bool q 0) eqn:E; simpl; intros H; injection H as <-.
    + apply Qeq_bool_iff in E. rewrite E. split; intros H; discriminate H.
    + destruct q as [[|p|p] d]; unfold Qlt, Qdiv, Qmult, Qinv; simpl;
        [discriminate E|lia|lia].
  - destruct s0; [intros H; injection H as <-; split;
                   [intros H; discriminate H|tauto]|discriminate].
  - destruct l; [intros H; injection H as <-; split;
                  [intros H; discriminate H|tauto]|discriminate].
  - destruct kvs; [intros H; injection H as <-; split;
                    [intros H; discriminate H|tauto]|discriminate].
Qed.

Section RateLimit.

Variable Server : Type.
Variable session_get :
  Server -> json -> list (string * json) -> list (string * string) ->
  response * Server.
Variable cfg : config.
Variable dir : string.
Variable headers : list (string * string).

(** C9 (amended).  The sleep between iterations.  Whatever the rate-limit
    setting, an iteration after which more pages remain sleeps exactly the
    computed [sleep_time] when it is positive, and does not sleep when it
    is not; an iteration that ends the loop does not sleep.  That time is
    [60 / requests_per_minute] for a configured non-zero number, [0] for
    a configured falsy value (0, null, false), and, when no
    [requests_per_minute] is configured, the quotient for the default of
    60 requests per minute: one second, not zero.  So the time is
    positive, and the adapter sleeps, exactly when the value in force is
    a positive number (or [true], which divides as 1); it does not sleep
    for a falsy value nor for a negative number. *)
Theorem rate_limit_sleep (t : Q) :
  sleep_time cfg = Ok t ->
  (forall s (w : world Server),
      match loop_body session_get cfg dir headers t s w with
      | Next _ w' =>
          sleeps w' = (if Qlt_le_dec 0 t then sleeps w ++ [t] else sleeps w)
      | Done _ w' => sleeps w' = sleeps w
      | Crash _ w' => sleeps w' = sleeps w
      end)
  /\ (forall kvs z,
         rate_limit cfg = Some (JObj kvs) ->
         items_get "requests_per_minute" kvs = Some (JInt z) ->
         z <> 0 -> t = (60 / inject_Z z)%Q)
  /\ (forall kvs q,
         rate_limit cfg = Some (JObj kvs) ->
         items_get "requests_per_minute" kvs = Some (JFloat q) ->
         ~ (q == 0)%Q -> t = (60 / q)%Q)
  /\ (forall kvs v,
         rate_limit cfg = Some (JObj kvs) ->
         items_get "requests_per_minute" kvs = Some v ->
         truthy v = false -> t = 0%Q)
  /\ (rate_limit cfg = None
      \/ (exists kvs, rate_limit cfg = Some (JObj kvs)
                      /\ items_get "requests_per_minute" kvs = None) ->
      t = (60 / inject_Z 60)%Q /\ (t == 1)%Q)
  /\ (forall rpm,
         requests_per_minute cfg = Ok rpm ->
         (0 < t)%Q
         <-> match rpm with
             | JInt z => 0 < z
             | JFloat q => (0 < q)%Q
             | JBool b => b = true
             | _ => False
             end).
Proof.
  intros Ht. split; [intros s w; apply loop_body_sleeps|].
  split; [|split; [|split; [|split]]].
  - unfold sleep_time, requests_per_minute in Ht.
    intros kvs z Hr Hk Hz. rewrite Hr, Hk in Ht. simpl in Ht.
    destruct (Z.eqb_spec z 0) as [E|_]; [contradiction|].
    simpl in Ht. now inversion Ht.
  - unfold sleep_time, requests_per_minute in Ht.
    intros kvs q Hr Hk Hq. rewrite Hr, Hk in Ht. simpl in Ht.
    destruct (Qeq_bool q 0) eqn:E.
    + apply Qeq_bool_iff in E. contradiction.
    + simpl in Ht. now inversion Ht.
  - unfold sleep_time, requests_per_minute in Ht.
    intros kvs v Hr Hk Hv. rewrite Hr, Hk in Ht. simpl in Ht.
    rewrite Hv in Ht. now inversion Ht.
  - unfold sleep_time, requests_per_minute in Ht.
    intros [Hr|(kvs & Hr & Hk)].
    + rewrite Hr in Ht. simpl in Ht. inversion Ht. split; reflexivity.
    + rewrite Hr, Hk in Ht. simpl in Ht. inversion Ht. split; reflexivity.
  - intros rpm Hrpm. unfold sleep_time in Ht. rewrite Hrpm in Ht.
    simpl in Ht. apply sleep_sign. exact Ht.
Qed.

End RateLimit.

Section Pagination.

Variable Server : Type.
Variable session_get :
  Server -> json -> list (string * json) -> list (string * string) ->
  response * Server.
Variable cfg : config.
Variable dir : string.
Variable headers : list (string * string).
Variable sleep_t : Q.



End Pagination.

Section PageRun.

Variable cfg : config.
Variable dir : string.
Variable headers : list (string * string).
Variable sleep_t : Q.

(** X9.  A whole run of the [page] strategy against a scripted server: after
    [bodies], all non-empty, comes the first empty page.  With enough
    fuel the loop returns; it has persisted exactly [bodies], numbered
    from the current index on, and has made one request more than it
    persisted pages. *)
Theorem page_run_stops_at_first_empty
        (bodies : list json) (empty : json) (rest : list response) :
  pag_is cfg "page" = true ->
  Forall (fun b => truthy b = true) bodies ->
  truthy empty = false ->
  forall (pre : list response) (s : state) (w : world nat) (fuel : nat),
    srv w = length pre ->
    (length bodies < fuel)%nat ->
    let paths := map (out_path dir) (seq (response_idx s) (length bodies)) in
    exists w',
      run (scripted (pre ++ map ok_page bodies ++ ok_page empty :: rest))
          cfg dir headers sleep_t fuel s w
      = Some (Ok (saved_files s ++ paths), w')
      /\ files w' = files w ++ combine paths bodies
      /\ srv w' = (length pre + length bodies + 1)%nat.
Proof.
  intros Hpage Hbodies Hempty. cbv zeta.
  induction Hbodies as [|b bs Hb Hbs IH]; intros pre s w fuel Hsrv Hfuel;
    (destruct fuel as [|fuel]; [simpl in Hfuel; lia|]); simpl run;
    unfold loop_body, scripted at 1; rewrite Hsrv.
  - simpl app. rewrite nth_middle. simpl.
    unfold handle_data. rewrite Hpage, page_empty_test, Hempty. simpl.
    eexists. split; [rewrite app_nil_r; reflexivity|]. simpl.
    split; [now rewrite app_nil_r|lia].
  - simpl app. rewrite nth_middle. simpl.
    unfold handle_data. rewrite Hpage, page_empty_test, Hb. simpl.
    unfold continue.
    set (s' := {| saved_files := saved_files s ++ [out_path dir (response_idx s)];
                  page_num := page_num s + 1;
                  cursor := cursor s;
                  response_idx := S (response_idx s);
                  url := url s |}).
    assert (Hpre : pre ++ ok_page b :: map ok_page bs ++ ok_page empty :: rest
                   = (pre ++ [ok_page b]) ++ map ok_page bs
                       ++ ok_page empty :: rest)
      by (now rewrite <- app_assoc).
    rewrite Hpre.
    destruct (Qlt_le_dec 0 sleep_t); cbn [srv files sleeps].
    + destruct (IH (pre ++ [ok_page b]) s'
                  {| srv := S (length pre);
                     files := files w ++ [(out_path dir (response_idx s), b)];
                     sleeps := sleeps w ++ [sleep_t] |} fuel)
        as (w' & Hrun & Hfiles & Hsrv');
        [simpl; rewrite length_app; simpl; lia|simpl in Hfuel; lia|].
      exists w'. rewrite Hrun. simpl. rewrite <- !app_assoc. simpl.
      split; [reflexivity|].
      split; [rewrite Hfiles; simpl; now rewrite <- app_assoc|].
      rewrite Hsrv', length_app. simpl. lia.
    + destruct (IH (pre ++ [ok_page b]) s'
                  {| srv := S (length pre);
                     files := files w ++ [(out_path dir (response_idx s), b)];
                     sleeps := sleeps w |} fuel)
        as (w' & Hrun & Hfiles & Hsrv');
        [simpl; rewrite length_app; simpl; lia|simpl in Hfuel; lia|].
      exists w'. rewrite Hrun. simpl. rewrite <- !app_assoc. simpl.
      split; [reflexivity|].
      split; [rewrite Hfiles; simpl; now rewrite <- app_assoc|].
      rewrite Hsrv', length_app. simpl. lia.
Qed.

End PageRun.

(** The configuration of the repository's adapter test (120 requests per
    minute) meets the hypothesis of [rate_limit_sleep]. *)
Lemma rate_limit_sleep_witness :
  sleep_time
    (cfg_rate (Some (JObj [("requests_per_minute", JInt 120)]))
              (Some page_pagination))
  = Ok (60 / inject_Z 120)%Q
  /\ (60 / inject_Z 120)%Q = (60 / inject_Z 120)%Q.
Proof.
  split; [reflexivity|].
  exact (proj1 (proj2 (rate_limit_sleep nat (scripted two_pages)
           (cfg_rate (Some (JObj [("requests_per_minute", JInt 120)]))
                     (Some page_pagination))
           "data/raw/test_api/2024-06-10" [] (60 / inject_Z 120)%Q eq_refl))
         [("requests_per_minute", JInt 120)] 120 eq_refl eq_refl
         ltac:(discriminate)).
Defined.

(** C9, as stated, fails: with no rate limit configured the adapter does
    not sleep 0 seconds between pages but one second per iteration. *)
Lemma rate_limit_unset_sleeps_one_second :
  rate_limit (cfg_rate None (Some page_pagination)) = None
  /\ sleep_time (cfg_rate None (Some page_pagination))
     = Ok (60 / inject_Z 60)%Q
  /\ option_map (fun r => (fst r, sleeps (snd r)))
       (extract_api (scripted two_pages) [] "2024-06-11"
          (cfg_rate None (Some page_pagination))
          (Some "2024-06-10") 5 empty_world)
     = Some (Ok ["data/raw/test_api/2024-06-10/response_001.json";
                 "data/raw/test_api/2024-06-10/response_002.json"],
             [(60 / inject_Z 60)%Q; (60 / inject_Z 60)%Q])
  /\ ((60 / inject_Z 60) == 1)%Q
  /\ ~ ((60 / inject_Z 60) == 0)%Q.
Proof.
  split; [reflexivity|]. split; [reflexivity|].
  split; [vm_compute; reflexivity|].
  split; [reflexivity|]. intros H. discriminate H.
Qed.



End ApiAdapterFacts.

(** ** The validation gate of [validate_schema] *)

Module SchemaValidatorFacts.
Import RawStore SchemaValidator.

Lemma over_threshold_spec (invalid total : Z) :
  0 < total ->
  over_threshold invalid total = true <-> 20 * invalid > total.
Proof.
  intros Hpos. unfold over_threshold.
  destruct (Z.ltb_spec 0 total) as [_|]; [|lia]. cbn [andb].
  rewrite negb_true_iff, <- not_true_iff_false, Qle_bool_iff.
  destruct total as [|p|p]; try lia.
  unfold Qle, Qdiv, Qmult, Qinv, inject_Z. cbn -[Z.mul Pos.mul].
  rewrite Pos.mul_1_l. lia.
Qed.

Lemma insert_sorted_In (i j : Z) (l : list Z) :
  In j (insert_sorted i l) -> j = i \/ In j l.
Proof.
  induction l as [|k l IH]; simpl.
  - intros [H|[]]; auto.
  - destruct (i <? k); [simpl; intuition|].
    destruct (i =? k); [simpl; intuition|].
    simpl. intros [H|H]; [auto|]. destruct (IH H); auto.
Qed.

Lemma sorted_set_In (j : Z) (l : list Z) :
  In j (sorted_set l) -> In j l.
Proof.
  induction l as [|i l IH]; simpl; [auto|].
  intros H. destruct (insert_sorted_In _ _ _ H); auto.
Qed.

(** [df.loc] succeeds on labels of the frame. *)
Lemma loc_in_range (rows : list json) (labels : list Z) :
  (forall i, In i labels -> 0 <= i < Z.of_nat (length rows)) ->
  exists bad, loc rows labels = Ok bad.
Proof.
  induction labels as [|i rest IH]; intros H; simpl.
  - eexists; reflexivity.
  - destruct (IH (fun j Hj => H j (or_intror Hj))) as [tl Htl].
    pose proof (H i (or_introl eq_refl)) as Hi.
    destruct (Z.leb_spec 0 i); [|lia].
    destruct (Z.ltb_spec i (Z.of_nat (length rows))); [|lia].
    simpl. rewrite Htl. eexists; reflexivity.
Qed.

Lemma check_non_null_ok (rows : list json) (fields : list string) :
  (forall f, In f fields -> mem f (columns rows) = true) ->
  forall errs,
    check_non_null rows fields errs
    = Ok (errs ++ map null_error (null_fields rows fields)).
Proof.
  induction fields as [|f rest IH]; intros Hin errs; simpl.
  - now rewrite app_nil_r.
  - unfold isnull_any. rewrite (Hin f (or_introl eq_refl)). simpl.
    rewrite (IH (fun g Hg => Hin g (or_intror Hg))).
    destruct (existsb _ rows); simpl; [|reflexivity].
    now rewrite <- app_assoc.
Qed.

(** *** The set of failing row labels *)

Lemma insert_sorted_increasing (i lo : Z) (l : list Z) :
  increasing_from lo l -> lo <= i -> increasing_from lo (insert_sorted i l).
Proof.
  revert lo. induction l as [|j l IH]; intros lo Hl Hi; simpl in *.
  - split; [exact Hi|exact I].
  - destruct Hl as [Hj Hl].
    destruct (Z.ltb_spec i j).
    + simpl. split; [exact Hi|]. split; [lia|exact Hl].
    + destruct (Z.eqb_spec i j).
      * simpl. split; assumption.
      * simpl. split; [exact Hj|]. apply IH; [exact Hl|lia].
Qed.

Lemma sorted_set_increasing (l : list Z) (lo : Z) :
  (forall i, In i l -> lo <= i) -> increasing_from lo (sorted_set l).
Proof.
  induction l as [|i l IH]; intros H; simpl; [exact I|].
  apply insert_sorted_increasing.
  - apply IH. intros j Hj. apply H. now right.
  - apply H. now left.
Qed.

Lemma increasing_length (l : list Z) :
  forall lo hi,
    lo <= hi -> increasing_from lo l -> (forall i, In i l -> i < hi) ->
    Z.of_nat (length l) <= hi - lo.
Proof.
  induction l as [|i l IH]; intros lo hi Hlh Hl Hhi; simpl length.
  - simpl. lia.
  - destruct Hl as [Hi Hl].
    pose proof (Hhi i (or_introl eq_refl)) as Hih.
    specialize (IH (i + 1) hi ltac:(lia) Hl (fun j Hj => Hhi j (or_intror Hj))).
    lia.
Qed.

Lemma insert_sorted_nonempty (i : Z) (l : list Z) : insert_sorted i l <> [].
Proof.
  destruct l as [|j l]; simpl; [discriminate|].
  destruct (i <? j); [discriminate|]. destruct (i =? j); discriminate.
Qed.

Lemma insert_sorted_In_iff (i j : Z) (l : list Z) :
  In j (insert_sorted i l) <-> j = i \/ In j l.
Proof.
  induction l as [|k l IH]; simpl.
  - intuition.
  - destruct (Z.ltb_spec i k); [simpl; intuition|].
    destruct (Z.eqb_spec i k); [subst; simpl; intuition|].
    simpl. rewrite IH. intuition.
Qed.

Lemma loc_ok_range (rows : list json) (labels : list Z) (bad : list json) :
  loc rows labels = Ok bad ->
  forall i, In i labels -> 0 <= i < Z.of_nat (length rows).
Proof.
  revert bad. induction labels as [|j rest IH]; intros bad H i Hi;
    [destruct Hi|].
  simpl in H.
  destruct (Z.leb_spec 0 j); [|discriminate].
  destruct (Z.ltb_spec j (Z.of_nat (length rows))); [|discriminate].
  simpl in H. destruct (loc rows rest) as [tl|e] eqn:E; [|discriminate].
  destruct Hi as [<-|Hi]; [lia|]. eapply IH; [reflexivity|exact Hi].
Qed.

Lemma count_invalid_bounds (fcs : list failure_case) (total : Z) :
  0 < total ->
  (forall i, In i (valid_indices fcs) -> 0 <= i < total) ->
  1 <= count_invalid fcs total <= total.
Proof.
  intros Hpos Hidx. unfold count_invalid.
  destruct (valid_indices fcs) as [|i l] eqn:E; [lia|].
  rewrite <- E in *. split.
  - rewrite E. simpl.
    destruct (insert_sorted i (sorted_set l)) eqn:Es;
      [now apply insert_sorted_nonempty in Es|simpl length; lia].
  - pose proof (increasing_length (sorted_set (valid_indices fcs)) 0 total) as H.
    rewrite Z.sub_0_r in H. apply H; [lia| |].
    + apply sorted_set_increasing. intros j Hj. now apply Hidx.
    + intros j Hj. apply Hidx.
      clear - Hj. induction (valid_indices fcs) as [|k l' IH]; simpl in *;
        [destruct Hj|].
      apply insert_sorted_In_iff in Hj. destruct Hj as [->|Hj]; auto.
Qed.

Lemma sorted_set_In_iff (j : Z) (l : list Z) :
  In j (sorted_set l) <-> In j l.
Proof.
  induction l as [|i l IH]; simpl; [tauto|].
  rewrite insert_sorted_In_iff, IH. intuition.
Qed.

Lemma increasing_NoDup (l : list Z) :
  forall lo, increasing_from lo l ->
             NoDup l /\ forall i, In i l -> lo <= i.
Proof.
  induction l as [|i l IH]; intros lo H; simpl in H.
  - split; [constructor|intros ? []].
  - destruct H as [Hi Hl]. destruct (IH _ Hl) as [Hnd Hge]. split.
    + constructor; [|exact Hnd]. intros Hin. apply Hge in Hin. lia.
    + intros j [<-|Hj]; [exact Hi|]. apply Hge in Hj. lia.
Qed.

Lemma NoDup_map_of_nat (l : list nat) :
  NoDup l -> NoDup (map Z.of_nat l).
Proof.
  induction 1 as [|x l Hx Hnd IH]; simpl; constructor; [|exact IH].
  intros Hin. apply in_map_iff in Hin. destruct Hin as (y & E & Hy).
  apply Nat2Z.inj in E. now subst y.
Qed.

(** The set of labels has one element for each row with a failure
    case. *)
Lemma sorted_set_failing_rows (fcs : list failure_case) (n : nat) :
  (forall i, In i (valid_indices fcs) -> 0 <= i < Z.of_nat n) ->
  length (sorted_set (valid_indices fcs)) = length (failing_rows fcs n).
Proof.
  intros Hidx. unfold failing_rows.
  set (l := valid_indices fcs) in *.
  set (pos := filter (fun i => existsb (Z.eqb (Z.of_nat i)) l) (seq 0 n)).
  assert (Hpos : forall i, In i pos <-> (i < n)%nat /\ In (Z.of_nat i) l).
  { intros i. unfold pos. rewrite filter_In, in_seq, existsb_exists. split.
    - intros [Hr (x & Hx & E)]. apply Z.eqb_eq in E. subst x.
      split; [lia|exact Hx].
    - intros [Hr Hin]. split; [lia|]. exists (Z.of_nat i).
      split; [exact Hin|apply Z.eqb_refl]. }
  assert (Hnd : NoDup (map Z.of_nat pos)).
  { apply NoDup_map_of_nat. unfold pos. apply NoDup_filter, seq_NoDup. }
  assert (Hset : NoDup (sorted_set l)).
  { apply (increasing_NoDup _ 0). apply sorted_set_increasing.
    intros i Hi. now apply Hidx. }
  rewrite <- (length_map Z.of_nat pos). apply Nat.le_antisymm.
  - apply NoDup_incl_length; [exact Hset|]. intros j Hj.
    apply sorted_set_In in Hj. apply in_map_iff.
    exists (Z.to_nat j). pose proof (Hidx j Hj).
    split; [lia|]. apply Hpos. split; [lia|]. now rewrite Z2Nat.id by lia.
  - apply NoDup_incl_length; [exact Hnd|]. intros j Hj.
    apply in_map_iff in Hj. destruct Hj as (i & <- & Hi).
    apply (proj2 (sorted_set_In_iff _ _)). now apply Hpos.
Qed.

Lemma count_invalid_spec (fcs : list failure_case) (n : nat) :
  (forall i, In i (valid_indices fcs) -> 0 <= i < Z.of_nat n) ->
  count_invalid fcs (Z.of_nat n) = rows_with_failures fcs n.
Proof.
  intros Hidx. unfold count_invalid, rows_with_failures.
  rewrite <- (sorted_set_failing_rows fcs n Hidx).
  destruct (valid_indices fcs); reflexivity.
Qed.

Lemma check_non_null_absent (rows : list json) (fields : list string) :
  (exists f, In f fields /\ mem f (columns rows) = false) ->
  forall errs, exists e,
    check_non_null rows fields errs = Raise e
    /\ exn_class e = "KeyError"%string.
Proof.
  induction fields as [|f0 rest IH]; intros (f & Hin & Hf) errs;
    [destruct Hin|]. simpl. unfold isnull_any at 1.
  destruct (mem f0 (columns rows)) eqn:E0; simpl.
  - apply IH. exists f. split; [|exact Hf].
    destruct Hin as [->|Hin]; [congruence|exact Hin].
  - eexists. split; reflexivity.
Qed.

Section Gate.

Variable schema_validate : list (string * column) -> list json -> validation.
Variable duplicated_any : list json -> list string -> bool.
Variable series_dtype : list (option json) -> pandas_dtype.

Lemma duplicated_ok (rows : list json) (keys : list string) :
  (forall k, In k keys -> mem k (columns rows) = true) ->
  duplicated duplicated_any rows keys = Ok (duplicated_any rows keys).
Proof.
  intros H. unfold duplicated.
  replace (filter (fun k => negb (mem k (columns rows))) keys) with (@nil string);
    [reflexivity|].
  symmetry. induction keys as [|k rest IH]; simpl; [reflexivity|].
  rewrite (H k (or_introl eq_refl)). simpl.
  apply IH. intros g Hg. apply H. now right.
Qed.

Lemma duplicated_missing (rows : list json) (keys : list string) (k : string) :
  In k keys -> mem k (columns rows) = false ->
  exists e, duplicated duplicated_any rows keys = Raise e
            /\ exn_class e = "KeyError"%string.
Proof.
  intros Hin Hk. unfold duplicated.
  destruct (filter (fun k => negb (mem k (columns rows))) keys) as [|k' l] eqn:E.
  - assert (H : In k (filter (fun k => negb (mem k (columns rows))) keys)).
    { apply filter_In. split; [exact Hin|]. now rewrite Hk. }
    rewrite E in H. destruct H.
  - eexists. split; reflexivity.
Qed.

Lemma finish_ok (sc : schema_cfg) (rows : list json) (valid invalid : Z)
      (errs : list json) :
  (forall k, In k (unique_keys sc) -> mem k (columns rows) = true) ->
  (forall f, In f (non_null_fields sc) -> mem f (columns rows) = true) ->
  finish duplicated_any sc rows valid invalid errs
  = Ok {| valid_rows := valid; invalid_rows := invalid;
          errors := errs ++ duplicate_errors duplicated_any rows (unique_keys sc)
                         ++ map null_error
                              (null_fields rows (non_null_fields sc));
          inferred_schema := None |}.
Proof.
  intros Hk Hf. unfold finish, duplicate_errors.
  destruct (unique_keys sc) as [|k ks] eqn:E.
  - simpl. rewrite (check_non_null_ok rows _ Hf). reflexivity.
  - rewrite (duplicated_ok rows (k :: ks) Hk). simpl.
    rewrite (check_non_null_ok rows _ Hf). simpl.
    destruct (duplicated_any rows (k :: ks)); simpl;
      [rewrite <- app_assoc|]; reflexivity.
Qed.

(** A check column the frame does not have: the checks raise. *)
Lemma finish_absent (sc : schema_cfg) (rows : list json) (valid invalid : Z)
      (errs : list json) :
  (exists k, In k (unique_keys sc) /\ mem k (columns rows) = false)
  \/ (exists f, In f (non_null_fields sc) /\ mem f (columns rows) = false) ->
  exists e,
    finish duplicated_any sc rows valid invalid errs = Raise e
    /\ exn_class e = "KeyError"%string.
Proof.
  intros H. unfold finish.
  destruct (existsb (fun k => negb (mem k (columns rows))) (unique_keys sc))
    eqn:Ek.
  - apply existsb_exists in Ek. destruct Ek as (k & Hin & Hk).
    apply negb_true_iff in Hk.
    destruct (duplicated_missing rows _ k Hin Hk) as (e & He & Hc).
    exists e. split; [|exact Hc].
    destruct (unique_keys sc) as [|k0 ks]; [destruct Hin|].
    rewrite He. reflexivity.
  - assert (Hall : forall k, In k (unique_keys sc) ->
                             mem k (columns rows) = true).
    { intros k Hin. destruct (mem k (columns rows)) eqn:E; [reflexivity|].
      assert (Hex : existsb (fun k => negb (mem k (columns rows)))
                            (unique_keys sc) = true)
        by (apply existsb_exists; exists k; split; [exact Hin|now rewrite E]).
      congruence. }
    destruct H as [(k & Hin & Hk)|Hf];
      [rewrite (Hall k Hin) in Hk; discriminate|].
    destruct (unique_keys sc) as [|k0 ks] eqn:Eu.
    + simpl. destruct (check_non_null_absent rows _ Hf errs) as (e & He & Hc).
      exists e. rewrite He. simpl. auto.
    + rewrite (duplicated_ok rows (k0 :: ks) Hall). simpl.
      destruct (check_non_null_absent rows _ Hf
                  (if duplicated_any rows (k0 :: ks)
                   then errs ++ [duplicate_error (k0 :: ks)] else errs))
        as (e & He & Hc).
      exists e. rewrite He. simpl. auto.
Qed.

(** C6.  When the raw page store of an (api, date) holds no rows, the
    validator returns, without raising and without writing any file, the
    report with zero valid rows, zero invalid rows and the single error
    ["No data found."] (and no inferred schema). *)
Theorem no_data_report (cfg : config) (base_dir execution_date : string)
        (pages : list json) :
  _load_rows pages = [] ->
  validate_schema schema_validate duplicated_any series_dtype
                  cfg base_dir execution_date pages
  = (Ok {| valid_rows := 0; invalid_rows := 0;
           errors := [JStr "No data found."]; inferred_schema := None |},
     [MakeDirs (invalid_dir base_dir (name cfg) execution_date)]).
Proof.
  intros H. unfold validate_schema. rewrite H. reflexivity.
Qed.

(** The 5% gate.  With a declared schema and failures reported by the
    column validator, the invalid rows are the rows that have a failure
    case, each counted once (all rows when no failure case names a row).
    When [invalid_rows / total_rows] is strictly above 5% the failure
    report is returned at once: its errors are the failure cases alone,
    whether or not the unique-key and non-null columns even exist.  When
    the ratio is at most 5% the run continues with the two checks.  If
    every unique key and every non-null field is a column of the frame,
    the report is returned with one error appended for the unique-key
    set if it has duplicated rows, and one for each declared non-null
    field that holds a null.  If one of them is not a column of the
    frame, the check raises [KeyError] and no report is returned. *)
Theorem threshold_gate (cfg : config) (base_dir execution_date : string)
        (pages : list json) (sc : schema_cfg)
        (cols : list (string * column)) (fcs : list failure_case) :
  let rows := data_frame (_load_rows pages) in
  let total := Z.of_nat (length rows) in
  let invalid := rows_with_failures fcs (length rows) in
  let result :=
    fst (validate_schema schema_validate duplicated_any series_dtype
                         cfg base_dir execution_date pages) in
  schema cfg = Some sc ->
  rows <> [] ->
  build_columns sc (required_columns sc) [] = Ok cols ->
  schema_validate cols rows = SchemaErrors fcs ->
  (forall i, In i (valid_indices fcs) -> 0 <= i < total) ->
  (20 * invalid > total ->
   result = Ok {| valid_rows := total - invalid; invalid_rows := invalid;
                  errors := map fc_record fcs; inferred_schema := None |})
  /\ (20 * invalid <= total ->
      ((forall k, In k (unique_keys sc) -> mem k (columns rows) = true) ->
       (forall f, In f (non_null_fields sc) -> mem f (columns rows) = true) ->
       result = Ok {| valid_rows := total - invalid; invalid_rows := invalid;
                      errors := map fc_record fcs
                                ++ duplicate_errors duplicated_any rows
                                     (unique_keys sc)
                                ++ map null_error
                                     (null_fields rows (non_null_fields sc));
                      inferred_schema := None |})
      /\ ((exists k, In k (unique_keys sc) /\ mem k (columns rows) = false)
          \/ (exists f, In f (non_null_fields sc)
                        /\ mem f (columns rows) = false) ->
          exists e, result = Raise e /\ exn_class e = "KeyError"%string)).
Proof.
  cbv zeta. intros Hsc Hrows Hcols Hval Hidx.
  unfold validate_schema.
  destruct (_load_rows pages) as [|r rs]; [now elim Hrows|].
  cbv beta iota zeta.
  remember (data_frame (r :: rs)) as rows eqn:Erows.
  rewrite Hsc, Hcols, Hval.
  rewrite (count_invalid_spec fcs (length rows) Hidx).
  set (total := Z.of_nat (length rows)) in *.
  set (invalid := rows_with_failures fcs (length rows)).
  assert (Hpos : 0 < total).
  { subst total. destruct rows; [now elim Hrows|simpl length; lia]. }
  assert (Hloc : exists bad,
             match valid_indices fcs with
             | [] => Ok rows
             | _ :: _ => loc rows (sorted_set (valid_indices fcs))
             end = Ok bad).
  { destruct (valid_indices fcs) as [|i l] eqn:E; [eexists; reflexivity|].
    apply loc_in_range. intros j Hj. apply Hidx. now apply sorted_set_In. }
  destruct Hloc as [bad Hbad]. rewrite Hbad.
  pose proof (over_threshold_spec invalid total Hpos) as Hth.
  split.
  - intros Hgt. apply Hth in Hgt. rewrite Hgt. reflexivity.
  - intros Hle.
    assert (E : over_threshold invalid total = false).
    { clear Hth. destruct (over_threshold invalid total) eqn:E; [|reflexivity].
      apply (over_threshold_spec invalid total Hpos) in E. lia. }
    rewrite E. cbn [fst]. split.
    + intros Hk Hf. apply finish_ok; assumption.
    + intros Habs. now apply finish_absent.
Qed.

End Gate.

(** An empty page gives the no-data report. *)
Lemma no_data_report_witness :
  _load_rows [JArr []; JStr "skipped"] = []
  /\ fst (validate_schema nullable_validator structural_duplicates plain_dtype
                          event_cfg "/opt/airflow" "2024-06-10"
                          [JArr []; JStr "skipped"])
     = Ok {| valid_rows := 0; invalid_rows := 0;
             errors := [JStr "No data found."]; inferred_schema := None |}.
Proof.
  split; [reflexivity|].
  exact (f_equal fst
           (no_data_report nullable_validator structural_duplicates plain_dtype
              event_cfg "/opt/airflow" "2024-06-10"
              [JArr []; JStr "skipped"] eq_refl)).
Defined.

(** One invalid row out of twenty, the one with the null type, is
    exactly 5%: the gate lets the run continue, and the duplicate and
    null errors are appended. *)
Lemma threshold_gate_witness :
  fst (validate_schema nullable_validator structural_duplicates plain_dtype
                       event_cfg "/opt/airflow" "2024-06-10" [JArr twenty_rows])
  = Ok {| valid_rows := 19; invalid_rows := 1;
          errors := [ JObj [ ("schema_context", JStr "Column");
                             ("column", JStr "type");
                             ("check", JStr "not_nullable");
                             ("check_number", JNull);
                             ("failure_case", JNull);
                             ("index", JInt 1) ];
                      JStr "Duplicate values found in unique_keys: ['id']";
                      JStr "Null values found in non_null_field: type" ];
          inferred_schema := None |}.
Proof.
  assert (Hval : nullable_validator
                   [("id", {| col_dtype := PaInt; nullable := true |});
                    ("type", {| col_dtype := PaString; nullable := false |})]
                   (data_frame (_load_rows [JArr twenty_rows]))
                 = SchemaErrors (null_cells "type" twenty_rows 0))
    by (vm_compute; reflexivity).
  assert (Hrows : data_frame (_load_rows [JArr twenty_rows]) <> [])
    by (vm_compute; discriminate).
  assert (Hidx : forall i,
             In i (valid_indices (null_cells "type" twenty_rows 0)) ->
             0 <= i < Z.of_nat (length (data_frame
                                          (_load_rows [JArr twenty_rows]))))
    by (intros i [<-|[]]; vm_compute; split; [discriminate|reflexivity]).
  assert (Hle : 20 * rows_with_failures (null_cells "type" twenty_rows 0)
                       (length (data_frame (_load_rows [JArr twenty_rows])))
                <= Z.of_nat (length (data_frame
                                       (_load_rows [JArr twenty_rows]))))
    by (vm_compute; discriminate).
  pose proof (proj1 (proj2 (threshold_gate nullable_validator
                              structural_duplicates plain_dtype event_cfg
                              "/opt/airflow" "2024-06-10" [JArr twenty_rows]
                              event_schema _ _ eq_refl Hrows eq_refl Hval Hidx)
                       Hle)) as Hrun.
  rewrite Hrun.
  - vm_compute. reflexivity.
  - intros k [<-|[]]. vm_compute. reflexivity.
  - intros f [<-|[]]. vm_compute. reflexivity.
Defined.

(** C3 fails on the code: with one invalid row out of twenty the ratio
    is exactly 5%, the run continues, and the non-null check of [actor],
    a declared non-null field that is no column of the frame, raises
    [KeyError] instead of appending an error: no report is returned. *)
Lemma absent_column_raises_past_gate :
  20 * rows_with_failures (null_cells "type" twenty_rows 0) 20 <= 20
  /\ nullable_validator
       [("id", {| col_dtype := PaInt; nullable := true |});
        ("type", {| col_dtype := PaString; nullable := false |})]
       (data_frame (_load_rows [JArr twenty_rows]))
     = SchemaErrors (null_cells "type" twenty_rows 0)
  /\ fst (validate_schema nullable_validator structural_duplicates plain_dtype
                          absent_actor_cfg "/opt/airflow" "2024-06-10"
                          [JArr twenty_rows])
     = Raise (KeyError "actor").
Proof.
  split; [vm_compute; discriminate|].
  split; vm_compute; reflexivity.
Qed.

End SchemaValidatorFacts.

(** ** Row rejection, column order and purity of [transform_data] *)

Module DataTransformerFacts.
Import RawStore DataTransformer.
Local Open Scope nat_scope.

(** *** Masks and filtered lists *)

Lemma mask_or_length (a b : list bool) :
  length a = length b -> length (mask_or a b) = length a.
Proof.
  revert b. induction a as [|x a IH]; intros [|y b] H; simpl in *;
    try discriminate; [reflexivity|].
  f_equal. apply IH. now injection H.
Qed.

Lemma mask_or_nth (a b : list bool) (i : nat) :
  length a = length b ->
  nth_error (mask_or a b) i = Some true
  <-> nth_error a i = Some true \/ nth_error b i = Some true.
Proof.
  revert b i. induction a as [|x a IH]; intros [|y b] i H; simpl in *;
    try discriminate.
  - destruct i; simpl; intuition discriminate.
  - destruct i as [|i]; simpl.
    + destruct x, y; simpl; intuition congruence.
    + apply IH. now injection H.
Qed.

Lemma isna_nth (col : series) (i : nat) :
  nth_error (isna col) i = Some true <-> nth_error col i = Some None.
Proof.
  unfold isna. rewrite nth_error_map.
  destruct (nth_error col i) as [[v|]|]; simpl; intuition congruence.
Qed.

Lemma keep_index (mask : list bool) (start : nat) (i : nat) :
  In i (keep (map negb mask) (seq start (length mask)))
  <-> start <= i < start + length mask
      /\ nth_error mask (i - start) = Some false.
Proof.
  revert start. induction mask as [|b mask IH]; intros start; simpl.
  - split; [intros []|lia].
  - destruct b; simpl; rewrite ?IH.
    + split.
      * intros [Hr Hn]. split; [lia|].
        replace (i - start)%nat with (S (i - S start)) by lia. exact Hn.
      * intros [Hr Hn].
        destruct (i - start)%nat as [|k] eqn:E; simpl in Hn; [discriminate|].
        split; [lia|]. replace (i - S start)%nat with k by lia. exact Hn.
    + split.
      * intros [->|[Hr Hn]].
        -- split; [lia|]. now rewrite Nat.sub_diag.
        -- split; [lia|].
           replace (i - start)%nat with (S (i - S start)) by lia. exact Hn.
      * intros [Hr Hn].
        destruct (i - start)%nat as [|k] eqn:E; simpl in Hn.
        -- left. lia.
        -- right. split; [lia|].
           replace (i - S start)%nat with k by lia. exact Hn.
Qed.

Lemma keep_In {A : Type} (mask : list bool) (l : list A) (i : nat) (x : A) :
  nth_error mask i = Some true -> nth_error l i = Some x ->
  In x (keep mask l).
Proof.
  revert l i. induction mask as [|b mask IH]; intros [|y l] [|i] Hm Hl;
    simpl in *; try discriminate.
  - injection Hm as ->. injection Hl as ->. now left.
  - destruct b; [right|]; eapply IH; eassumption.
Qed.

(** *** Columns of the flattened frame *)

Lemma mem_In (x : string) (l : list string) : mem x l = true <-> In x l.
Proof.
  unfold mem. rewrite existsb_exists. split.
  - intros (y & Hy & E). apply String.eqb_eq in E. now subst.
  - intros H. exists x. split; [exact H|apply String.eqb_refl].
Qed.

Lemma add_keys_incl (kvs : list (string * json)) :
  forall cols c, In c cols -> In c (add_keys kvs cols).
Proof.
  induction kvs as [|[k v] kvs IH]; intros cols c H; simpl; [exact H|].
  apply IH. destruct (mem k cols); [exact H|]. apply in_or_app. now left.
Qed.

Lemma add_keys_get (kvs : list (string * json)) :
  forall cols k v, items_get k kvs = Some v -> In k (add_keys kvs cols).
Proof.
  induction kvs as [|[k0 v0] kvs IH]; intros cols k v H; simpl in *;
    [discriminate|].
  destruct (String.eqb_spec k0 k) as [->|Hne].
  - apply add_keys_incl. destruct (mem k cols) eqn:E.
    + now apply mem_In.
    + apply in_or_app. right. now left.
  - eapply IH. exact H.
Qed.

Lemma columns_from_incl (rows : list json) :
  forall cols c, In c cols -> In c (columns_from rows cols).
Proof.
  induction rows as [|r rows IH]; intros cols c H; simpl; [exact H|].
  destruct r; try (apply IH; exact H).
  apply IH. now apply add_keys_incl.
Qed.

(** A key some row has is a column of the frame. *)
Lemma cell_column (rows : list json) (r : json) (k : string) (v : json) :
  In r rows -> cell r k = Some v -> mem k (RawStore.columns rows) = true.
Proof.
  intros Hin Hcell. apply mem_In. unfold RawStore.columns.
  generalize (@nil string). induction rows as [|r0 rows IH]; intros cols;
    [destruct Hin|].
  destruct Hin as [->|Hin].
  - destruct r; simpl in Hcell; try discriminate. simpl.
    apply columns_from_incl. eapply add_keys_get. exact Hcell.
  - simpl. destruct r0; apply IH; exact Hin.
Qed.

(** *** Conversions keep the length of the column *)

Lemma map_result_length {A B : Type} (f : A -> result B) (l : list A)
      (l' : list B) :
  map_result f l = Ok l' -> length l' = length l.
Proof.
  revert l'. induction l as [|x l IH]; intros l' H; simpl in H.
  - now injection H as <-.
  - destruct (f x) as [y|e]; simpl in H; [|discriminate].
    destruct (map_result f l) as [tl|e]; simpl in H; [|discriminate].
    injection H as <-. simpl. f_equal. now apply IH.
Qed.

Lemma astype_Int64_length (col : list (option Q)) (out : series) :
  astype_Int64 col = Ok out -> length out = length col.
Proof.
  revert out. induction col as [|c col IH]; intros out H; simpl in H.
  - now injection H as <-.
  - destruct c as [q|].
    + destruct (cast_int64 q); [|discriminate].
      destruct (astype_Int64 col) as [tl|e]; simpl in H; [|discriminate].
      injection H as <-. simpl. f_equal. now apply IH.
    + destruct (astype_Int64 col) as [tl|e]; simpl in H; [|discriminate].
      injection H as <-. simpl. f_equal. now apply IH.
Qed.

(** *** The frame pandas holds *)

Lemma data_frame_length (rows : list json) :
  length (data_frame rows) = length rows.
Proof. unfold data_frame. apply length_map. Qed.

Lemma json_normalize_length (rows : list json) :
  length (json_normalize rows) = length rows.
Proof. unfold json_normalize. now rewrite data_frame_length, length_map. Qed.

Lemma add_keys_relabel (g : string -> json -> json)
      (kvs : list (string * json)) :
  forall cols,
    add_keys (map (fun kv => (fst kv, g (fst kv) (snd kv))) kvs) cols
    = add_keys kvs cols.
Proof.
  induction kvs as [|[k v] kvs IH]; intros cols; simpl; [reflexivity|].
  apply IH.
Qed.

Lemma columns_from_relabel (g : string -> json -> json) (rows : list json) :
  forall cols,
    columns_from (map (relabel g) rows) cols = columns_from rows cols.
Proof.
  induction rows as [|r rows IH]; intros cols; simpl; [reflexivity|].
  destruct r; simpl; rewrite ?add_keys_relabel; apply IH.
Qed.

Lemma columns_data_frame (rows : list json) :
  RawStore.columns (data_frame rows) = RawStore.columns rows.
Proof. unfold RawStore.columns, data_frame. apply columns_from_relabel. Qed.

Lemma cell_relabel (g : string -> json -> json) (r : json) (c : string) :
  cell (relabel g r) c = option_map (g c) (cell r c).
Proof.
  destruct r; simpl; try reflexivity.
  induction kvs as [|[k v] kvs IH]; simpl; [reflexivity|].
  destruct (String.eqb_spec k c) as [->|Hne]; [reflexivity|exact IH].
Qed.

(** The cell of a row in the frame is the cell of the row as the column
    holds it. *)
Lemma cell_data_frame (rows : list json) (i : nat) (r : json) (c : string) :
  nth_error rows i = Some r ->
  exists r', nth_error (data_frame rows) i = Some r'
             /\ cell r' c = option_map (held (column_cells rows c)) (cell r c).
Proof.
  intros Hr. unfold data_frame. rewrite nth_error_map, Hr. simpl.
  eexists. split; [reflexivity|]. apply cell_relabel.
Qed.

Lemma held_isna (col : list (option json)) (x : option json) :
  cell_isna (option_map (held col) x) = cell_isna x.
Proof.
  destruct x as [v|]; [|reflexivity].
  destruct v; simpl; try reflexivity. destruct (widened col); reflexivity.
Qed.

Section Facts.

Variable parse_datetime :
  Z -> option string -> list (option json) -> option json -> option Z.
Variable numeric_cell : list (option json) -> option json -> option Q.
Variable str_other : json -> string.
Variable to_bool_list : list json -> result (option bool).
Variable value_mul : value -> json -> result value.
Variable value_add : value -> json -> result value.

Local Abbreviation conv_series :=
  (_convert_series parse_datetime numeric_cell str_other to_bool_list
                  value_mul value_add).
Local Abbreviation conv_mapping :=
  (convert_mapping parse_datetime numeric_cell str_other to_bool_list
                   value_mul value_add).
Local Abbreviation run_mappings :=
  (apply_mappings parse_datetime numeric_cell str_other to_bool_list
                  value_mul value_add).
Local Abbreviation transform :=
  (transform_data parse_datetime numeric_cell str_other to_bool_list
                  value_mul value_add).
Local Abbreviation converted :=
  (field_converted parse_datetime numeric_cell str_other to_bool_list
                   value_mul value_add).

Lemma arith_length (op : value -> json -> result value) (k : json)
      (col : series) :
  length (arith op k col) = length col.
Proof.
  unfold arith.
  destruct (map_result _ col) as [out|e] eqn:E.
  - now apply map_result_length in E.
  - now rewrite length_map.
Qed.

Lemma apply_units_length (sc off : option json) (col : series) :
  length (apply_units value_mul value_add sc off col) = length col.
Proof.
  unfold apply_units. destruct sc, off; rewrite ?arith_length; reflexivity.
Qed.

Lemma convert_series_length (now : Z) (col : list (option json)) (ty : string)
      (fmt : option string) (sc off : option json) (out : series) :
  conv_series now col ty fmt sc off = Ok out -> length out = length col.
Proof.
  unfold _convert_series.
  destruct (ty =? "datetime")%string.
  - intros H. injection H as <-. now rewrite length_map.
  - destruct (ty =? "int")%string.
    + destruct (astype_Int64 _) as [c|e] eqn:E; simpl; [|discriminate].
      intros H. injection H as <-. rewrite apply_units_length.
      apply astype_Int64_length in E. now rewrite length_map in E.
    + destruct (ty =? "float")%string.
      * simpl. intros H. injection H as <-. rewrite apply_units_length.
        unfold astype_Float64. now rewrite !length_map.
      * destruct (ty =? "bool")%string.
        -- destruct (map_result (to_bool str_other to_bool_list) col)
             as [bs|e] eqn:E; simpl; [|discriminate].
           intros H. injection H as <-. rewrite apply_units_length.
           rewrite length_map. now apply map_result_length in E.
        -- simpl. intros H. injection H as <-. rewrite apply_units_length.
           unfold astype_string. now rewrite length_map.
Qed.

Lemma source_series_length (df_flat : list json) (m : mapping) :
  length (source_series df_flat m) = length df_flat.
Proof.
  unfold source_series. destruct (mem _ _); now rewrite length_map.
Qed.

Lemma convert_mapping_length (now : Z) (df_flat : list json) (m : mapping)
      (out : series) :
  conv_mapping now df_flat m = Ok out -> length out = length df_flat.
Proof.
  intros H. apply convert_series_length in H.
  now rewrite source_series_length in H.
Qed.

(** *** The mapping loop *)

Lemma frame_set_labels (l t : string) (col : series)
      (cols : list (string * series)) :
  In l (map fst (frame_set t col cols)) <-> l = t \/ In l (map fst cols).
Proof.
  induction cols as [|[l0 c0] cols IHc]; simpl.
  - intuition.
  - destruct (String.eqb_spec l0 t) as [->|Hne]; simpl.
    + intuition.
    + rewrite IHc. intuition.
Qed.

Lemma run_mappings_spec (times : nat -> Z) (df_flat : list json)
      (ms : list mapping) :
  forall k out mask out' mask',
    run_mappings times df_flat ms k out mask = Ok (out', mask') ->
    length mask = length df_flat ->
    length mask' = length df_flat
    /\ (forall i,
           nth_error mask' i = Some true
           <-> nth_error mask i = Some true
               \/ exists j m col,
                    nth_error ms j = Some m
                    /\ conv_mapping (times (k + j)) df_flat m = Ok col
                    /\ nth_error col i = Some None)
    /\ (forall j m, nth_error ms j = Some m ->
                    exists col, conv_mapping (times (k + j)) df_flat m = Ok col)
    /\ (forall l, In l (map fst out')
                  <-> In l (map fst out) \/ In l (map target ms)).
Proof.
  induction ms as [|m ms IH]; intros k out mask out' mask' H Hlen; simpl in H.
  - injection H as <- <-. repeat split; auto.
    + intros [H|(j & m & col & Hj & _)]; [exact H|].
      destruct j; discriminate.
    + intros j m Hj. destruct j; discriminate.
    + intros [H|[]]. exact H.
  - destruct (conv_mapping (times k) df_flat m) as [col|e] eqn:Ecol;
      simpl in H; [|discriminate].
    pose proof (convert_mapping_length _ _ _ _ Ecol) as Hcol.
    assert (Hlen' : length mask = length (isna col))
      by (unfold isna; rewrite length_map; congruence).
    apply IH in H; [|rewrite mask_or_length; assumption].
    destruct H as (Hl & Hm & Hok & Hlab).
    split; [exact Hl|]. split; [|split].
    + intros i. rewrite Hm, (mask_or_nth _ _ _ Hlen'), isna_nth. split.
      * intros [[H|H]|(j & m' & c & Hj & Hc & Hn)].
        -- now left.
        -- right. exists 0, m, col. rewrite Nat.add_0_r. auto.
        -- right. exists (S j), m', c. rewrite Nat.add_succ_r. auto.
      * intros [H|(j & m' & c & Hj & Hc & Hn)].
        -- left. now left.
        -- destruct j as [|j]; simpl in Hj.
           ++ injection Hj as <-. rewrite Nat.add_0_r in Hc.
              left. right. congruence.
           ++ right. exists j, m', c. rewrite Nat.add_succ_r in Hc. auto.
    + intros j m' Hj. destruct j as [|j]; simpl in Hj.
      * injection Hj as <-. rewrite Nat.add_0_r. eauto.
      * rewrite Nat.add_succ_r. now apply Hok.
    + intros l. rewrite Hlab, frame_set_labels. simpl. intuition.
Qed.

(** *** Columns of a frame *)

Lemma frame_get_set_eq (l : string) (c : series) (cols : list (string * series)) :
  frame_get l (frame_set l c cols) = Ok c.
Proof.
  induction cols as [|[l0 c0] cols IH]; simpl.
  - now rewrite String.eqb_refl.
  - destruct (String.eqb_spec l0 l) as [->|Hne]; simpl.
    + now rewrite String.eqb_refl.
    + destruct (String.eqb_spec l0 l); [contradiction|exact IH].
Qed.

Lemma frame_get_set_ne (l l' : string) (c : series)
      (cols : list (string * series)) :
  l <> l' -> frame_get l (frame_set l' c cols) = frame_get l cols.
Proof.
  intros Hne. induction cols as [|[l0 c0] cols IH]; simpl.
  - destruct (String.eqb_spec l' l); [congruence|reflexivity].
  - destruct (String.eqb_spec l0 l') as [->|Hne0]; simpl.
    + destruct (String.eqb_spec l' l); [congruence|reflexivity].
    + destruct (String.eqb_spec l0 l); [reflexivity|exact IH].
Qed.

Lemma frame_get_In (l : string) (cols : list (string * series)) :
  In l (map fst cols) -> exists c, frame_get l cols = Ok c.
Proof.
  induction cols as [|[l0 c0] cols IH]; simpl; [intros []|].
  intros [->|H].
  - rewrite String.eqb_refl. eauto.
  - destruct (l0 =? l)%string; eauto.
Qed.

Lemma frame_select_labels (labels : list string)
      (cols sel : list (string * series)) :
  frame_select labels cols = Ok sel -> map fst sel = labels.
Proof.
  revert sel. induction labels as [|l labels IH]; intros sel H; simpl in H.
  - now injection H as <-.
  - destruct (frame_get l cols) as [c|e]; simpl in H; [|discriminate].
    destruct (frame_select labels cols) as [tl|e]; simpl in H; [|discriminate].
    injection H as <-. simpl. f_equal. now apply IH.
Qed.

Lemma frame_select_ok (labels : list string) (cols : list (string * series)) :
  (forall l, In l labels -> In l (map fst cols)) ->
  exists sel, frame_select labels cols = Ok sel.
Proof.
  induction labels as [|l labels IH]; intros H; simpl.
  - eauto.
  - destruct (frame_get_In l cols (H l (or_introl eq_refl))) as [c ->].
    destruct (IH (fun l' Hl' => H l' (or_intror Hl'))) as [tl ->].
    simpl. eauto.
Qed.

Lemma stamped_labels (cfg : config) (now_utc : Z) (idx : list nat)
      (clean : list (string * series)) (l : string) :
  In l (map fst clean) \/ l = "ingestion_timestamp" \/ l = "source" ->
  exists c, frame_get l (stamped cfg now_utc idx clean) = Ok c.
Proof.
  intros H. unfold stamped.
  destruct (String.eqb_spec l "source") as [->|Hs];
    [rewrite frame_get_set_eq; eauto|].
  rewrite frame_get_set_ne by exact Hs.
  destruct (String.eqb_spec l "ingestion_timestamp") as [->|Ht];
    [rewrite frame_get_set_eq; eauto|].
  rewrite frame_get_set_ne by exact Ht.
  apply frame_get_In. intuition.
Qed.

(** What a successful run of [transform_data] went through. *)
Lemma transform_inv (cfg : config) (base_dir execution_date : string)
      (pages : list json) (times : nat -> Z) (now_utc : Z)
      (out : frame) (fx : list effect) :
  transform cfg base_dir execution_date pages times now_utc = (Ok out, fx) ->
  let df_flat := json_normalize (_load_rows pages) in
  let inv_dir := invalid_dir base_dir (name cfg) execution_date in
  (_load_rows pages = []
   /\ out = {| index := [];
               columns := map (fun c => (c, [])) (header cfg) |}
   /\ fx = [MakeDirs inv_dir])
  \/ (_load_rows pages <> []
      /\ exists outc mask,
        run_mappings times df_flat (mappings cfg) 0 []
                     (map (fun _ => false) df_flat)
        = Ok (outc, mask)
        /\ index out = keep (map negb mask) (seq 0 (length df_flat))
        /\ frame_select (header cfg)
             (stamped cfg now_utc (index out)
                (map (fun lc => (fst lc, keep (map negb mask) (snd lc))) outc))
           = Ok (columns out)
        /\ fx = match keep mask df_flat with
                | [] => [MakeDirs inv_dir]
                | _ :: _ =>
                    [MakeDirs inv_dir;
                     WriteJson (inv_dir ++ "/transform_invalid_rows.json")%string
                       (JArr (map (record_of (RawStore.columns df_flat))
                                  (keep mask df_flat)))]
                end).
Proof.
  intros H. cbv zeta. unfold transform_data in H.
  destruct (_load_rows pages) as [|r rs] eqn:Er.
  - left. injection H as <- <-. auto.
  - right. split; [discriminate|].
    set (df_flat := json_normalize (r :: rs)) in *.
    destruct (run_mappings times df_flat (mappings cfg) 0 []
                (map (fun _ => false) df_flat)) as [[outc mask]|e];
      [|discriminate].
    exists outc, mask. split; [reflexivity|].
    fold (stamped cfg now_utc (keep (map negb mask) (seq 0 (length df_flat)))
            (map (fun lc => (fst lc, keep (map negb mask) (snd lc))) outc)) in H.
    destruct (frame_select _ _) as [cols|e] eqn:Esel; [|discriminate].
    injection H as <- <-. simpl. split; [reflexivity|]. split; [exact Esel|].
    destruct (keep mask df_flat); reflexivity.
Qed.

(** *** Rows kept and rows rejected *)

Lemma all_false_nth {A : Type} (l : list A) (i : nat) :
  nth_error (map (fun _ => false) l) i <> Some true.
Proof.
  rewrite nth_error_map. destruct (nth_error l i); simpl; congruence.
Qed.

Lemma nth_error_bool_dec (mask : list bool) (i : nat) :
  i < length mask ->
  nth_error mask i = Some true \/ nth_error mask i = Some false.
Proof.
  intros H. destruct (nth_error mask i) as [[|]|] eqn:E; auto.
  apply nth_error_None in E. lia.
Qed.

(** Whenever [transform_data] returns a frame, row [i] of the
    flattened input is in the output if and only if every mapped field of
    that row converted to a non-null value; one field that did not
    convert excludes the row whatever its other fields did, and every
    excluded row is in the dump written to [transform_invalid_rows.json]. *)
Lemma row_retained_iff (cfg : config) (base_dir execution_date : string)
      (pages : list json) (times : nat -> Z) (now_utc : Z)
      (out : frame) (fx : list effect) :
  transform cfg base_dir execution_date pages times now_utc = (Ok out, fx) ->
  let df_flat := json_normalize (_load_rows pages) in
  (forall i,
      In i (index out)
      <-> i < length df_flat
          /\ forall j m, nth_error (mappings cfg) j = Some m ->
                         converted (times j) df_flat m i)
  /\ (forall i r,
         nth_error df_flat i = Some r -> ~ In i (index out) ->
         exists content,
           In (WriteJson
                 (invalid_dir base_dir (name cfg) execution_date
                  ++ "/transform_invalid_rows.json")%string
                 (JArr content)) fx
           /\ In (record_of (RawStore.columns df_flat) r) content).
Proof.
  intros H df_flat. apply transform_inv in H. cbv zeta in H. fold df_flat in H.
  destruct H as [(Hrows & -> & ->)|(Hrows & outc & mask & Hrun & Hidx & _ & Hfx)].
  - subst df_flat. rewrite Hrows. simpl. split.
    + intros i. split; [intros []|intros [Hlt _]; lia].
    + intros [|i] r Hr; discriminate.
  - apply run_mappings_spec in Hrun; [|now rewrite length_map].
    destruct Hrun as (Hlen & Hmask & Hok & _).
    assert (Hkept : forall i,
               In i (index out)
               <-> i < length df_flat /\ nth_error mask i = Some false).
    { intros i. rewrite Hidx, <- Hlen, keep_index, Nat.sub_0_r. intuition lia. }
    assert (Hna : forall i,
               nth_error mask i = Some true
               <-> exists j m col, nth_error (mappings cfg) j = Some m
                                   /\ conv_mapping (times j) df_flat m = Ok col
                                   /\ nth_error col i = Some None).
    { intros i. rewrite Hmask. split; [|auto].
      intros [Hf|Hex]; [|exact Hex]. now apply all_false_nth in Hf. }
    split.
    + intros i. rewrite Hkept. split.
      * intros [Hlt Hfalse]. split; [exact Hlt|].
        intros j m Hm. destruct (Hok j m Hm) as [col Hcol]. simpl in Hcol.
        pose proof (convert_mapping_length _ _ _ _ Hcol) as Hc.
        destruct (nth_error col i) as [[v|]|] eqn:E.
        -- exists col, v. auto.
        -- assert (nth_error mask i = Some true)
             by (apply Hna; exists j, m, col; auto).
           congruence.
        -- apply nth_error_None in E. lia.
      * intros [Hlt Hall]. split; [exact Hlt|].
        destruct (nth_error_bool_dec mask i) as [Ht|Hf];
          [lia| |exact Hf].
        apply Hna in Ht. destruct Ht as (j & m & col & Hm & Hcol & Hn).
        destruct (Hall j m Hm) as (col' & v & Hcol' & Hv). congruence.
    + intros i r Hr Hout.
      assert (Hlt : i < length df_flat)
        by (apply nth_error_Some; congruence).
      assert (Ht : nth_error mask i = Some true).
      { destruct (nth_error_bool_dec mask i) as [Ht|Hf]; [lia|exact Ht|].
        exfalso. apply Hout, Hkept. auto. }
      pose proof (keep_In mask df_flat i r Ht Hr) as Hin.
      destruct (keep mask df_flat) as [|x xs] eqn:Ek; [destruct Hin|].
      exists (map (record_of (RawStore.columns df_flat)) (x :: xs)).
      split; [rewrite Hfx; simpl; auto|]. now apply in_map.
Qed.

(** *** Column order *)

Lemma run_mappings_raise (times : nat -> Z) (df_flat : list json)
      (ms : list mapping) :
  forall k out mask e,
    run_mappings times df_flat ms k out mask = Raise e ->
    exists j m, nth_error ms j = Some m
                /\ conv_mapping (times (k + j)) df_flat m = Raise e.
Proof.
  induction ms as [|m ms IH]; intros k out mask e H; simpl in H;
    [discriminate|].
  destruct (conv_mapping (times k) df_flat m) as [col|e'] eqn:E; simpl in H.
  - apply IH in H. destruct H as (j & m' & Hj & Hm').
    exists (S j), m'. rewrite Nat.add_succ_r. auto.
  - injection H as <-. exists 0, m. rewrite Nat.add_0_r. auto.
Qed.

Lemma select_header_ok (cfg : config) (times : nat -> Z) (now_utc : Z)
      (df_flat : list json)
      (outc : list (string * series)) (mask mask0 : list bool)
      (idx : list nat) (valid : list bool) :
  run_mappings times df_flat (mappings cfg) 0 [] mask0 = Ok (outc, mask) ->
  length mask0 = length df_flat ->
  exists sel,
    frame_select (header cfg)
      (stamped cfg now_utc idx
         (map (fun lc => (fst lc, keep valid (snd lc))) outc)) = Ok sel.
Proof.
  intros Hrun Hlen. apply run_mappings_spec in Hrun; [|exact Hlen].
  destruct Hrun as (_ & _ & _ & Hlab).
  assert (Hall : forall l, In l (header cfg) ->
                   exists c, frame_get l
                     (stamped cfg now_utc idx
                        (map (fun lc => (fst lc, keep valid (snd lc))) outc))
                     = Ok c).
  { intros l Hl. apply stamped_labels. rewrite map_map. simpl.
    unfold header in Hl. apply in_app_or in Hl. destruct Hl as [Hl|Hl].
    - left. apply Hlab. now right.
    - right. simpl in Hl. intuition. }
  revert Hall. generalize (header cfg). intros labels.
  induction labels as [|l labels IH]; intros Hall; simpl; [eauto|].
  destruct (Hall l (or_introl eq_refl)) as [c ->].
  destruct (IH (fun l' Hl' => Hall l' (or_intror Hl'))) as [tl ->].
  simpl. eauto.
Qed.

(** C5.  The columns of the output of [transform_data] are the mapped
    targets in config order, then [ingestion_timestamp], then [source]:
    for an empty raw page set the result is the zero-row frame with
    exactly that header, for any other input every returned frame has
    exactly that header, and the only way not to return a frame is an
    exception raised by the conversion of one of the mappings. *)
Theorem column_order (cfg : config) (base_dir execution_date : string)
        (pages : list json) (times : nat -> Z) (now_utc : Z) :
  let hdr := map target (mappings cfg) ++ ["ingestion_timestamp"; "source"] in
  let run := transform cfg base_dir execution_date pages times now_utc in
  (_load_rows pages = [] ->
   run = (Ok {| index := []; columns := map (fun c => (c, [])) hdr |},
          [MakeDirs (invalid_dir base_dir (name cfg) execution_date)]))
  /\ (forall out fx, run = (Ok out, fx) -> map fst (columns out) = hdr)
  /\ (forall e fx,
         run = (Raise e, fx) ->
         exists j m, nth_error (mappings cfg) j = Some m
                     /\ In m (mappings cfg)
                     /\ conv_mapping (times j)
                                     (json_normalize (_load_rows pages)) m
                        = Raise e).
Proof.
  cbv zeta. split; [|split].
  - intros H. unfold transform_data. rewrite H. reflexivity.
  - intros out fx H. apply transform_inv in H. cbv zeta in H.
    destruct H as [(_ & -> & _)|(_ & outc & mask & _ & _ & Hsel & _)].
    + simpl. rewrite map_map. simpl. now rewrite map_id.
    + apply frame_select_labels in Hsel. exact Hsel.
  - intros e fx H. unfold transform_data in H.
    destruct (_load_rows pages) as [|r rs]; [discriminate|].
    set (df_flat := json_normalize (r :: rs)) in *.
    destruct (run_mappings times df_flat (mappings cfg) 0 []
                (map (fun _ => false) df_flat)) as [[outc mask]|e'] eqn:Erun.
    + exfalso.
      destruct (select_header_ok cfg times now_utc df_flat outc mask _
                  (keep (map negb mask) (seq 0 (length df_flat)))
                  (map negb mask) Erun) as [sel Hsel];
        [now rewrite length_map|].
      unfold stamped in Hsel. rewrite Hsel in H. discriminate.
    + injection H as <- _. apply run_mappings_raise in Erun.
      destruct Erun as (j & m & Hj & Hm). exists j, m.
      split; [exact Hj|]. split; [now apply nth_error_In in Hj|exact Hm].
Qed.

(** *** Dependence on the clock *)

Lemma select_stamped (cfg : config) (now1 now2 : Z) (idx : list nat)
      (clean : list (string * series)) (labels : list string) :
  match frame_select labels (stamped cfg now1 idx clean),
        frame_select labels (stamped cfg now2 idx clean) with
  | Ok s1, Ok s2 =>
      Forall2
        (fun a b =>
           fst a = fst b
           /\ (fst a <> "ingestion_timestamp"%string -> snd a = snd b)
           /\ (fst a = "ingestion_timestamp"%string ->
               snd a = map (fun _ => Some (VTime now1)) idx
               /\ snd b = map (fun _ => Some (VTime now2)) idx))
        s1 s2
  | Raise e1, Raise e2 => e1 = e2
  | _, _ => False
  end.
Proof.
  induction labels as [|l labels IH]; simpl; [constructor|].
  assert (Hget :
            (l = "ingestion_timestamp"%string
             /\ frame_get l (stamped cfg now1 idx clean)
                = Ok (map (fun _ => Some (VTime now1)) idx)
             /\ frame_get l (stamped cfg now2 idx clean)
                = Ok (map (fun _ => Some (VTime now2)) idx))
            \/ (l <> "ingestion_timestamp"%string
                /\ frame_get l (stamped cfg now1 idx clean)
                   = frame_get l (stamped cfg now2 idx clean))).
  { unfold stamped.
    destruct (String.eqb_spec l "ingestion_timestamp") as [->|Ht].
    - left.
      rewrite (frame_get_set_ne "ingestion_timestamp" "source") by discriminate.
      rewrite (frame_get_set_ne "ingestion_timestamp" "source") by discriminate.
      rewrite !frame_get_set_eq. repeat split.
    - right. split; [exact Ht|].
      destruct (String.eqb_spec l "source") as [->|Hs].
      + repeat rewrite frame_get_set_eq. reflexivity.
      + repeat rewrite frame_get_set_ne by assumption. reflexivity. }
  destruct Hget as [(-> & -> & ->)|(Hne & ->)]; simpl.
  - destruct (frame_select labels (stamped cfg now1 idx clean)) as [s1|e1],
             (frame_select labels (stamped cfg now2 idx clean)) as [s2|e2];
      simpl; try exact IH.
    constructor; [|exact IH]. simpl. intuition congruence.
  - destruct (frame_get l (stamped cfg now2 idx clean)) as [c|e]; simpl;
      [|reflexivity].
    destruct (frame_select labels (stamped cfg now1 idx clean)) as [s1|e1],
             (frame_select labels (stamped cfg now2 idx clean)) as [s2|e2];
      simpl; try exact IH.
    constructor; [|exact IH]. simpl. intuition congruence.
Qed.

(** A conversion reads the clock only through [pd.to_datetime]. *)
Lemma convert_mapping_clock (t1 t2 : Z) (df_flat : list json) (m : mapping) :
  (type_ m = Some "datetime"%string ->
   forall c, In c (source_series df_flat m) ->
             parse_datetime t1 (format m) (source_series df_flat m) c
             = parse_datetime t2 (format m) (source_series df_flat m) c) ->
  conv_mapping t1 df_flat m = conv_mapping t2 df_flat m.
Proof.
  intros H. unfold convert_mapping, _convert_series.
  destruct (type_ m) as [t|] eqn:Et; [|reflexivity].
  destruct (String.eqb_spec t "datetime") as [->|Hne]; [|reflexivity].
  f_equal. apply map_ext_in. intros c Hc. now rewrite (H eq_refl c Hc).
Qed.

Lemma run_mappings_clock (times1 times2 : nat -> Z) (df_flat : list json)
      (ms : list mapping) :
  forall k out mask,
    (forall j m, nth_error ms j = Some m ->
                 conv_mapping (times1 (k + j)) df_flat m
                 = conv_mapping (times2 (k + j)) df_flat m) ->
    run_mappings times1 df_flat ms k out mask
    = run_mappings times2 df_flat ms k out mask.
Proof.
  induction ms as [|m ms IH]; intros k out mask H; simpl; [reflexivity|].
  pose proof (H 0 m eq_refl) as H0. rewrite Nat.add_0_r in H0. rewrite H0.
  destruct (conv_mapping (times2 k) df_flat m) as [col|e]; simpl;
    [|reflexivity].
  apply IH. intros j m' Hj. specialize (H (S j) m' Hj).
  now rewrite Nat.add_succ_r in H.
Qed.

(** C1 (amended).  Two invocations of [transform_data] on the same page
    set and config read the wall clock twice: while [pd.to_datetime]
    converts the cells of a [datetime] mapping, where pandas resolves
    the strings ["now"] and ["today"] against it, and for the
    [ingestion_timestamp].  When no cell of a [datetime] mapping is read
    against the clock, that is, its conversion gives the same instant
    at the clock readings of the two invocations, the two invocations
    have the same effects and either raise the same exception or return
    frames with the same rows, the same columns in the same order and
    the same cells in every column but [ingestion_timestamp], whose
    cells are the clock reading of each invocation. *)
Theorem transform_pure_but_timestamp
        (cfg : config) (base_dir execution_date : string)
        (pages : list json) (times1 times2 : nat -> Z) (now1 now2 : Z) :
  let df_flat := json_normalize (_load_rows pages) in
  (forall j m c,
      nth_error (mappings cfg) j = Some m ->
      type_ m = Some "datetime"%string ->
      In c (source_series df_flat m) ->
      parse_datetime (times1 j) (format m) (source_series df_flat m) c
      = parse_datetime (times2 j) (format m) (source_series df_flat m) c) ->
  snd (transform cfg base_dir execution_date pages times1 now1)
  = snd (transform cfg base_dir execution_date pages times2 now2)
  /\ match fst (transform cfg base_dir execution_date pages times1 now1),
           fst (transform cfg base_dir execution_date pages times2 now2) with
     | Ok f1, Ok f2 => agree_but_timestamp now1 now2 f1 f2
     | Raise e1, Raise e2 => e1 = e2
     | _, _ => False
     end.
Proof.
  cbv zeta. intros Hclock. unfold transform_data.
  destruct (_load_rows pages) as [|r rs].
  - simpl. split; [reflexivity|]. split; [reflexivity|]. simpl.
    induction (header cfg) as [|l labels IH]; simpl; constructor;
      [simpl; intuition|exact IH].
  - set (df_flat := json_normalize (r :: rs)) in *.
    rewrite (run_mappings_clock times1 times2 df_flat (mappings cfg) 0 []
               (map (fun _ => false) df_flat)).
    2:{ intros j m Hj. simpl. apply convert_mapping_clock.
        intros Hty c Hc. now apply (Hclock j m c). }
    destruct (run_mappings times2 df_flat (mappings cfg) 0 []
                (map (fun _ => false) df_flat)) as [[outc mask]|e];
      [|simpl; auto].
    set (idx := keep (map negb mask) (seq 0 (length df_flat))).
    set (clean := map (fun lc => (fst lc, keep (map negb mask) (snd lc))) outc).
    pose proof (select_stamped cfg now1 now2 idx clean (header cfg)) as Hsel.
    unfold stamped in Hsel.
    destruct (frame_select (header cfg) _) as [s1|e1],
             (frame_select (header cfg) _) as [s2|e2];
      simpl; try contradiction; split; try reflexivity; try exact Hsel.
    split; [reflexivity|exact Hsel].
Qed.

(** *** String-typed fields *)

Lemma source_series_nth (df_flat : list json) (m : mapping) (i : nat)
      (r : json) :
  nth_error df_flat i = Some r ->
  nth_error (source_series df_flat m) i = Some (cell r (source m)).
Proof.
  intros Hr. unfold source_series.
  destruct (mem (source m) (RawStore.columns df_flat)) eqn:E;
    rewrite nth_error_map, Hr; simpl; [reflexivity|].
  destruct (cell r (source m)) as [v|] eqn:Ec; [|reflexivity].
  apply nth_error_In in Hr.
  rewrite (cell_column df_flat r (source m) v Hr Ec) in E. discriminate.
Qed.

(** C10 (amended).  For a mapping of type string without scale and
    offset the conversion always succeeds, and the converted value of a
    row is null exactly when the source cell of that row is missing or
    null: the source column is absent, the row lacks the key, or the cell
    holds a JSON null.  A cell with any other content converts to the
    string [str] gives for the value the column holds for it: the cell
    itself, or, for an integer in a column of numbers that also has a
    null, a missing cell or a float, that integer as a float. *)
Theorem string_null_iff_source_null (now : Z) (rows : list json) (m : mapping) :
  let flat := map flatten_row rows in
  let df_flat := json_normalize rows in
  type_ m = None \/ type_ m = Some "string"%string ->
  scale m = None -> offset m = None ->
  exists col,
    conv_mapping now df_flat m = Ok col
    /\ length col = length rows
    /\ forall i r,
         nth_error flat i = Some r ->
         (nth_error col i = Some None
          <-> cell_isna (cell r (source m)) = true)
         /\ (forall v, cell r (source m) = Some v -> v <> JNull ->
                       nth_error col i
                       = Some (Some (VStr (py_str str_other
                                             (held (column_cells flat (source m))
                                                   v)))))
         /\ (forall s, cell r (source m) = Some (JStr s) ->
                       nth_error col i = Some (Some (VStr s)))
         /\ (forall z, cell r (source m) = Some (JInt z) ->
                       nth_error col i
                       = Some (Some (VStr
                            (if widened (column_cells flat (source m))
                             then str_other (JFloat (inject_Z z))
                             else NilZero.string_of_int (Z.to_int z))))).
Proof.
  cbv zeta. intros Hty Hsc Hoff.
  set (flat := map flatten_row rows).
  set (df_flat := json_normalize rows).
  exists (astype_string str_other (source_series df_flat m)).
  assert (Hconv : conv_mapping now df_flat m
                  = Ok (astype_string str_other (source_series df_flat m))).
  { unfold convert_mapping, _convert_series, apply_units.
    rewrite Hsc, Hoff. destruct Hty as [->| ->]; reflexivity. }
  split; [exact Hconv|].
  split; [apply convert_mapping_length in Hconv; rewrite Hconv;
          apply json_normalize_length|].
  intros i r Hr.
  destruct (cell_data_frame flat i r (source m) Hr) as (r' & Hr' & Hcell).
  fold (json_normalize rows) in Hr'. fold df_flat in Hr'.
  assert (Hnth : forall v,
             cell r (source m) = Some v -> v <> JNull ->
             nth_error (astype_string str_other (source_series df_flat m)) i
             = Some (Some (VStr (py_str str_other
                                   (held (column_cells flat (source m)) v))))).
  { intros v Hv Hnull. unfold astype_string.
    rewrite nth_error_map, (source_series_nth df_flat m i r' Hr'). simpl.
    rewrite Hcell, Hv. simpl.
    destruct v; simpl; try congruence.
    destruct (widened _); reflexivity. }
  split; [|split; [exact Hnth|split]].
  - unfold astype_string.
    rewrite nth_error_map, (source_series_nth df_flat m i r' Hr'). simpl.
    rewrite Hcell, held_isna.
    destruct (cell r (source m)) as [v|]; simpl; [|intuition].
    destruct v; simpl; try (intuition congruence);
      destruct (widened _); simpl; intuition congruence.
  - intros s Hs. rewrite (Hnth _ Hs) by discriminate. reflexivity.
  - intros z Hz. rewrite (Hnth _ Hz) by discriminate. simpl.
    destruct (widened _); reflexivity.
Qed.

End Facts.

(** *** Concrete runs

    Stand-ins for pandas in the runs below: integers are nanoseconds
    since the epoch, the string [now] is the reading of the clock, and
    nothing else parses as a date; integers and floats are numbers and
    nothing else is; list-valued cells are not booleans; only integers
    can be scaled and shifted, by integers. *)

Example events_run (now_utc : Z) :
  demo_transform events_cfg "/opt/airflow" "2024-06-10" event_pages now_utc
  = (Ok (events_out now_utc), events_fx).
Proof. reflexivity. Qed.

(** The second event converts its string field but not its integer
    field: it is left out and dumped. *)
Lemma events_row_retained :
  demo_transform events_cfg "/opt/airflow" "2024-06-10" event_pages 0
  = (Ok (events_out 0), events_fx)
  /\ forall i,
       In i [0]
       <-> i < 2
           /\ forall j m, nth_error (mappings events_cfg) j = Some m ->
                field_converted epoch_ns plain_numeric plain_str no_bool_list
                  int_mul int_add (still 0 j)
                  (json_normalize (_load_rows event_pages)) m i.
Proof.
  split; [reflexivity|].
  exact (proj1 (row_retained_iff epoch_ns plain_numeric plain_str
                  no_bool_list int_mul int_add events_cfg
                  "/opt/airflow" "2024-06-10" event_pages (still 0) 0
                  (events_out 0) events_fx eq_refl)).
Defined.

(** C2 fails on the code: an [int] field that holds 3/2 is not
    convertible, and the row is neither left out of a returned frame nor
    written to the dump: the cast raises, and [transform_data] with it,
    after creating the directory of the dump and nothing else. *)
Lemma fractional_id_is_not_dumped :
  demo_transform events_cfg "/opt/airflow" "2024-06-10" fractional_pages 0
  = (Raise (TypeError "cannot safely cast non-equivalent float64 to int64"),
     [MakeDirs "/opt/airflow/data/invalid/test_api/2024-06-10"]).
Proof. reflexivity. Qed.

(** An empty page set gives the header and no rows. *)
Lemma column_order_witness :
  _load_rows [JArr []] = []
  /\ demo_transform events_cfg "/opt/airflow" "2024-06-10" [JArr []] 0
     = (Ok {| index := [];
              columns := [ ("event_type", []); ("repo_id", []);
                           ("ingestion_timestamp", []); ("source", []) ] |},
        [MakeDirs "/opt/airflow/data/invalid/test_api/2024-06-10"]).
Proof.
  split; [reflexivity|].
  exact (proj1 (column_order epoch_ns plain_numeric plain_str no_bool_list
                  int_mul int_add events_cfg "/opt/airflow" "2024-06-10"
                  [JArr []] (still 0) 0) eq_refl).
Defined.

(** Two epoch instants in a [datetime] column are not read against the
    clock: two runs at different clock readings agree but for the
    [ingestion_timestamp]. *)
Lemma transform_pure_but_timestamp_witness :
  agree_but_timestamp 7 9
    {| index := [0; 1];
       columns := [ ("event_time", [Some (VTime 1718020800);
                                    Some (VTime 1718024400)]);
                    ("ingestion_timestamp", [Some (VTime 7); Some (VTime 7)]);
                    ("source", [Some (VStr "test_api");
                                Some (VStr "test_api")]) ] |}
    {| index := [0; 1];
       columns := [ ("event_time", [Some (VTime 1718020800);
                                    Some (VTime 1718024400)]);
                    ("ingestion_timestamp", [Some (VTime 9); Some (VTime 9)]);
                    ("source", [Some (VStr "test_api");
                                Some (VStr "test_api")]) ] |}.
Proof.
  assert (Hclock : forall j m c,
             nth_error (mappings timed_cfg) j = Some m ->
             type_ m = Some "datetime"%string ->
             In c (source_series (json_normalize (_load_rows epoch_pages)) m) ->
             epoch_ns (still 5 j) (format m)
               (source_series (json_normalize (_load_rows epoch_pages)) m) c
             = epoch_ns (still 6 j) (format m)
                 (source_series (json_normalize (_load_rows epoch_pages)) m) c).
  { intros [|j] m c Hj Hty Hc; simpl in Hj; [|destruct j; discriminate].
    injection Hj as <-. destruct Hc as [<-|[<-|[]]]; reflexivity. }
  exact (proj2 (transform_pure_but_timestamp epoch_ns plain_numeric plain_str
                  no_bool_list int_mul int_add timed_cfg "/opt/airflow"
                  "2024-06-10" epoch_pages (still 5) (still 6) 7 9 Hclock)).
Defined.

(** C1, as stated, fails: the same page set and config transformed at two
    clock readings give frames that differ in a cell of
    [ingestion_timestamp]; and a [datetime] cell that holds the string
    [now] differs with the clock as well. *)
Lemma transform_depends_on_clock :
  fst (demo_transform events_cfg "/opt/airflow" "2024-06-10" event_pages 0)
  = Ok (events_out 0)
  /\ fst (demo_transform events_cfg "/opt/airflow" "2024-06-10" event_pages 1)
     = Ok (events_out 1)
  /\ frame_get "ingestion_timestamp" (columns (events_out 0))
     = Ok [Some (VTime 0)]
  /\ frame_get "ingestion_timestamp" (columns (events_out 1))
     = Ok [Some (VTime 1)]
  /\ events_out 0 <> events_out 1
  /\ fst (transform_data epoch_ns plain_numeric plain_str no_bool_list
            int_mul int_add timed_cfg "/opt/airflow" "2024-06-10" now_pages
            (still 5) 9)
     = Ok {| index := [0];
             columns := [ ("event_time", [Some (VTime 5)]);
                          ("ingestion_timestamp", [Some (VTime 9)]);
                          ("source", [Some (VStr "test_api")]) ] |}
  /\ fst (transform_data epoch_ns plain_numeric plain_str no_bool_list
            int_mul int_add timed_cfg "/opt/airflow" "2024-06-10" now_pages
            (still 6) 9)
     = Ok {| index := [0];
             columns := [ ("event_time", [Some (VTime 6)]);
                          ("ingestion_timestamp", [Some (VTime 9)]);
                          ("source", [Some (VStr "test_api")]) ] |}.
Proof.
  repeat split; try reflexivity. discriminate.
Qed.

Lemma string_null_iff_source_null_witness :
  exists col,
    demo_convert (json_normalize (_load_rows login_pages))
                 (plain_mapping "actor.login" "user_login" "string") = Ok col
    /\ length col = 2.
Proof.
  destruct (string_null_iff_source_null epoch_ns plain_numeric plain_str
              no_bool_list int_mul int_add 0
              (_load_rows login_pages)
              (plain_mapping "actor.login" "user_login" "string")
              (or_intror eq_refl) eq_refl eq_refl) as (col & Hc & Hl & _).
  exists col. split; [exact Hc|exact Hl].
Defined.

(** A count of 1 beside a null is held as a float, and its string is the
    string of the float. *)
Example count_beside_null_is_float :
  column_cells (json_normalize (_load_rows count_pages)) "n"
  = [Some (JFloat (inject_Z 1)); Some JNull; Some (JFloat (inject_Z 2))]
  /\ demo_convert (json_normalize (_load_rows count_pages))
                  (plain_mapping "n" "count" "string")
     = Ok [Some (VStr "1.0"); None; Some (VStr "2.0")].
Proof. split; reflexivity. Qed.

(** C10, as stated, fails: the source column [actor.login] is present in
    the flattened rows, yet the string conversion of the row whose cell
    holds a JSON null is null, and that row is dropped and dumped. *)
Lemma string_field_null_drops_row :
  mem "actor.login" (RawStore.columns (json_normalize (_load_rows login_pages)))
  = true
  /\ map (fun r => cell r "actor.login")
         (json_normalize (_load_rows login_pages))
     = [Some (JStr "alice"); Some JNull]
  /\ demo_convert (json_normalize (_load_rows login_pages))
                  (plain_mapping "actor.login" "user_login" "string")
     = Ok [Some (VStr "alice"); None]
  /\ demo_transform login_cfg "/opt/airflow" "2024-06-10" login_pages 0
     = (Ok {| index := [0];
              columns := [ ("user_login", [Some (VStr "alice")]);
                           ("ingestion_timestamp", [Some (VTime 0)]);
                           ("source", [Some (VStr "test_api")]) ] |},
        [ MakeDirs "/opt/airflow/data/invalid/test_api/2024-06-10";
          WriteJson
            "/opt/airflow/data/invalid/test_api/2024-06-10/transform_invalid_rows.json"
            (JArr [JObj [("actor.login", JNull)]]) ]).
Proof.
  repeat split; reflexivity.
Qed.

End DataTransformerFacts.

(** ** Failure handling and empty input in [load_to_postgres] *)

Module PostgresLoaderFacts.
Import DataTransformer PostgresLoader.

(** Closes a leaf of the case analysis on the answers of the database:
    the calls added are read off the goal, and each of them either went
    through or is the failing one. *)
Ltac all_went_through :=
  repeat first [ apply Forall_nil
               | apply Forall_cons;
                 [unfold went_through; eexists; reflexivity|] ].

(** Case analysis on the answer to the next database call. *)
Ltac answer :=
  match goal with
  | |- context [?exec ?d ?c] =>
      match type of c with
      | db_call => destruct (exec d c) as [[?|?] ?]; simpl
      end
  end.

Ltac trace_leaf :=
  unfold first_failure; rewrite <- ?app_assoc; simpl;
  eexists; split; [reflexivity|];
  first [ split; [all_went_through|eexists; reflexivity]
        | left; simpl; split; [reflexivity|all_went_through]
        | right; split; [reflexivity|all_went_through] ].

Section Facts.

Variable DB : Type.
Variable exec : DB -> db_call -> result Z * DB.
Variable read_config : string -> result config.
Variable create_engine : result unit.
Variable transform : string -> string -> result frame.
Variable fresh_run_id : string.
Variable clock : nat -> Q.

Local Abbreviation load :=
  (load_to_postgres DB exec read_config create_engine transform
                    fresh_run_id clock).
Local Abbreviation block :=
  (try_block DB exec transform fresh_run_id clock).
Local Abbreviation failed :=
  (failed_entry fresh_run_id).
Local Abbreviation succeeded :=
  (success_entry fresh_run_id).

Lemma handler_bound (cfg : config) (execution_date : string)
      (start_time : Q) (e : exn) (w1 : world DB) :
  let entry := failed cfg execution_date
                 (clock (ticks w1) - start_time)%Q e in
  handler DB exec fresh_run_id clock (Some cfg) execution_date start_time e w1
  = (Raise e,
     {| db := snd (exec (db w1) (LogRun entry));
        calls := calls w1 ++ [(LogRun entry, fst (exec (db w1) (LogRun entry)))];
        ticks := S (ticks w1) |}).
Proof.
  unfold handler, tick, _log_pipeline_run, call, failed_entry. simpl.
  destruct (exec (db w1) _) as [r db']. reflexivity.
Qed.

(** The calls a run of the block adds, and how it can fail: by the
    exception of [transform_data] after calls that all went through, or by
    the exception of its last call after calls that all went through. *)
Lemma block_trace (cfg : config) (config_path execution_date : string)
      (start_time : Q) (w0 : world DB) :
  let run := block cfg config_path execution_date start_time w0 in
  exists steps,
    calls (snd run) = calls w0 ++ steps
    /\ match fst run with
       | Ok _ =>
           Forall went_through steps
           /\ exists df, transform config_path execution_date = Ok df
       | Raise e => first_failure steps (transform config_path execution_date) e
       end.
Proof.
  cbv zeta.
  unfold try_block, mbind, _create_pipeline_monitor_table,
    _create_analytics_table, _upsert_data, _log_pipeline_run, call, lift,
    time, tick, ret.
  answer; [|trace_leaf].
  destruct (transform config_path execution_date) as [df|e1]; simpl;
    [|trace_leaf].
  destruct (frame_empty df); simpl.
  - answer; trace_leaf.
  - answer; [|trace_leaf].
    destruct (frame_empty (with_run_date _ _ df)); simpl.
    + answer; trace_leaf.
    + destruct (unique_keys cfg) as [|k ks]; unfold mbind; simpl;
        (answer; [|trace_leaf]); answer; trace_leaf.
Qed.

(** C7.  Once the config is read and the engine created, a load returns
    a result only if [transform_data] and every database call went
    through.  Otherwise the first step that fails, with exception [e],
    ends the block; [load_to_postgres] then issues, as its last database
    call, the insert of a failed ledger entry that carries [str(e)], and
    raises [e] itself, whatever the database answers to that insert. *)
Theorem failure_is_logged_and_raised
        (cfg : config) (config_path execution_date : string)
        (w : world DB) :
  read_config config_path = Ok cfg ->
  create_engine = Ok tt ->
  let run := load config_path execution_date w in
  exists steps,
    match fst run with
    | Ok _ =>
        calls (snd run) = calls w ++ steps
        /\ Forall went_through steps
        /\ exists df, transform config_path execution_date = Ok df
    | Raise e =>
        first_failure steps (transform config_path execution_date) e
        /\ exists duration answer,
            calls (snd run)
            = calls w ++ steps
                ++ [(LogRun (failed cfg execution_date duration e),
                     answer)]
    end.
Proof.
  intros Hcfg Heng. cbv zeta.
  unfold load_to_postgres, mbind, time, tick. rewrite Hcfg, Heng.
  set (start_time := clock (ticks w)).
  set (w0 := {| db := db w; calls := calls w; ticks := S (ticks w) |}).
  destruct (block_trace cfg config_path execution_date start_time w0)
    as (steps & Hcalls & Hres).
  exists steps.
  destruct (block cfg config_path execution_date start_time w0)
    as [[res|e] w1]; simpl in *.
  - destruct Hres as [Hok Hdf]. auto.
  - rewrite handler_bound. simpl. split; [exact Hres|].
    rewrite Hcalls, <- app_assoc. eauto.
Qed.

(** C8.  When the transformer's frame is empty (and the ledger table and
    the ledger insert go through), [load_to_postgres] returns a success
    result with zero rows processed after exactly two database calls: the
    creation of the ledger table and the insert of a success ledger entry
    with zero rows.  The destination table is not created and no data is
    written. *)
Theorem empty_frame_is_success
        (cfg : config) (config_path execution_date : string)
        (w : world DB) (df : frame) (n m : Z) (db1 db2 : DB) :
  let duration := (clock (S (ticks w)) - clock (ticks w))%Q in
  let entry := succeeded cfg execution_date 0 duration in
  read_config config_path = Ok cfg ->
  create_engine = Ok tt ->
  exec (db w) CreateMonitorTable = (Ok n, db1) ->
  transform config_path execution_date = Ok df ->
  frame_empty df = true ->
  exec db1 (LogRun entry) = (Ok m, db2) ->
  load config_path execution_date w
  = (Ok {| run_id := fresh_run_id; rows_processed := 0;
           duration_sec := duration; status := "success" |},
     {| db := db2;
        calls := calls w ++ [(CreateMonitorTable, Ok n); (LogRun entry, Ok m)];
        ticks := S (S (ticks w)) |}).
Proof.
  intros duration entry Hcfg Heng Hmon Htr Hempty Hlog.
  unfold load_to_postgres, mbind, time, tick. rewrite Hcfg, Heng.
  unfold try_block, mbind, _create_pipeline_monitor_table, call, lift. simpl.
  rewrite Hmon, Htr, Hempty.
  unfold time, tick, _log_pipeline_run, call, ret, success. simpl.
  fold duration. fold (succeeded cfg execution_date 0 duration).
  fold entry. rewrite Hlog. rewrite <- app_assoc. reflexivity.
Qed.

End Facts.

(** *** Concrete runs

    Two stand-in databases whose state is the list of calls that went
    through: one accepts every call; the other loses the connection on
    the upsert and cannot record a failed run either. *)

(** The upsert fails and so does the insert of the failed ledger entry:
    the load still raises the error of the upsert. *)
Example flaky_run :
  fst (demo_load flaky one_event)
  = Raise (Exn "OperationalError" "connection lost")
  /\ calls (snd (demo_load flaky one_event))
     = [ (CreateMonitorTable, Ok 1);
         (CreateAnalyticsTable "test_events" one_event ["repo_id"], Ok 1);
         (UpsertByKey "test_events" one_event ["repo_id"]
                      ["event_type"; "ingestion_timestamp"; "source"],
          Raise (Exn "OperationalError" "connection lost"));
         (LogRun {| rr_run_id := "run-1"; rr_dag_id := "test_api";
                    rr_run_date := "2024-06-10"; rr_rows_processed := 0;
                    rr_duration_sec := (seconds 1 - seconds 0)%Q;
                    rr_status := "failed";
                    rr_error_message := Some "connection lost" |},
          Raise (Exn "OperationalError" "ledger unavailable")) ]
  /\ db (snd (demo_load flaky one_event))
     = [ CreateMonitorTable;
         CreateAnalyticsTable "test_events" one_event ["repo_id"] ].
Proof. repeat split; reflexivity. Qed.

Lemma failure_is_logged_and_raised_witness :
  fst (demo_load flaky one_event)
  = Raise (Exn "OperationalError" "connection lost")
  /\ exists steps,
      match fst (demo_load flaky one_event) with
      | Ok _ =>
          calls (snd (demo_load flaky one_event)) = calls fresh ++ steps
          /\ Forall went_through steps
          /\ exists df, Ok one_event = Ok df
      | Raise e =>
          first_failure steps (Ok one_event) e
          /\ exists duration answer,
              calls (snd (demo_load flaky one_event))
              = calls fresh ++ steps
                  ++ [(LogRun (failed_entry "run-1" loader_cfg "2024-06-10"
                                            duration e), answer)]
      end.
Proof.
  split; [reflexivity|].
  exact (failure_is_logged_and_raised (list db_call) flaky
           (fun _ => Ok loader_cfg) (Ok tt) (fun _ _ => Ok one_event)
           "run-1" seconds loader_cfg
           "configs/test_api.yaml" "2024-06-10" fresh eq_refl eq_refl).
Defined.

(** An empty frame: the ledger table, one success entry, nothing else. *)
Lemma empty_frame_is_success_witness :
  frame_empty no_events = true
  /\ demo_load accepting no_events
     = (Ok {| run_id := "run-1"; rows_processed := 0;
              duration_sec := (seconds 1 - seconds 0)%Q;
              status := "success" |},
        {| db := [ CreateMonitorTable;
                   LogRun (success_entry "run-1" loader_cfg "2024-06-10" 0
                                         (seconds 1 - seconds 0)%Q) ];
           calls := [ (CreateMonitorTable, Ok 1);
                      (LogRun (success_entry "run-1" loader_cfg "2024-06-10" 0
                                             (seconds 1 - seconds 0)%Q),
                       Ok 1) ];
           ticks := 2 |}).
Proof.
  split; [reflexivity|].
  exact (empty_frame_is_success (list db_call) accepting
           (fun _ => Ok loader_cfg) (Ok tt) (fun _ _ => Ok no_events)
           "run-1" seconds loader_cfg "configs/test_api.yaml" "2024-06-10"
           fresh no_events 1 1 [CreateMonitorTable]
           [ CreateMonitorTable;
             LogRun (success_entry "run-1" loader_cfg "2024-06-10" 0
                                   (seconds 1 - seconds 0)%Q) ]
           eq_refl eq_refl eq_refl eq_refl eq_refl eq_refl).
Defined.

(** A run whose every call goes through, for comparison: the destination
    table is created and the rows are upserted before the ledger entry. *)
Example load_one_event :
  map (fun c => match fst c with
                | CreateMonitorTable => "create ledger"
                | CreateAnalyticsTable _ _ _ => "create table"
                | UpsertByKey _ _ _ _ => "upsert"
                | DeleteThenInsert _ _ _ => "delete+insert"
                | LogRun _ => "log run"
                end)
      (calls (snd (demo_load accepting one_event)))
  = ["create ledger"; "create table"; "upsert"; "log run"].
Proof. reflexivity. Qed.

End PostgresLoaderFacts.

(** ** Runs of [extract_api]: requests, files and errors *)

Module ApiAdapterRuns.
Import ApiAdapter.
Local Open Scope nat_scope.

(** *** Dictionaries *)

Lemma items_get_set_eq (k : string) (v : json) (l : list (string * json)) :
  items_get k (items_set k v l) = Some v.
Proof.
  induction l as [|[k0 v0] l IH]; simpl.
  - now rewrite String.eqb_refl.
  - destruct (String.eqb_spec k0 k) as [->|Hne]; simpl.
    + now rewrite String.eqb_refl.
    + destruct (String.eqb_spec k0 k); [contradiction|exact IH].
Qed.

Lemma items_get_set_ne (k k' : string) (v : json) (l : list (string * json)) :
  k <> k' -> items_get k (items_set k' v l) = items_get k l.
Proof.
  intros Hne. induction l as [|[k0 v0] l IH]; simpl.
  - destruct (String.eqb_spec k' k); [congruence|reflexivity].
  - destruct (String.eqb_spec k0 k') as [->|Hne0]; simpl.
    + destruct (String.eqb_spec k' k); [congruence|reflexivity].
    + destruct (String.eqb_spec k0 k); [reflexivity|exact IH].
Qed.

(** X1.  The parameters of a request.  Under [page] pagination the page
    parameter is the current page number, whatever the static params hold
    under that name, and every other static param is sent as it is.
    Under [cursor] pagination the cursor parameter is sent only once a
    truthy cursor has been read: the first request carries the static
    params alone. *)
Theorem request_params (cfg : config) (p : pagination_cfg) (s : state) :
  pagination cfg = Some p ->
  (pag_type p = "page"%string ->
   items_get (page_param p) (req_params cfg s) = Some (JInt (page_num s))
   /\ forall k, k <> page_param p ->
                items_get k (req_params cfg s) = items_get k (params cfg))
  /\ (pag_type p = "cursor"%string ->
      (truthy (cursor s) = false -> req_params cfg s = params cfg)
      /\ (truthy (cursor s) = true ->
          items_get (cursor_param p) (req_params cfg s) = Some (cursor s)
          /\ forall k, k <> cursor_param p ->
                       items_get k (req_params cfg s)
                       = items_get k (params cfg))
      /\ req_params cfg (init_state cfg) = params cfg).
Proof.
  intros Hp. unfold req_params. rewrite Hp. split.
  - intros ->. simpl. split; [apply items_get_set_eq|].
    intros k Hk. now apply items_get_set_ne.
  - intros ->. simpl. split; [|split].
    + intros ->. reflexivity.
    + intros ->. split; [apply items_get_set_eq|].
      intros k Hk. now apply items_get_set_ne.
    + reflexivity.
Qed.

Lemma request_params_witness :
  items_get "page"
    (req_params
       {| name := "test_api"; base_url := "http://example.com";
          endpoint := "/data"; params := [("page", JInt 99); ("per", JInt 10)];
          pagination := Some page_pagination; rate_limit := None |}
       {| saved_files := []; page_num := 3%Z; cursor := JNull;
          response_idx := 1; url := JStr "http://example.com/data" |})
  = Some (JInt 3).
Proof.
  exact (proj1 (proj1 (request_params
           {| name := "test_api"; base_url := "http://example.com";
              endpoint := "/data";
              params := [("page", JInt 99); ("per", JInt 10)];
              pagination := Some page_pagination; rate_limit := None |}
           page_pagination
           {| saved_files := []; page_num := 3%Z; cursor := JNull;
              response_idx := 1; url := JStr "http://example.com/data" |}
           eq_refl) eq_refl)).
Defined.

(** *** File names *)

Lemma append_prefix_inj (p a b : string) :
  (p ++ a)%string = (p ++ b)%string -> a = b.
Proof.
  induction p as [|c p IH]; simpl; intros H; [exact H|].
  injection H as H. now apply IH.
Qed.

Lemma length_append (a b : string) :
  String.length (a ++ b) = String.length a + String.length b.
Proof.
  induction a as [|c a IH]; simpl; [reflexivity|]. now rewrite IH.
Qed.

Lemma append_suffix_inj (s a b : string) :
  (a ++ s)%string = (b ++ s)%string -> a = b.
Proof.
  revert b. induction a as [|c a IH]; intros [|c' b] H; simpl in H.
  - reflexivity.
  - apply (f_equal String.length) in H. simpl in H.
    rewrite length_append in H. lia.
  - apply (f_equal String.length) in H. simpl in H.
    rewrite length_append in H. lia.
  - injection H as -> H. f_equal. now apply IH.
Qed.

(** The decimal digits of a natural number. *)
Lemma to_uint_nonnil (n : nat) : Nat.to_uint n <> Decimal.Nil.
Proof.
  rewrite <- (DecimalNat.Unsigned.of_to n) at 1.
  rewrite DecimalNat.Unsigned.to_of. apply DecimalFacts.unorm_nonnil.
Qed.

Lemma digits_inj (n m : nat) :
  NilZero.string_of_uint (Nat.to_uint n) = NilZero.string_of_uint (Nat.to_uint m) ->
  n = m.
Proof.
  intros H. apply (f_equal NilZero.uint_of_string) in H.
  rewrite !NilZero.usu in H by apply to_uint_nonnil.
  injection H as H. now apply DecimalNat.Unsigned.to_uint_inj.
Qed.

Lemma digits_nonempty (n : nat) :
  NilZero.string_of_uint (Nat.to_uint n) <> ""%string.
Proof.
  pose proof (to_uint_nonnil n) as H.
  destruct (Nat.to_uint n); simpl; try discriminate.
Qed.

(** No leading zero, except for zero itself. *)
Lemma digits_no_leading_zero (n : nat) (rest : string) :
  NilZero.string_of_uint (Nat.to_uint n) = String "0" rest -> rest = ""%string.
Proof.
  rewrite <- (DecimalNat.Unsigned.of_to n) at 1.
  rewrite DecimalNat.Unsigned.to_of.
  generalize (Nat.to_uint n). intros d. unfold Decimal.unorm.
  pose proof (DecimalFacts.nzhead_nonzero d) as Hnz.
  destruct (Decimal.nzhead d) as [|u|u|u|u|u|u|u|u|u|u]; simpl;
    try discriminate.
  - intros H. now injection H.
  - exfalso. now apply (Hnz u).
Qed.

Lemma pad3_inj (a b : string) :
  (forall rest, a = String "0" rest -> rest = ""%string) ->
  (forall rest, b = String "0" rest -> rest = ""%string) ->
  a <> ""%string -> b <> ""%string ->
  pad3 a = pad3 b -> a = b.
Proof.
  intros Ha Hb Hna Hnb.
  destruct a as [|a1 [|a2 [|a3 a']]]; [contradiction| | |];
    (destruct b as [|b1 [|b2 [|b3 b']]]; [contradiction| | |]);
    unfold pad3; simpl; intros H;
    try (injection H; intros; subst; reflexivity); try exact H;
    injection H; intros; subst;
    first [ discriminate (Ha _ eq_refl) | discriminate (Hb _ eq_refl) ].
Qed.

Lemma out_path_inj (dir : string) (i j : nat) :
  out_path dir i = out_path dir j -> i = j.
Proof.
  unfold out_path. intros H.
  apply append_prefix_inj, append_prefix_inj in H.
  apply append_suffix_inj in H.
  apply digits_inj, pad3_inj.
  - apply digits_no_leading_zero.
  - apply digits_no_leading_zero.
  - apply digits_nonempty.
  - apply digits_nonempty.
  - exact H.
Qed.

Lemma NoDup_map_inj {A B : Type} (f : A -> B) (l : list A) :
  (forall x y, f x = f y -> x = y) -> NoDup l -> NoDup (map f l).
Proof.
  intros Hinj Hl. induction Hl as [|x l Hx Hl IH]; simpl; constructor.
  - intros Hin. apply in_map_iff in Hin. destruct Hin as (y & Hy & Hin).
    apply Hinj in Hy. now subst.
  - exact IH.
Qed.

(** X2.  The names of the files of one directory never collide: consecutive
    response indices, from any start and however many, give pairwise
    distinct paths, also beyond the three digits the names are padded
    to. *)
Theorem response_paths_distinct (dir : string) (start len : nat) :
  NoDup (map (out_path dir) (seq start len)).
Proof.
  apply NoDup_map_inj; [apply out_path_inj|apply seq_NoDup].
Qed.

(** *** Invariants of the loop *)

Section Runs.

Variable Server : Type.
Variable session_get :
  Server -> json -> list (string * json) -> list (string * string) ->
  response * Server.
Variable cfg : config.
Variable dir : string.
Variable headers : list (string * string).
Variable sleep_t : Q.

Lemma numbered_save (data : json) (s : state) (w : world Server)
      (base : list string) :
  numbered dir s ->
  map fst (files w) = base ++ saved_files s ->
  numbered dir (fst (save dir data s w))
  /\ map fst (files (snd (save dir data s w)))
     = base ++ saved_files (fst (save dir data s w)).
Proof.
  intros [Hs Hi] Hf. unfold save, numbered. simpl. split; [split|].
  - rewrite Hs, Nat.sub_0_r.
    replace (response_idx s) with (S (response_idx s - 1)) at 3 by lia.
    rewrite seq_S, map_app. simpl. do 3 f_equal. lia.
  - lia.
  - rewrite map_app, Hf. simpl. now rewrite app_assoc.
Qed.

Lemma continue_files (s : state) (w : world Server) :
  exists w', continue sleep_t s w = Next s w' /\ files w' = files w
             /\ srv w' = srv w.
Proof.
  unfold continue. destruct (Qlt_le_dec 0 sleep_t); eexists; repeat split.
Qed.

Lemma handle_data_files (data : json) (s : state) (w : world Server)
      (base : list string) :
  numbered dir s ->
  map fst (files w) = base ++ saved_files s ->
  match handle_data cfg dir sleep_t data s w with
  | Next s' w' | Done s' w' =>
      numbered dir s' /\ map fst (files w') = base ++ saved_files s'
  | Crash _ _ => True
  end.
Proof.
  intros Hn Hf.
  destruct (numbered_save data s w base Hn Hf) as [Hn1 Hf1].
  unfold handle_data.
  destruct (pag_is cfg "page").
  - destruct (negb (truthy data) || _); [auto|].
    destruct (save dir data s w) as [s1 w1] eqn:Es. simpl in Hn1, Hf1.
    match goal with
    | |- context [continue _ ?s2 w1] =>
        destruct (continue_files s2 w1) as (w2 & -> & Hw2 & _)
    end.
    rewrite Hw2. split; [exact Hn1|exact Hf1].
  - destruct (save dir data s w) as [s1 w1] eqn:Es. simpl in Hn1, Hf1.
    destruct (pagination cfg) as [p|]; [|auto].
    destruct (pag_type p =? "cursor")%string.
    + destruct (py_get data (cursor_key p)) as [c|e]; [|exact I].
      destruct (truthy c); [|auto].
      match goal with
      | |- context [continue _ ?s2 w1] =>
          destruct (continue_files s2 w1) as (w2 & -> & Hw2 & _)
      end.
      rewrite Hw2. split; [exact Hn1|exact Hf1].
    + destruct (pag_type p =? "next_link")%string; [|auto].
      destruct (follow_link _ data) as [l|e]; [|exact I].
      destruct (truthy l); [|auto].
      match goal with
      | |- context [continue _ ?s2 w1] =>
          destruct (continue_files s2 w1) as (w2 & -> & Hw2 & _)
      end.
      rewrite Hw2. split; [exact Hn1|exact Hf1].
Qed.

Lemma loop_body_files (s : state) (w : world Server) (base : list string) :
  numbered dir s ->
  map fst (files w) = base ++ saved_files s ->
  match loop_body session_get cfg dir headers sleep_t s w with
  | Next s' w' | Done s' w' =>
      numbered dir s' /\ map fst (files w') = base ++ saved_files s'
  | Crash _ _ => True
  end.
Proof.
  intros Hn Hf. unfold loop_body.
  destruct (session_get (srv w) (url s) (req_params cfg s) headers)
    as [resp srv'].
  destruct resp as [|code body]; [auto|].
  destruct (code =? 401)%Z; [auto|].
  destruct (code >=? 400)%Z; [auto|].
  destruct body as [data|e]; [|exact I].
  apply handle_data_files; assumption.
Qed.

Lemma run_files (fuel : nat) :
  forall (s : state) (w : world Server) (base : list string) paths w',
    numbered dir s ->
    map fst (files w) = base ++ saved_files s ->
    run session_get cfg dir headers sleep_t fuel s w = Some (Ok paths, w') ->
    paths = map (out_path dir) (seq 1 (length paths))
    /\ map fst (files w') = base ++ paths.
Proof.
  induction fuel as [|fuel IH]; intros s w base paths w' Hn Hf Hrun;
    simpl in Hrun; [discriminate|].
  pose proof (loop_body_files s w base Hn Hf) as Hstep.
  destruct (loop_body session_get cfg dir headers sleep_t s w)
    as [s1 w1|s1 w1|e w1].
  - destruct Hstep as [Hn1 Hf1]. eapply IH; eassumption.
  - injection Hrun as <- <-. destruct Hstep as [[Hs Hi] Hf1].
    split; [|exact Hf1].
    rewrite Hs at 1. rewrite Hs, length_map, length_seq. reflexivity.
  - discriminate.
Qed.

(** X3.  The list [extract_api] returns is the list of the files it wrote
    during the run, in order, and they are named [response_001.json],
    [response_002.json], ... without a gap, whatever the pagination
    strategy and whatever the server answers. *)
Theorem saved_files_numbered (fuel : nat) (w w' : world Server)
        (paths : list string) :
  run session_get cfg dir headers sleep_t fuel (init_state cfg) w
  = Some (Ok paths, w') ->
  paths = map (out_path dir) (seq 1 (length paths))
  /\ map fst (files w') = map fst (files w) ++ paths
  /\ NoDup paths.
Proof.
  intros Hrun.
  destruct (run_files fuel (init_state cfg) w (map fst (files w)) paths w')
    as [Hp Hf].
  - split; [reflexivity|simpl; lia].
  - simpl. now rewrite app_nil_r.
  - exact Hrun.
  - split; [exact Hp|]. split; [exact Hf|].
    rewrite Hp. apply NoDup_map_inj; [apply out_path_inj|apply seq_NoDup].
Qed.

(** *** Errors and the strategies without a terminating page *)

(** X4.  A request that fails, or a response with a status of 400 or more
    (401 included), ends the fetch at once: nothing is written for it,
    nothing is raised, and the files saved so far are returned. *)
Theorem error_response_returns_saved (fuel : nat) (s : state)
        (w : world Server) (resp : response) (srv' : Server) :
  session_get (srv w) (url s) (req_params cfg s) headers = (resp, srv') ->
  resp = RequestException
  \/ (exists code body, resp = Response code body /\ (400 <= code)%Z) ->
  run session_get cfg dir headers sleep_t (S fuel) s w
  = Some (Ok (saved_files s),
          {| srv := srv'; files := files w; sleeps := sleeps w |}).
Proof.
  intros Hget Hresp. simpl. unfold loop_body. rewrite Hget.
  destruct Hresp as [->|(code & body & -> & Hcode)]; [reflexivity|].
  destruct (code =? 401)%Z; [reflexivity|].
  destruct (Z.geb_spec code 400); [reflexivity|lia].
Qed.

(** X5.  Without pagination (or with a pagination type that is none of
    [page], [cursor], [next_link]) exactly one request is made and its
    body is saved, even when it is empty. *)
Theorem single_request_without_pagination (fuel : nat) (s : state)
        (w : world Server) (code : Z) (data : json) (srv' : Server) :
  pag_is cfg "page" = false ->
  pag_is cfg "cursor" = false ->
  pag_is cfg "next_link" = false ->
  session_get (srv w) (url s) (req_params cfg s) headers
  = (Response code (Ok data), srv') ->
  (code < 400)%Z ->
  run session_get cfg dir headers sleep_t (S fuel) s w
  = Some (Ok (saved_files s ++ [out_path dir (response_idx s)]),
          {| srv := srv';
             files := files w ++ [(out_path dir (response_idx s), data)];
             sleeps := sleeps w |}).
Proof.
  intros Hpage Hcur Hlink Hget Hcode. simpl. unfold loop_body. rewrite Hget.
  destruct (Z.eqb_spec code 401); [lia|].
  destruct (Z.geb_spec code 400); [lia|].
  unfold handle_data. rewrite Hpage. unfold pag_is in Hcur, Hlink.
  destruct (pagination cfg) as [p|]; simpl; [|reflexivity].
  rewrite Hcur, Hlink. reflexivity.
Qed.

(** X6.  Under [cursor] pagination a body that is not an object (a bare
    array, for instance) is written to its file and then makes the
    adapter raise [AttributeError]: the saved paths are not returned. *)
Theorem cursor_on_non_object_raises (fuel : nat) (s : state)
        (w : world Server) (p : pagination_cfg)
        (code : Z) (data : json) (srv' : Server) :
  pagination cfg = Some p ->
  pag_type p = "cursor"%string ->
  is_dict data = false ->
  session_get (srv w) (url s) (req_params cfg s) headers
  = (Response code (Ok data), srv') ->
  (code < 400)%Z ->
  run session_get cfg dir headers sleep_t (S fuel) s w
  = Some (Raise (AttributeError "object has no attribute 'get'"),
          {| srv := srv';
             files := files w ++ [(out_path dir (response_idx s), data)];
             sleeps := sleeps w |}).
Proof.
  intros Hp Hty Hdict Hget Hcode. simpl. unfold loop_body. rewrite Hget.
  destruct (Z.eqb_spec code 401); [lia|].
  destruct (Z.geb_spec code 400); [lia|].
  unfold handle_data, pag_is. rewrite Hp, Hty. simpl.
  destruct data; simpl in *; try reflexivity. discriminate.
Qed.

End Runs.

(** *** Sleeps and requests *)

Lemma handle_data_srv {Server : Type} (cfg : config) (dir : string)
      (sleep_t : Q) (data : json) (s : state) (w : world Server) :
  srv (world_of (handle_data cfg dir sleep_t data s w)) = srv w.
Proof.
  unfold handle_data, continue, save.
  destruct (pag_is cfg "page").
  - destruct (negb (truthy data) || _); [reflexivity|].
    destruct (Qlt_le_dec 0 sleep_t); reflexivity.
  - destruct (pagination cfg) as [p|]; [|reflexivity].
    destruct (pag_type p =? "cursor")%string.
    + destruct (py_get data (cursor_key p)) as [c|e]; [|reflexivity].
      destruct (truthy c); [|reflexivity].
      destruct (Qlt_le_dec 0 sleep_t); reflexivity.
    + destruct (pag_type p =? "next_link")%string; [|reflexivity].
      destruct (follow_link _ data) as [l|e]; [|reflexivity].
      destruct (truthy l); [|reflexivity].
      destruct (Qlt_le_dec 0 sleep_t); reflexivity.
Qed.

Lemma loop_body_scripted_srv (pages : list response) (cfg : config)
      (dir : string) (headers : list (string * string)) (sleep_t : Q)
      (s : state) (w : world nat) :
  srv (world_of (loop_body (scripted pages) cfg dir headers sleep_t s w))
  = S (srv w).
Proof.
  unfold loop_body, scripted.
  destruct (nth (srv w) pages RequestException) as [|code body];
    [reflexivity|].
  destruct (code =? 401)%Z; [reflexivity|].
  destruct (code >=? 400)%Z; [reflexivity|].
  destruct body as [data|e]; [|reflexivity].
  apply handle_data_srv.
Qed.

(** X7.  Against a server that counts its requests: a run that ends after
    [k + 1] requests has slept [k] times, each time for the configured
    duration and never after the last request; with a duration that is
    not positive it has not slept at all. *)
Theorem sleeps_between_requests (pages : list response) (cfg : config)
        (dir : string) (headers : list (string * string)) (sleep_t : Q)
        (fuel : nat) :
  forall (s : state) (w w' : world nat) (r : result (list string)),
    run (scripted pages) cfg dir headers sleep_t fuel s w = Some (r, w') ->
    exists k,
      srv w' = srv w + S k
      /\ sleeps w' = sleeps w ++ (if Qlt_le_dec 0 sleep_t
                                  then repeat sleep_t k else []).
Proof.
  induction fuel as [|fuel IH]; intros s w w' r Hrun; simpl in Hrun;
    [discriminate|].
  pose proof (loop_body_scripted_srv pages cfg dir headers sleep_t s w) as Hsrv.
  pose proof (ApiAdapterFacts.loop_body_sleeps nat (scripted pages) cfg dir
                headers sleep_t s w) as Hsl.
  destruct (loop_body (scripted pages) cfg dir headers sleep_t s w)
    as [s1 w1|s1 w1|e w1]; simpl in Hsrv.
  - apply IH in Hrun. destruct Hrun as (k & Hk & Hs).
    exists (S k). split; [lia|]. rewrite Hs, Hsl.
    destruct (Qlt_le_dec 0 sleep_t); simpl.
    + now rewrite <- app_assoc.
    + now rewrite !app_nil_r.
  - injection Hrun as <- <-. exists 0. split; [lia|]. rewrite Hsl.
    destruct (Qlt_le_dec 0 sleep_t); simpl; now rewrite app_nil_r.
  - injection Hrun as <- <-. exists 0. split; [lia|]. rewrite Hsl.
    destruct (Qlt_le_dec 0 sleep_t); simpl; now rewrite app_nil_r.
Qed.

(** *** The request URL *)

Lemma rstrip_slash_app_slash (s : string) :
  rstrip_slash (s ++ "/") = rstrip_slash s.
Proof.
  induction s as [|c s IH]; simpl; [reflexivity|]. now rewrite IH.
Qed.

Lemma rstrip_slash_no_trailing (s t : string) :
  rstrip_slash s <> (t ++ "/")%string.
Proof.
  revert t. induction s as [|c s IH]; intros t; simpl.
  - destruct t; discriminate.
  - destruct (rstrip_slash s) as [|c' r] eqn:E.
    + destruct (Ascii.eqb_spec c "/"%char) as [->|Hc].
      * destruct t; discriminate.
      * destruct t as [|c1 t]; simpl; [congruence|].
        intros H. injection H as _ H. destruct t; discriminate.
    + destruct t as [|c1 t]; simpl; [discriminate|].
      intros H. injection H as _ H. exact (IH t H).
Qed.

(** X8.  The URL of the first request is the base URL without its trailing
    slashes, followed by the endpoint: trailing slashes of the base URL
    make no difference, and the stripped base never ends with a slash. *)
Theorem base_url_trailing_slash (cfg : config) :
  url (init_state
         {| name := name cfg; base_url := (base_url cfg ++ "/")%string;
            endpoint := endpoint cfg; params := params cfg;
            pagination := pagination cfg; rate_limit := rate_limit cfg |})
  = url (init_state cfg)
  /\ url (init_state cfg)
     = JStr (rstrip_slash (base_url cfg) ++ endpoint cfg)
  /\ forall t, rstrip_slash (base_url cfg) <> (t ++ "/")%string.
Proof.
  unfold init_state. simpl. rewrite rstrip_slash_app_slash.
  split; [reflexivity|]. split; [reflexivity|].
  intros t. apply rstrip_slash_no_trailing.
Qed.

(** *** Concrete runs *)

(** Two pages and then an empty one. *)
Lemma page_run_stops_at_first_empty_witness :
  exists w',
    run (scripted two_pages) (cfg_rate None (Some page_pagination))
        "data/raw/test_api/2024-06-10" [] 1%Q 5
        (init_state (cfg_rate None (Some page_pagination))) empty_world
    = Some (Ok [ "data/raw/test_api/2024-06-10/response_001.json"%string;
                 "data/raw/test_api/2024-06-10/response_002.json"%string ], w')
    /\ files w'
       = [ ("data/raw/test_api/2024-06-10/response_001.json"%string,
            JArr [JObj [("id", JInt 1)]]);
           ("data/raw/test_api/2024-06-10/response_002.json"%string,
            JArr [JObj [("id", JInt 2)]]) ]
    /\ srv w' = 3%nat.
Proof.
  assert (Hbodies : Forall (fun b => truthy b = true)
                      [JArr [JObj [("id", JInt 1)]]; JArr [JObj [("id", JInt 2)]]])
    by (repeat constructor).
  assert (Hfuel : (2 < 5)%nat) by lia.
  exact (ApiAdapterFacts.page_run_stops_at_first_empty
           (cfg_rate None (Some page_pagination))
           "data/raw/test_api/2024-06-10" [] 1%Q
           [JArr [JObj [("id", JInt 1)]]; JArr [JObj [("id", JInt 2)]]]
           (JArr []) [] eq_refl Hbodies eq_refl
           [] (init_state (cfg_rate None (Some page_pagination)))
           empty_world 5%nat eq_refl Hfuel).
Defined.

(** Two pages and then a 503: both pages are returned, and nothing is
    written for the failed request. *)
Lemma saved_files_numbered_witness :
  run (scripted pages_then_503) (cfg_rate None (Some page_pagination))
      "data/raw/test_api/2024-06-10" [] 1%Q 5
      (init_state (cfg_rate None (Some page_pagination))) empty_world
  = Some (Ok [ "data/raw/test_api/2024-06-10/response_001.json"%string;
               "data/raw/test_api/2024-06-10/response_002.json"%string ],
          {| srv := 3;
             files :=
               [ ("data/raw/test_api/2024-06-10/response_001.json"%string,
                  JArr [JObj [("id", JInt 1)]]);
                 ("data/raw/test_api/2024-06-10/response_002.json"%string,
                  JArr [JObj [("id", JInt 2)]]) ];
             sleeps := [1%Q; 1%Q] |})
  /\ NoDup [ "data/raw/test_api/2024-06-10/response_001.json"%string;
             "data/raw/test_api/2024-06-10/response_002.json"%string ].
Proof.
  split; [reflexivity|].
  exact (proj2 (proj2 (saved_files_numbered nat (scripted pages_then_503)
           (cfg_rate None (Some page_pagination))
           "data/raw/test_api/2024-06-10" [] 1%Q 5 empty_world _ _
           eq_refl))).
Defined.

Lemma error_response_returns_saved_witness :
  run (scripted [Response 401 (Ok (JObj [("message", JStr "Bad credentials")]))])
      (cfg_rate None (Some page_pagination))
      "data/raw/test_api/2024-06-10" [] 1%Q 1
      (init_state (cfg_rate None (Some page_pagination))) empty_world
  = Some (Ok [], {| srv := 1; files := []; sleeps := [] |}).
Proof.
  apply (error_response_returns_saved nat
           (scripted [Response 401
                        (Ok (JObj [("message", JStr "Bad credentials")]))])
           (cfg_rate None (Some page_pagination))
           "data/raw/test_api/2024-06-10" [] 1%Q 0
           (init_state (cfg_rate None (Some page_pagination))) empty_world
           (Response 401 (Ok (JObj [("message", JStr "Bad credentials")])))
           1).
  - reflexivity.
  - right. exists 401%Z, (Ok (JObj [("message", JStr "Bad credentials")])).
    split; [reflexivity|discriminate].
Defined.

(** No pagination and an empty array: the empty page is saved. *)
Lemma single_request_without_pagination_witness :
  run (scripted [ok_page (JArr []); ok_page (JArr [JInt 1])])
      (cfg_rate None None) "data/raw/test_api/2024-06-10" [] 1%Q 1
      (init_state (cfg_rate None None)) empty_world
  = Some (Ok ["data/raw/test_api/2024-06-10/response_001.json"%string],
          {| srv := 1;
             files := [("data/raw/test_api/2024-06-10/response_001.json"%string,
                        JArr [])];
             sleeps := [] |}).
Proof.
  exact (single_request_without_pagination nat
           (scripted [ok_page (JArr []); ok_page (JArr [JInt 1])])
           (cfg_rate None None) "data/raw/test_api/2024-06-10" [] 1%Q 0
           (init_state (cfg_rate None None)) empty_world 200%Z (JArr []) 1
           eq_refl eq_refl eq_refl eq_refl eq_refl).
Defined.

Lemma cursor_on_non_object_raises_witness :
  run (scripted [ok_page (JArr [JObj [("id", JInt 1)]])])
      (cfg_rate None (Some cursor_pagination))
      "data/raw/test_api/2024-06-10" [] 1%Q 1
      (init_state (cfg_rate None (Some cursor_pagination))) empty_world
  = Some (Raise (AttributeError "object has no attribute 'get'"),
          {| srv := 1;
             files := [("data/raw/test_api/2024-06-10/response_001.json"%string,
                        JArr [JObj [("id", JInt 1)]])];
             sleeps := [] |}).
Proof.
  exact (cursor_on_non_object_raises nat
           (scripted [ok_page (JArr [JObj [("id", JInt 1)]])])
           (cfg_rate None (Some cursor_pagination))
           "data/raw/test_api/2024-06-10" [] 1%Q 0
           (init_state (cfg_rate None (Some cursor_pagination))) empty_world
           cursor_pagination 200%Z (JArr [JObj [("id", JInt 1)]]) 1
           eq_refl eq_refl eq_refl eq_refl eq_refl).
Defined.

Lemma sleeps_between_requests_witness :
  exists k,
    3 = 0 + S k
    /\ [1%Q; 1%Q] = [] ++ (if Qlt_le_dec 0 1 then repeat 1%Q k else []).
Proof.
  exact (sleeps_between_requests pages_then_503
           (cfg_rate None (Some page_pagination))
           "data/raw/test_api/2024-06-10" [] 1%Q 5
           (init_state (cfg_rate None (Some page_pagination))) empty_world
           {| srv := 3;
              files :=
                [ ("data/raw/test_api/2024-06-10/response_001.json"%string,
                   JArr [JObj [("id", JInt 1)]]);
                  ("data/raw/test_api/2024-06-10/response_002.json"%string,
                   JArr [JObj [("id", JInt 2)]]) ];
              sleeps := [1%Q; 1%Q] |}
           (Ok [ "data/raw/test_api/2024-06-10/response_001.json"%string;
                 "data/raw/test_api/2024-06-10/response_002.json"%string ])
           eq_refl).
Defined.

End ApiAdapterRuns.

(** ** The other branches of [validate_schema] *)

Module SchemaValidatorBranches.
Import RawStore SchemaValidator SchemaValidatorFacts.

Section Branches.

Variable schema_validate : list (string * column) -> list json -> validation.
Variable duplicated_any : list json -> list string -> bool.
Variable series_dtype : list (option json) -> pandas_dtype.

Local Abbreviation validate :=
  (validate_schema schema_validate duplicated_any series_dtype).

Lemma check_non_null_counts (rows : list json) (fields : list string) :
  forall errs errs',
    check_non_null rows fields errs = Ok errs' ->
    exists more, errs' = errs ++ more.
Proof.
  induction fields as [|f rest IH]; intros errs errs' H; simpl in H.
  - injection H as <-. exists []. now rewrite app_nil_r.
  - destruct (isnull_any rows f) as [b|e]; simpl in H; [|discriminate].
    apply IH in H. destruct H as [more ->].
    destruct b; [|eauto]. rewrite <- app_assoc. eauto.
Qed.

Lemma finish_counts (sc : schema_cfg) (rows : list json) (valid invalid : Z)
      (errs : list json) (rep : report) :
  finish duplicated_any sc rows valid invalid errs = Ok rep ->
  valid_rows rep = valid /\ invalid_rows rep = invalid
  /\ inferred_schema rep = None
  /\ exists more, errors rep = errs ++ more.
Proof.
  unfold finish. intros H.
  destruct (match unique_keys sc with
            | [] => Ok errs
            | _ :: _ =>
                d <- duplicated duplicated_any rows (unique_keys sc) ;;
                Ok (if d then errs ++ [duplicate_error (unique_keys sc)]
                    else errs)
            end) as [errs1|e] eqn:E1; simpl in H; [|discriminate].
  destruct (check_non_null rows (non_null_fields sc) errs1) as [errs2|e] eqn:E2;
    simpl in H; [|discriminate].
  injection H as <-. simpl. repeat split.
  apply check_non_null_counts in E2. destruct E2 as [more ->].
  destruct (unique_keys sc) as [|k ks].
  - injection E1 as <-. eauto.
  - destruct (duplicated duplicated_any rows (k :: ks)) as [d|e]; simpl in E1;
      [|discriminate].
    injection E1 as <-. destruct d; [rewrite <- app_assoc|]; eauto.
Qed.

(** X10.  When the column validator reports failures, every report
    [validate_schema] returns splits the rows into valid and invalid
    ones: the two counts add up to the number of rows, at least one row
    is invalid, and a row that fails in several columns is counted once,
    so neither count can leave the range from 0 to the number of rows.
    The failure cases come first in the error list. *)
Theorem failure_report_counts (cfg : config) (base_dir execution_date : string)
        (pages : list json) (sc : schema_cfg)
        (cols : list (string * column)) (fcs : list failure_case)
        (rep : report) :
  let rows := data_frame (_load_rows pages) in
  let total := Z.of_nat (length rows) in
  rows <> [] ->
  schema cfg = Some sc ->
  build_columns sc (required_columns sc) [] = Ok cols ->
  schema_validate cols rows = SchemaErrors fcs ->
  fst (validate cfg base_dir execution_date pages) = Ok rep ->
  valid_rows rep + invalid_rows rep = total
  /\ 0 <= valid_rows rep < total
  /\ 1 <= invalid_rows rep <= total
  /\ exists more, errors rep = map fc_record fcs ++ more.
Proof.
  cbv zeta. intros Hne Hsc Hcols Hval Hrep.
  unfold validate_schema in Hrep.
  destruct (_load_rows pages) as [|r rs] eqn:Er; [now elim Hne|].
  cbv beta iota zeta in Hrep.
  remember (data_frame (r :: rs)) as rows eqn:Erows.
  assert (Hpos : 0 < Z.of_nat (length rows))
    by (destruct rows; [now elim Hne|simpl length; lia]).
  rewrite Hsc, Hcols, Hval in Hrep.
  assert (Hidx : forall i, In i (valid_indices fcs) ->
                           0 <= i < Z.of_nat (length rows)).
  { destruct (valid_indices fcs) as [|i l] eqn:Ev; [intros ? []|].
    destruct (loc rows (sorted_set (i :: l))) as [bad|e] eqn:El;
      [|discriminate Hrep].
    intros j Hj. apply (loc_ok_range _ _ _ El).
    clear - Hj. induction (i :: l) as [|k l' IH]; [destruct Hj|]. simpl.
    apply insert_sorted_In_iff. destruct Hj as [->|Hj]; auto. }
  pose proof (count_invalid_bounds fcs _ Hpos Hidx) as Hb.
  cbv zeta in Hrep.
  destruct (match valid_indices fcs with
            | [] => Ok rows
            | _ :: _ => loc rows (sorted_set (valid_indices fcs))
            end) as [bad|e]; [|discriminate].
  destruct (over_threshold _ _).
  - cbn [fst] in Hrep. injection Hrep as <-. cbn [valid_rows invalid_rows errors].
    repeat split; try lia. exists []. now rewrite app_nil_r.
  - cbn [fst] in Hrep. apply finish_counts in Hrep.
    destruct Hrep as (-> & -> & _ & Hmore).
    repeat split; try lia. exact Hmore.
Qed.

(** *** The columns of a frame *)






(** *** Check columns the frame does not have *)





(** *** The pandera columns *)

Lemma columns_get_set_eq (k : string) (c : column)
      (cols : list (string * column)) :
  columns_get k (columns_set k c cols) = Some c.
Proof.
  induction cols as [|[k' c'] cols IH]; simpl.
  - now rewrite String.eqb_refl.
  - destruct (String.eqb_spec k' k) as [->|Hne]; simpl.
    + now rewrite String.eqb_refl.
    + destruct (String.eqb_spec k' k); [contradiction|exact IH].
Qed.

Lemma columns_get_set_ne (k k' : string) (c : column)
      (cols : list (string * column)) :
  k <> k' -> columns_get k' (columns_set k c cols) = columns_get k' cols.
Proof.
  intros Hne. induction cols as [|[k0 c0] cols IH]; simpl.
  - destruct (String.eqb_spec k k'); [contradiction|reflexivity].
  - destruct (String.eqb_spec k0 k) as [->|Hk]; simpl.
    + destruct (String.eqb_spec k k'); [contradiction|reflexivity].
    + destruct (String.eqb_spec k0 k'); [reflexivity|exact IH].
Qed.

Lemma build_columns_spec (sc : schema_cfg) (required : list string) :
  forall cols0,
    (forall col, In col required -> exists pa, typed sc col pa) ->
    exists cols,
      build_columns sc required cols0 = Ok cols
      /\ (forall col, In col required ->
            exists pa, typed sc col pa
                       /\ columns_get col cols
                          = Some {| col_dtype := pa;
                                    nullable :=
                                      negb (mem col (non_null_fields sc)) |})
      /\ (forall col, ~ In col required ->
            columns_get col cols = columns_get col cols0).
Proof.
  induction required as [|c rest IH]; intros cols0 Hall.
  - exists cols0. split; [reflexivity|]. split; [intros col []|reflexivity].
  - destruct (Hall c (or_introl eq_refl)) as (pa & d & Hd & Hpa).
    simpl. rewrite Hd. simpl. rewrite Hpa. simpl.
    destruct (IH (columns_set c {| col_dtype := pa;
                                  nullable := negb (mem c (non_null_fields sc)) |}
                              cols0)
                 (fun col H => Hall col (or_intror H)))
      as (cols & Hrun & Hin & Hout).
    exists cols. split; [exact Hrun|]. split.
    + intros col [<-|Hcol]; [|now apply Hin].
      destruct (in_dec string_dec c rest) as [Hc|Hc]; [now apply Hin|].
      exists pa. split; [exists d; split; assumption|].
      rewrite (Hout c Hc). apply columns_get_set_eq.
    + intros col Hcol. rewrite Hout by (intros H; apply Hcol; now right).
      apply columns_get_set_ne. intros ->. apply Hcol. now left.
Qed.




(** X14.  The pandera schema is built before anything is validated.  When
    every required column has a declared dtype among the five dtype
    names, the dict of columns holds an entry for exactly the required
    columns: each with the pandera type of its dtype, and nullable
    exactly when the column is not a non-null field. *)
Theorem schema_columns_built (sc : schema_cfg) :
  (forall col, In col (required_columns sc) -> exists pa, typed sc col pa) ->
  exists cols,
    build_columns sc (required_columns sc) [] = Ok cols
    /\ (forall col, In col (required_columns sc) ->
          exists pa, typed sc col pa
                     /\ columns_get col cols
                        = Some {| col_dtype := pa;
                                  nullable :=
                                    negb (mem col (non_null_fields sc)) |})
    /\ (forall col, ~ In col (required_columns sc) ->
          columns_get col cols = None).
Proof.
  intros Hall.
  destruct (build_columns_spec sc (required_columns sc) [] Hall)
    as (cols & Hrun & Hin & Hout).
  exists cols. repeat split; assumption.
Qed.


End Branches.

(** Twenty rows, one with a null type: nineteen valid rows and one
    invalid. *)
Lemma failure_report_counts_witness :
  exists rep,
    fst (validate_schema nullable_validator structural_duplicates plain_dtype
                         event_cfg "/opt/airflow" "2024-06-10"
                         [JArr twenty_rows]) = Ok rep
    /\ valid_rows rep + invalid_rows rep = 20
    /\ 0 <= valid_rows rep < 20
    /\ 1 <= invalid_rows rep <= 20.
Proof.
  set (rep := {| valid_rows := 19; invalid_rows := 1;
                 errors := map fc_record (null_cells "type" twenty_rows 0)
                           ++ [ JStr "Duplicate values found in unique_keys: ['id']";
                                JStr "Null values found in non_null_field: type" ];
                 inferred_schema := None |}).
  assert (Hrun : fst (validate_schema nullable_validator structural_duplicates
                        plain_dtype event_cfg "/opt/airflow" "2024-06-10"
                        [JArr twenty_rows]) = Ok rep)
    by (vm_compute; reflexivity).
  assert (Hval : nullable_validator
                   [("id", {| col_dtype := PaInt; nullable := true |});
                    ("type", {| col_dtype := PaString; nullable := false |})]
                   (data_frame (_load_rows [JArr twenty_rows]))
                 = SchemaErrors (null_cells "type" twenty_rows 0))
    by (vm_compute; reflexivity).
  assert (Hne : data_frame (_load_rows [JArr twenty_rows]) <> [])
    by (vm_compute; discriminate).
  exists rep. split; [exact Hrun|].
  destruct (failure_report_counts nullable_validator structural_duplicates
              plain_dtype event_cfg "/opt/airflow" "2024-06-10"
              [JArr twenty_rows] event_schema _ _ rep
              Hne eq_refl eq_refl Hval Hrun)
    as (H1 & H2 & H3 & _).
  exact (conj H1 (conj H2 H3)).
Defined.




(** The columns of the event schema. *)
Lemma schema_columns_built_witness :
  exists cols,
    build_columns event_schema ["id"; "type"] [] = Ok cols
    /\ columns_get "type" cols
       = Some {| col_dtype := PaString; nullable := false |}.
Proof.
  assert (Hall : forall col, In col (required_columns event_schema) ->
                             exists pa, typed event_schema col pa).
  { intros col [<-|[<-|[]]].
    - exists PaInt, "int"%string. split; reflexivity.
    - exists PaString, "string"%string. split; reflexivity. }
  destruct (schema_columns_built event_schema Hall) as (cols & Hrun & Hin & _).
  exists cols. split; [exact Hrun|].
  destruct (Hin "type"%string (or_intror (or_introl eq_refl)))
    as (pa & (d & Hd & Hpa) & Hget).
  rewrite Hget. vm_compute in Hd. injection Hd as <-.
  vm_compute in Hpa. injection Hpa as <-. reflexivity.
Defined.


End SchemaValidatorBranches.

(** ** The rows and cells of the transformed frame *)

Module DataTransformerRows.
Import RawStore DataTransformer.
Local Open Scope nat_scope.

(** *** Masks *)

Lemma keep_length_same {A B : Type} (mask : list bool) (l : list A)
      (l' : list B) :
  length l = length l' -> length (keep mask l) = length (keep mask l').
Proof.
  revert l l'. induction mask as [|b mask IH]; intros [|x l] [|y l'] H;
    simpl in *; try discriminate; try reflexivity.
  injection H as H. destruct b; simpl; [f_equal|]; now apply IH.
Qed.

Lemma keep_no_none {A : Type} (mask : list bool) (c : list (option A)) :
  (forall i, nth_error c i = Some None -> nth_error mask i = Some true) ->
  Forall (fun x => x <> None) (keep (map negb mask) c).
Proof.
  revert c. induction mask as [|b mask IH]; intros [|x c] H; simpl;
    try constructor.
  assert (Hrest : forall i, nth_error c i = Some None ->
                            nth_error mask i = Some true)
    by (intros i Hi; exact (H (S i) Hi)).
  destruct b; simpl; [now apply IH|].
  constructor; [|now apply IH].
  intros ->. specialize (H 0 eq_refl). discriminate.
Qed.

Lemma keep_partition {A : Type} (mask : list bool) (l : list A) :
  length mask = length l ->
  length (keep (map negb mask) l) + length (keep mask l) = length l.
Proof.
  revert l. induction mask as [|b mask IH]; intros [|x l] H; simpl in *;
    try discriminate; try reflexivity.
  injection H as H. specialize (IH l H). destruct b; simpl; lia.
Qed.

Lemma keep_incl {A : Type} (mask : list bool) (l : list A) (x : A) :
  In x (keep mask l) -> In x l.
Proof.
  revert l. induction mask as [|b mask IH]; intros [|y l] H; simpl in *;
    try contradiction.
  destruct b; [destruct H as [->|H]; [now left|]|]; right; now apply IH.
Qed.

Lemma keep_all_true {A : Type} (mask : list bool) (l : list A) :
  length mask = length l ->
  (forall i, i < length l -> nth_error mask i = Some true) ->
  keep (map negb mask) l = [] /\ keep mask l = l.
Proof.
  revert l. induction mask as [|b mask IH]; intros [|x l] H Hall; simpl in *;
    try discriminate; try (split; reflexivity).
  injection H as H.
  pose proof (Hall 0 ltac:(lia)) as H0. simpl in H0. injection H0 as ->.
  destruct (IH l H (fun i Hi => Hall (S i) ltac:(lia))) as [H1 H2].
  simpl. split; [exact H1|now rewrite H2].
Qed.

(** *** Columns *)

Lemma frame_get_Ok_In (l : string) (cols : list (string * series)) (c : series) :
  frame_get l cols = Ok c -> In (l, c) cols.
Proof.
  induction cols as [|[l0 c0] cols IH]; simpl; [discriminate|].
  destruct (String.eqb_spec l0 l) as [->|Hne].
  - intros H. injection H as ->. now left.
  - intros H. right. now apply IH.
Qed.

Lemma frame_set_In (l l' : string) (c c' : series)
      (cols : list (string * series)) :
  In (l, c) (frame_set l' c' cols) -> c = c' \/ In (l, c) cols.
Proof.
  induction cols as [|[l0 c0] cols IH]; simpl.
  - intros [H|[]]. injection H as _ <-. now left.
  - destruct (l0 =? l')%string; simpl.
    + intros [H|H]; [injection H as _ <-; now left|right; now right].
    + intros [H|H]; [right; now left|].
      destruct (IH H); [now left|right; now right].
Qed.

Lemma frame_select_In (labels : list string) (cols : list (string * series)) :
  forall sel, frame_select labels cols = Ok sel ->
              forall l c, In (l, c) sel -> In (l, c) cols.
Proof.
  induction labels as [|l0 labels IH]; intros sel H l c Hin; simpl in H.
  - injection H as <-. destruct Hin.
  - destruct (frame_get l0 cols) as [c0|e] eqn:E0; simpl in H; [|discriminate].
    destruct (frame_select labels cols) as [tl|e]; simpl in H; [|discriminate].
    injection H as <-. destruct Hin as [Hin|Hin].
    + injection Hin as <- <-. now apply frame_get_Ok_In.
    + eapply IH; [reflexivity|exact Hin].
Qed.

Lemma frame_select_get (labels : list string) (cols : list (string * series)) :
  forall sel, frame_select labels cols = Ok sel ->
              forall l, In l labels -> frame_get l sel = frame_get l cols.
Proof.
  induction labels as [|l0 labels IH]; intros sel H l Hin; simpl in H;
    [destruct Hin|].
  destruct (frame_get l0 cols) as [c0|e] eqn:E0; simpl in H; [|discriminate].
  destruct (frame_select labels cols) as [tl|e]; simpl in H; [|discriminate].
  injection H as <-. simpl.
  destruct (String.eqb_spec l0 l) as [->|Hne]; [now rewrite E0|].
  destruct Hin as [->|Hin]; [contradiction|]. now apply IH.
Qed.

Lemma frame_get_empty_columns (l : string) (labels : list string) :
  In l labels ->
  frame_get l (map (fun c => (c, @nil (option value))) labels) = Ok [].
Proof.
  induction labels as [|l0 labels IH]; intros H; [destruct H|]. simpl.
  destruct (String.eqb_spec l0 l) as [->|Hne]; [reflexivity|].
  destruct H as [->|H]; [contradiction|]. now apply IH.
Qed.

(** *** Numbers with an integral value *)

Lemma integral_sound (q : Q) (z : Z) :
  integral q = Some z -> (q == inject_Z z)%Q.
Proof.
  unfold integral.
  destruct (Z.eqb_spec (Z.pos (Qden q) * (Qnum q / Z.pos (Qden q))) (Qnum q))
    as [E|_]; [|discriminate].
  intros H. injection H as <-. unfold Qeq, inject_Z. simpl. lia.
Qed.

Lemma cast_int64_sound (q : Q) (z : Z) :
  cast_int64 q = Some z ->
  (q == inject_Z z)%Q /\ (int64_min <= z <= int64_max)%Z.
Proof.
  unfold cast_int64. destruct (integral q) as [z'|] eqn:E; [|discriminate].
  destruct (Z.leb_spec int64_min z') as [Hlo|_]; [|discriminate].
  destruct (Z.leb_spec z' int64_max) as [Hhi|_]; [|discriminate].
  simpl. intros Hz. injection Hz as <-.
  split; [now apply integral_sound|lia].
Qed.

Lemma astype_Int64_raises (col : list (option Q)) (q : Q) :
  In (Some q) col -> cast_int64 q = None ->
  exists e, astype_Int64 col = Raise e.
Proof.
  intros Hin Hq. induction col as [|c col IH]; [destruct Hin|].
  destruct Hin as [->|Hin].
  - simpl. rewrite Hq. eauto.
  - destruct (IH Hin) as [e He]. simpl. rewrite He.
    destruct c as [q'|]; [|simpl; eauto].
    destruct (cast_int64 q'); simpl; eauto.
Qed.

Section Rows.

Variable parse_datetime :
  Z -> option string -> list (option json) -> option json -> option Z.
Variable numeric_cell : list (option json) -> option json -> option Q.
Variable str_other : json -> string.
Variable to_bool_list : list json -> result (option bool).
Variable value_mul : value -> json -> result value.
Variable value_add : value -> json -> result value.

Local Abbreviation conv_series :=
  (_convert_series parse_datetime numeric_cell str_other to_bool_list
                  value_mul value_add).
Local Abbreviation conv_mapping :=
  (convert_mapping parse_datetime numeric_cell str_other to_bool_list
                   value_mul value_add).
Local Abbreviation run_mappings :=
  (apply_mappings parse_datetime numeric_cell str_other to_bool_list
                  value_mul value_add).
Local Abbreviation transform :=
  (transform_data parse_datetime numeric_cell str_other to_bool_list
                  value_mul value_add).

Lemma run_mappings_masked (times : nat -> Z) (df_flat : list json)
      (ms : list mapping) :
  forall k out mask out' mask',
    run_mappings times df_flat ms k out mask = Ok (out', mask') ->
    length mask = length df_flat ->
    masked df_flat out mask ->
    masked df_flat out' mask'.
Proof.
  induction ms as [|m ms IH]; intros k out mask out' mask' H Hlen Hinv;
    simpl in H.
  - injection H as <- <-. exact Hinv.
  - destruct (conv_mapping (times k) df_flat m) as [col|e] eqn:E; simpl in H;
      [|discriminate].
    pose proof (DataTransformerFacts.convert_mapping_length
                  _ _ _ _ _ _ _ _ _ _ E) as Hcol.
    assert (Hna : length mask = length (isna col))
      by (unfold isna; rewrite length_map; congruence).
    apply IH in H; [exact H| |].
    + rewrite DataTransformerFacts.mask_or_length by exact Hna. exact Hlen.
    + intros l c Hin. apply frame_set_In in Hin. destruct Hin as [->|Hin].
      * split; [exact Hcol|]. intros i Hi.
        apply DataTransformerFacts.mask_or_nth; [exact Hna|]. right.
        now apply DataTransformerFacts.isna_nth.
      * destruct (Hinv l c Hin) as [Hl Hn]. split; [exact Hl|].
        intros i Hi. apply DataTransformerFacts.mask_or_nth; [exact Hna|].
        left. now apply Hn.
Qed.

Lemma frame_cells
      (cfg : config) (base_dir execution_date : string) (pages : list json)
      (times : nat -> Z) (now_utc : Z) (out : frame) (fx : list effect) :
  transform cfg base_dir execution_date pages times now_utc = (Ok out, fx) ->
  forall l c, In (l, c) (columns out) ->
    length c = length (index out)
    /\ Forall (fun x => x <> None) c.
Proof.
  intros H l c Hin. apply DataTransformerFacts.transform_inv in H.
  cbv zeta in H.
  destruct H as [(_ & -> & _)|(_ & outc & mask & Hrun & Hidx & Hsel & _)].
  - simpl in *. apply in_map_iff in Hin. destruct Hin as (l0 & H0 & _).
    injection H0 as _ <-. split; [reflexivity|constructor].
  - set (df_flat := json_normalize (_load_rows pages)) in *.
    pose proof Hrun as Hspec.
    apply DataTransformerFacts.run_mappings_spec in Hspec;
      [|now rewrite length_map].
    destruct Hspec as (Hlen & _).
    apply run_mappings_masked in Hrun;
      [|now rewrite length_map|intros ? ? []].
    apply (frame_select_In _ _ _ Hsel) in Hin. unfold stamped in Hin.
    apply frame_set_In in Hin. destruct Hin as [->|Hin].
    { rewrite length_map. split; [reflexivity|].
      apply Forall_forall. intros x Hx. apply in_map_iff in Hx.
      destruct Hx as (? & <- & _). discriminate. }
    apply frame_set_In in Hin. destruct Hin as [->|Hin].
    { rewrite length_map. split; [reflexivity|].
      apply Forall_forall. intros x Hx. apply in_map_iff in Hx.
      destruct Hx as (? & <- & _). discriminate. }
    apply in_map_iff in Hin. destruct Hin as ([l0 c0] & H0 & Hin0).
    simpl in H0. injection H0 as -> <-.
    destruct (Hrun l c0 Hin0) as [Hc0 Hna]. split.
    + rewrite Hidx. apply keep_length_same. now rewrite length_seq.
    + now apply keep_no_none.
Qed.

(** X16.  No cell of the frame [transform_data] returns is null, and every
    column has one cell for each row that is left: a null in any mapped
    column removes the whole row, also from the columns that a later
    mapping with the same target replaced. *)
Theorem output_has_no_null_cell
        (cfg : config) (base_dir execution_date : string) (pages : list json)
        (times : nat -> Z) (now_utc : Z) (out : frame) (fx : list effect) :
  transform cfg base_dir execution_date pages times now_utc = (Ok out, fx) ->
  forall l c, In (l, c) (columns out) ->
    length c = length (index out)
    /\ Forall (fun x => x <> None) c.
Proof.
  exact (frame_cells cfg base_dir execution_date pages times now_utc out fx).
Qed.

(** X17.  Every input row ends up in exactly one place: the rows of the
    returned frame and the rows dumped to [transform_invalid_rows.json]
    add up to the rows that were read.  The dump is written only when
    a row was dropped, and it holds flattened input rows. *)
Theorem rows_kept_or_dumped
        (cfg : config) (base_dir execution_date : string) (pages : list json)
        (times : nat -> Z) (now_utc : Z) (out : frame) (fx : list effect) :
  transform cfg base_dir execution_date pages times now_utc = (Ok out, fx) ->
  let df_flat := json_normalize (_load_rows pages) in
  let inv_dir := invalid_dir base_dir (name cfg) execution_date in
  exists dumped,
    length (index out) + length dumped = length (_load_rows pages)
    /\ (forall r, In r dumped -> In r df_flat)
    /\ fx = match dumped with
            | [] => [MakeDirs inv_dir]
            | _ :: _ =>
                [MakeDirs inv_dir;
                 WriteJson (inv_dir ++ "/transform_invalid_rows.json")%string
                           (JArr (map (record_of (RawStore.columns df_flat))
                                      dumped))]
            end.
Proof.
  intros H. apply DataTransformerFacts.transform_inv in H. cbv zeta in *.
  destruct H as [(Hrows & -> & ->)|(_ & outc & mask & Hrun & Hidx & _ & Hfx)].
  - exists []. rewrite Hrows. simpl. repeat split. intros r [].
  - set (df_flat := json_normalize (_load_rows pages)) in *.
    apply DataTransformerFacts.run_mappings_spec in Hrun;
      [|now rewrite length_map].
    destruct Hrun as (Hlen & _).
    exists (keep mask df_flat). split; [|split].
    + rewrite Hidx.
      rewrite (keep_length_same _ (seq 0 (length df_flat)) df_flat)
        by apply length_seq.
      rewrite (keep_partition mask df_flat Hlen).
      apply DataTransformerFacts.json_normalize_length.
    + intros r. apply keep_incl.
    + exact Hfx.
Qed.

(** X18.  The two metadata columns are set after the mappings and win over a
    mapping that targets [source] or [ingestion_timestamp]: whatever the
    mappings, every row of the returned frame holds the api name under
    [source] and the clock reading of the run under
    [ingestion_timestamp]. *)
Theorem metadata_columns
        (cfg : config) (base_dir execution_date : string) (pages : list json)
        (times : nat -> Z) (now_utc : Z) (out : frame) (fx : list effect) :
  transform cfg base_dir execution_date pages times now_utc = (Ok out, fx) ->
  frame_get "source" (columns out)
  = Ok (map (fun _ => Some (VStr (name cfg))) (index out))
  /\ frame_get "ingestion_timestamp" (columns out)
     = Ok (map (fun _ => Some (VTime now_utc)) (index out)).
Proof.
  intros H. apply DataTransformerFacts.transform_inv in H. cbv zeta in H.
  assert (Hs : In "source"%string (header cfg))
    by (unfold header; apply in_or_app; right; simpl; auto).
  assert (Ht : In "ingestion_timestamp"%string (header cfg))
    by (unfold header; apply in_or_app; right; simpl; auto).
  destruct H as [(_ & -> & _)|(_ & outc & mask & _ & _ & Hsel & _)].
  - simpl. now rewrite !frame_get_empty_columns.
  - rewrite (frame_select_get _ _ _ Hsel _ Hs).
    rewrite (frame_select_get _ _ _ Hsel _ Ht).
    unfold stamped. split.
    + apply DataTransformerFacts.frame_get_set_eq.
    + rewrite DataTransformerFacts.frame_get_set_ne by discriminate.
      apply DataTransformerFacts.frame_get_set_eq.
Qed.

(** *** A value that is not a whole number in an [int] column *)

Lemma run_mappings_raises (times : nat -> Z) (df_flat : list json)
      (ms : list mapping) (m : mapping) :
  In m ms -> (forall now, exists e, conv_mapping now df_flat m = Raise e) ->
  forall k out mask,
    exists e', run_mappings times df_flat ms k out mask = Raise e'.
Proof.
  intros Hin He. induction ms as [|m0 ms IH]; [destruct Hin|].
  intros k out mask. simpl.
  destruct (conv_mapping (times k) df_flat m0) as [col|e0] eqn:E0; simpl;
    [|eauto].
  destruct Hin as [->|Hin]; [|now apply IH].
  destruct (He (times k)) as [e E]. congruence.
Qed.

(** X19.  An [int] mapping does not drop a row whose number has a fractional
    part, or is no 64-bit integer for another reason: the cast raises,
    [transform_data] raises with it, and neither a frame nor a dump of
    invalid rows is produced. *)
Theorem fractional_int_aborts
        (cfg : config) (base_dir execution_date : string) (pages : list json)
        (times : nat -> Z) (now_utc : Z) (m : mapping) (c : option json)
        (q : Q) :
  let df_flat := json_normalize (_load_rows pages) in
  In m (mappings cfg) ->
  type_ m = Some "int"%string ->
  In c (source_series df_flat m) ->
  numeric_cell (source_series df_flat m) c = Some q ->
  (forall z, (int64_min <= z <= int64_max)%Z -> ~ (q == inject_Z z)%Q) ->
  exists e,
    transform cfg base_dir execution_date pages times now_utc
    = (Raise e, [MakeDirs (invalid_dir base_dir (name cfg) execution_date)]).
Proof.
  cbv zeta. intros Hm Hty Hc Hnum Hfrac.
  set (df_flat := json_normalize (_load_rows pages)) in *.
  assert (Hq : cast_int64 q = None).
  { destruct (cast_int64 q) as [z|] eqn:E; [|reflexivity].
    apply cast_int64_sound in E. destruct E as [E Hz].
    now elim (Hfrac z Hz). }
  assert (Hconv : forall now, exists e, conv_mapping now df_flat m = Raise e).
  { intros now. unfold convert_mapping, _convert_series. rewrite Hty. simpl.
    destruct (astype_Int64_raises
                (map (numeric_cell (source_series df_flat m))
                     (source_series df_flat m)) q) as [e He]; [|exact Hq|].
    - apply in_map_iff. exists c. split; assumption.
    - rewrite He. simpl. eauto. }
  assert (Hrows : _load_rows pages <> []).
  { intros E. unfold df_flat in Hc. rewrite E in Hc.
    unfold source_series in Hc. simpl in Hc.
    destruct (mem (source m) (RawStore.columns [])); destruct Hc. }
  unfold transform_data.
  destruct (_load_rows pages) as [|r rs] eqn:Er; [now elim Hrows|].
  fold df_flat.
  destruct (run_mappings_raises times df_flat (mappings cfg) m Hm Hconv 0 []
              (map (fun _ => false) df_flat)) as [e' He'].
  rewrite He'. eauto.
Qed.

(** *** A source column the frame does not have *)

Lemma map_result_none {A B : Type} (f : option A -> result (option B))
      (n : list json) :
  f None = Ok None ->
  map_result f (map (fun _ => None) n) = Ok (map (fun _ => None) n).
Proof.
  intros Hf. induction n as [|x n IH]; simpl; [reflexivity|].
  rewrite Hf. simpl. rewrite IH. reflexivity.
Qed.

Lemma arith_none (op : value -> json -> result value) (k : json)
      (n : list json) :
  arith op k (map (fun _ => None) n) = map (fun _ => None) n.
Proof.
  unfold arith. rewrite map_result_none by reflexivity. reflexivity.
Qed.

Lemma convert_absent_source (now : Z) (df_flat : list json) (m : mapping) :
  match type_ m with
  | Some t => t <> "datetime" /\ t <> "int" /\ t <> "float"
  | None => True
  end%string ->
  mem (source m) (RawStore.columns df_flat) = false ->
  conv_mapping now df_flat m = Ok (map (fun _ => None) df_flat).
Proof.
  intros Hty Hsrc. unfold convert_mapping, source_series. rewrite Hsrc.
  set (t := match type_ m with Some t => t | None => "string"%string end).
  assert (Ht : t <> "datetime"%string /\ t <> "int"%string
               /\ t <> "float"%string).
  { unfold t. destruct (type_ m); [exact Hty|repeat split; discriminate]. }
  destruct Ht as (H1 & H2 & H3). unfold _convert_series.
  destruct (String.eqb_spec t "datetime"); [contradiction|].
  destruct (String.eqb_spec t "int"); [contradiction|].
  destruct (String.eqb_spec t "float"); [contradiction|].
  assert (Hunits : forall rows : list json,
             apply_units value_mul value_add (scale m) (offset m)
                         (map (fun _ => None) rows)
             = map (fun _ => None) rows).
  { intros rows. unfold apply_units.
    destruct (scale m), (offset m); rewrite ?arith_none; reflexivity. }
  destruct (t =? "bool")%string.
  - rewrite map_result_none by reflexivity. simpl.
    rewrite map_map. simpl. now rewrite Hunits.
  - simpl. unfold astype_string. rewrite map_map. simpl. now rewrite Hunits.
Qed.

(** X20.  A mapping (of type string or bool) whose source is no column of the
    flattened input, a misspelt name for instance, converts to a null
    in every row: a run that returns has dropped all rows, the frame is
    empty and the dump holds the whole input. *)
Theorem absent_source_drops_every_row
        (cfg : config) (base_dir execution_date : string) (pages : list json)
        (times : nat -> Z) (now_utc : Z) (out : frame) (fx : list effect)
        (m : mapping) :
  let df_flat := json_normalize (_load_rows pages) in
  let inv_dir := invalid_dir base_dir (name cfg) execution_date in
  transform cfg base_dir execution_date pages times now_utc = (Ok out, fx) ->
  _load_rows pages <> [] ->
  In m (mappings cfg) ->
  match type_ m with
  | Some t => t <> "datetime" /\ t <> "int" /\ t <> "float"
  | None => True
  end%string ->
  mem (source m) (RawStore.columns df_flat) = false ->
  index out = []
  /\ (forall l c, In (l, c) (columns out) -> c = [])
  /\ fx = [MakeDirs inv_dir;
           WriteJson (inv_dir ++ "/transform_invalid_rows.json")%string
                     (JArr (map (record_of (RawStore.columns df_flat))
                                df_flat))].
Proof.
  cbv zeta. intros H Hrows Hm Hty Hsrc.
  pose proof H as Hcells.
  apply DataTransformerFacts.transform_inv in H. cbv zeta in H.
  destruct H as [(Hnil & _)|(_ & outc & mask & Hrun & Hidx & _ & Hfx)];
    [contradiction|].
  set (df_flat := json_normalize (_load_rows pages)) in *.
  apply DataTransformerFacts.run_mappings_spec in Hrun;
    [|now rewrite length_map].
  destruct Hrun as (Hlen & Hmask & _).
  assert (Hall : forall i, i < length df_flat -> nth_error mask i = Some true).
  { intros i Hi. apply Hmask. right.
    destruct (In_nth_error _ _ Hm) as [j Hj].
    exists j, m, (map (fun _ => None) df_flat). split; [exact Hj|].
    split; [now apply convert_absent_source|].
    rewrite nth_error_map.
    destruct (nth_error df_flat i) eqn:E; [reflexivity|].
    apply nth_error_None in E. lia. }
  destruct (keep_all_true mask df_flat Hlen Hall) as [_ Hdump].
  assert (Hall' : forall i, i < length (seq 0 (length df_flat)) ->
                            nth_error mask i = Some true)
    by (intros i Hi; rewrite length_seq in Hi; now apply Hall).
  destruct (keep_all_true mask (seq 0 (length df_flat))
              ltac:(rewrite length_seq; exact Hlen) Hall') as [Hkeep _].
  assert (Hi : index out = []) by (rewrite Hidx; exact Hkeep).
  split; [exact Hi|]. split.
  - intros l c Hin.
    destruct (frame_cells _ _ _ _ _ _ _ _ Hcells l c Hin) as [Hl _].
    rewrite Hi in Hl. now destruct c.
  - rewrite Hfx, Hdump.
    destruct df_flat as [|r rs] eqn:E; [|reflexivity].
    apply (f_equal (@length json)) in E.
    unfold df_flat in E.
    rewrite DataTransformerFacts.json_normalize_length in E.
    destruct (_load_rows pages); [contradiction|discriminate].
Qed.

End Rows.

(** *** The raw pages *)

(** X21.  The rows of a page set are the rows of its pages, in the order of
    the pages: loading distributes over concatenation, a list page gives
    its elements, an object page gives itself, and a page that is
    neither gives nothing. *)
Theorem load_rows_concat (pages1 pages2 : list json) :
  _load_rows (pages1 ++ pages2) = _load_rows pages1 ++ _load_rows pages2
  /\ (forall l, _load_rows (JArr l :: pages2) = l ++ _load_rows pages2)
  /\ (forall p, is_list p = false -> is_dict p = true ->
                _load_rows (p :: pages2) = p :: _load_rows pages2)
  /\ (forall p, is_list p = false -> is_dict p = false ->
                _load_rows (p :: pages2) = _load_rows pages2).
Proof.
  split; [|split; [|split]].
  - induction pages1 as [|p pages1 IH]; [reflexivity|].
    destruct p; simpl; rewrite IH; try reflexivity. now rewrite app_assoc.
  - reflexivity.
  - intros [ | | | | | | ]; simpl; intros; try discriminate; reflexivity.
  - intros [ | | | | | | ]; simpl; intros; try discriminate; reflexivity.
Qed.

(** *** Concrete runs *)

(** The run of the two events: the integer column of the frame. *)
Lemma output_has_no_null_cell_witness :
  length [Some (VInt 123)] = length (index (events_out 0))
  /\ Forall (fun x : option value => x <> None) [Some (VInt 123)].
Proof.
  apply (output_has_no_null_cell epoch_ns plain_numeric plain_str
           no_bool_list int_mul int_add events_cfg "/opt/airflow"
           "2024-06-10" event_pages (still 0) 0 (events_out 0) events_fx
           (DataTransformerFacts.events_run 0) "repo_id"%string).
  simpl. auto.
Defined.

(** The run of the two events: one is kept and one is dumped. *)
Lemma rows_kept_or_dumped_witness :
  exists dumped : list json,
    length (index (events_out 0)) + length dumped
    = length (_load_rows event_pages)
    /\ length dumped = 1.
Proof.
  destruct (rows_kept_or_dumped epoch_ns plain_numeric plain_str
              no_bool_list int_mul int_add events_cfg "/opt/airflow"
              "2024-06-10" event_pages (still 0) 0 (events_out 0) events_fx
              (DataTransformerFacts.events_run 0))
    as (dumped & Hlen & _ & _).
  exists dumped. split; [exact Hlen|]. simpl in Hlen. lia.
Defined.

(** A mapping that targets [source]: the column holds the api name. *)
Lemma metadata_columns_witness :
  demo_transform source_target_cfg "/opt/airflow" "2024-06-10" event_pages 7
  = (Ok {| index := [0; 1];
           columns :=
             [ ("source", [Some (VStr "test_api"); Some (VStr "test_api")]);
               ("ingestion_timestamp", [Some (VTime 7); Some (VTime 7)]);
               ("source", [Some (VStr "test_api"); Some (VStr "test_api")]) ] |},
     [MakeDirs "/opt/airflow/data/invalid/test_api/2024-06-10"])
  /\ frame_get "source"
       [ ("source", [Some (VStr "test_api"); Some (VStr "test_api")]);
         ("ingestion_timestamp", [Some (VTime 7); Some (VTime 7)]);
         ("source", [Some (VStr "test_api"); Some (VStr "test_api")]) ]
     = Ok [Some (VStr "test_api"); Some (VStr "test_api")].
Proof.
  split; [reflexivity|].
  exact (proj1 (metadata_columns epoch_ns plain_numeric plain_str
                  no_bool_list int_mul int_add source_target_cfg
                  "/opt/airflow" "2024-06-10" event_pages (still 0) 7%Z
                  _ _ eq_refl)).
Defined.

(** An id of 3/2 in the [int] column. *)
Lemma fractional_int_aborts_witness :
  exists e,
    demo_transform events_cfg "/opt/airflow" "2024-06-10" fractional_pages 0
    = (Raise e, [MakeDirs "/opt/airflow/data/invalid/test_api/2024-06-10"]).
Proof.
  apply (fractional_int_aborts epoch_ns plain_numeric plain_str
           no_bool_list int_mul int_add events_cfg "/opt/airflow"
           "2024-06-10" fractional_pages (still 0) 0%Z
           (plain_mapping "repo.id" "repo_id" "int")
           (Some (JFloat (3 # 2))) (3 # 2)%Q).
  - simpl. auto.
  - reflexivity.
  - vm_compute. auto.
  - reflexivity.
  - intros z _. unfold Qeq. simpl. lia.
Defined.

(** No event has an [actor.name]: both events are dropped and dumped. *)
Lemma absent_source_drops_every_row_witness :
  exists out fx,
    demo_transform typo_cfg "/opt/airflow" "2024-06-10" event_pages 0
    = (Ok out, fx)
    /\ index out = []
    /\ fx
       = [ MakeDirs "/opt/airflow/data/invalid/test_api/2024-06-10";
           WriteJson
             "/opt/airflow/data/invalid/test_api/2024-06-10/transform_invalid_rows.json"
             (JArr [ JObj [("type", JStr "PushEvent"); ("repo.id", JInt 123)];
                     JObj [("type", JStr "ForkEvent");
                           ("repo.id", JStr "not_int")] ]) ].
Proof.
  set (out := {| index := [];
                 columns := [ ("event_type", []); ("actor", []);
                              ("ingestion_timestamp", []); ("source", []) ] |}).
  set (fx := [ MakeDirs "/opt/airflow/data/invalid/test_api/2024-06-10";
               WriteJson
                 "/opt/airflow/data/invalid/test_api/2024-06-10/transform_invalid_rows.json"
                 (JArr [ JObj [("type", JStr "PushEvent"); ("repo.id", JInt 123)];
                         JObj [("type", JStr "ForkEvent");
                               ("repo.id", JStr "not_int")] ]) ]).
  assert (Hrun : demo_transform typo_cfg "/opt/airflow" "2024-06-10"
                                event_pages 0 = (Ok out, fx)) by reflexivity.
  assert (Hrows : _load_rows event_pages <> []) by discriminate.
  assert (Hm : In (plain_mapping "actor.name" "actor" "string")
                  (mappings typo_cfg)) by (simpl; auto).
  assert (Hty : match type_ (plain_mapping "actor.name" "actor" "string") with
                | Some t => t <> "datetime" /\ t <> "int" /\ t <> "float"
                | None => True
                end%string)
    by (simpl; repeat split; discriminate).
  assert (Hsrc : mem (source (plain_mapping "actor.name" "actor" "string"))
                     (RawStore.columns
                        (json_normalize (_load_rows event_pages))) = false)
    by (vm_compute; reflexivity).
  exists out, fx. split; [exact Hrun|].
  pose proof (absent_source_drops_every_row epoch_ns plain_numeric
                plain_str no_bool_list int_mul int_add typo_cfg
                "/opt/airflow" "2024-06-10" event_pages (still 0) 0%Z out fx
                (plain_mapping "actor.name" "actor" "string")
                Hrun Hrows Hm Hty Hsrc) as H.
  split; [exact (proj1 H)|reflexivity].
Defined.

End DataTransformerRows.

(** ** The database calls of a load *)

Module PostgresLoaderRuns.
Import DataTransformer PostgresLoader.

Lemma log_attempts_app (a b : list (db_call * result Z)) :
  log_attempts (a ++ b) = (log_attempts a + log_attempts b)%nat.
Proof. unfold log_attempts. now rewrite filter_app, length_app. Qed.

Lemma log_writes_app (a b : list (db_call * result Z)) :
  log_writes (a ++ b) = (log_writes a + log_writes b)%nat.
Proof. unfold log_writes. now rewrite filter_app, length_app. Qed.

(** Closes a leaf of the case analysis on the answers of the database. *)
Ltac ledger_leaf :=
  rewrite <- ?app_assoc; simpl;
  eexists; split; [reflexivity|];
  first [ split; [reflexivity|]; split; [reflexivity|];
          split; [eexists; reflexivity|]; split; reflexivity
        | split; [reflexivity|]; cbv; lia ].

Section Runs.

Variable DB : Type.
Variable exec : DB -> db_call -> result Z * DB.
Variable read_config : string -> result config.
Variable create_engine : result unit.
Variable transform : string -> string -> result frame.
Variable fresh_run_id : string.
Variable clock : nat -> Q.

Local Abbreviation load :=
  (load_to_postgres DB exec read_config create_engine transform
                    fresh_run_id clock).
Local Abbreviation block :=
  (try_block DB exec transform fresh_run_id clock).
Local Abbreviation failed :=
  (failed_entry fresh_run_id).
Local Abbreviation succeeded :=
  (success_entry fresh_run_id).

(** The ledger inserts of the block: a block that returns has made one,
    the last of its calls, for the result it returns; a block that
    raises has had none accepted. *)
Lemma block_ledger (cfg : config) (config_path execution_date : string)
      (start_time : Q) (w0 : world DB) :
  let run := block cfg config_path execution_date start_time w0 in
  exists steps,
    calls (snd run) = calls w0 ++ steps
    /\ match fst run with
       | Ok res =>
           log_attempts steps = 1%nat
           /\ log_writes steps = 1%nat
           /\ (exists m,
                  last steps (CreateMonitorTable, Ok 0)
                  = (LogRun (succeeded cfg execution_date
                               (rows_processed res) (duration_sec res)),
                     Ok m))
           /\ status res = "success"%string
           /\ run_id res = fresh_run_id
       | Raise e =>
           log_writes steps = 0%nat /\ (log_attempts steps <= 1)%nat
       end.
Proof.
  cbv zeta.
  unfold try_block, mbind, _create_pipeline_monitor_table,
    _create_analytics_table, _upsert_data, _log_pipeline_run, call, lift,
    time, tick, ret, success_entry, success.
  PostgresLoaderFacts.answer; [|ledger_leaf].
  destruct (transform config_path execution_date) as [df|e1]; simpl;
    [|ledger_leaf].
  destruct (frame_empty df); simpl.
  - PostgresLoaderFacts.answer; ledger_leaf.
  - PostgresLoaderFacts.answer; [|ledger_leaf].
    destruct (frame_empty (with_run_date _ _ df)); simpl.
    + PostgresLoaderFacts.answer; ledger_leaf.
    + destruct (unique_keys cfg) as [|k ks]; unfold mbind; simpl;
        (PostgresLoaderFacts.answer; [|ledger_leaf]);
        PostgresLoaderFacts.answer; ledger_leaf.
Qed.

(** X22.  The result a load returns is the run it has recorded: the last
    database call of a load that returns is the insert of a success
    ledger entry, accepted by the database, that carries the run id, the
    row count and the duration of the returned result; it is the only
    ledger insert of the run. *)
Theorem result_matches_ledger
        (cfg : config) (config_path execution_date : string)
        (w : world DB) (res : load_result) :
  read_config config_path = Ok cfg ->
  create_engine = Ok tt ->
  let run := load config_path execution_date w in
  fst run = Ok res ->
  exists steps m,
    calls (snd run) = calls w ++ steps
    /\ last steps (CreateMonitorTable, Ok 0)
       = (LogRun (succeeded cfg execution_date
                    (rows_processed res) (duration_sec res)), Ok m)
    /\ log_attempts steps = 1%nat
    /\ status res = "success"%string
    /\ run_id res = fresh_run_id.
Proof.
  intros Hcfg Heng. cbv zeta.
  unfold load_to_postgres, mbind, time, tick. rewrite Hcfg, Heng.
  set (start_time := clock (ticks w)).
  set (w0 := {| db := db w; calls := calls w; ticks := S (ticks w) |}).
  destruct (block_ledger cfg config_path execution_date start_time w0)
    as (steps & Hcalls & Hres).
  destruct (block cfg config_path execution_date start_time w0)
    as [[res0|e] w1]; simpl in *.
  - intros H. injection H as <-.
    destruct Hres as (Hatt & _ & [m Hlast] & Hst & Hid).
    exists steps, m. auto.
  - rewrite PostgresLoaderFacts.handler_bound. simpl. discriminate.
Qed.

(** X23.  One invocation never records a run twice.  Once the config is read
    and the engine created, a load attempts the ledger insert once, or
    twice when the insert of the success entry is itself refused, and
    the database accepts at most one of them; a load that returns has
    had exactly one accepted. *)
Theorem one_ledger_row_per_run
        (cfg : config) (config_path execution_date : string)
        (w : world DB) :
  read_config config_path = Ok cfg ->
  create_engine = Ok tt ->
  let run := load config_path execution_date w in
  exists steps,
    calls (snd run) = calls w ++ steps
    /\ (1 <= log_attempts steps <= 2)%nat
    /\ (log_writes steps <= 1)%nat
    /\ (forall res, fst run = Ok res -> log_writes steps = 1%nat).
Proof.
  intros Hcfg Heng. cbv zeta.
  unfold load_to_postgres, mbind, time, tick. rewrite Hcfg, Heng.
  set (start_time := clock (ticks w)).
  set (w0 := {| db := db w; calls := calls w; ticks := S (ticks w) |}).
  destruct (block_ledger cfg config_path execution_date start_time w0)
    as (steps & Hcalls & Hres).
  destruct (block cfg config_path execution_date start_time w0)
    as [[res0|e] w1]; simpl in *.
  - destruct Hres as (Hatt & Hwr & _). exists steps.
    rewrite Hatt, Hwr. repeat split; auto.
  - rewrite PostgresLoaderFacts.handler_bound. simpl.
    destruct Hres as [Hwr Hatt].
    eexists. split; [rewrite Hcalls, <- app_assoc; reflexivity|].
    rewrite log_attempts_app, log_writes_app, Hwr.
    unfold log_attempts, log_writes in *. simpl.
    destruct (fst (exec (db w1) _)); simpl;
      (split; [lia|]; split; [lia|]; intros ? ?; discriminate).
Qed.

(** X24.  A failure before the engine exists is not recorded: when the config
    cannot be read, or [create_engine] raises, the load raises that
    exception without a single database call. *)
Theorem failure_before_engine_is_not_logged
        (config_path execution_date : string) (w : world DB) (e : exn) :
  read_config config_path = Raise e
  \/ ((exists cfg, read_config config_path = Ok cfg)
      /\ create_engine = Raise e) ->
  load config_path execution_date w
  = (Raise e, {| db := db w; calls := calls w; ticks := S (S (ticks w)) |}).
Proof.
  intros H. unfold load_to_postgres, mbind, time, tick, handler. simpl.
  destruct H as [->|[[cfg ->] ->]]; reflexivity.
Qed.

(** *** The two write strategies *)

Lemma with_run_date_not_empty (execution_date : string) (df : frame) :
  frame_empty df = false ->
  frame_empty (with_run_date [] execution_date df) = false.
Proof.
  unfold with_run_date, frame_empty. intros H.
  destruct (RawStore.mem "run_date" (map fst (columns df))); [exact H|].
  simpl. destruct (index df) as [|i idx]; [discriminate|].
  destruct (columns df) as [|[lbl c] cols]; [discriminate|].
  simpl. destruct (lbl =? "run_date")%string; reflexivity.
Qed.

(** X25.  With unique keys, a load whose calls all go through creates the
    ledger, creates the destination table, and writes the frame as it
    came from the transformer with one insert that updates, on a
    conflict on the keys, exactly the columns that are not keys.  The
    row count it returns and records is the row count the database
    reports for that insert. *)
Theorem keyed_load_upserts
        (cfg : config) (config_path execution_date : string)
        (w : world DB) (df : frame) (k : string) (ks : list string)
        (n1 n2 n3 n4 : Z) (db1 db2 db3 db4 : DB) :
  let keys := k :: ks in
  let updated := filter (fun c => negb (RawStore.mem c keys))
                        (map fst (columns df)) in
  let duration := (clock (S (ticks w)) - clock (ticks w))%Q in
  let entry := succeeded cfg execution_date n3 duration in
  read_config config_path = Ok cfg ->
  create_engine = Ok tt ->
  unique_keys cfg = keys ->
  transform config_path execution_date = Ok df ->
  frame_empty df = false ->
  exec (db w) CreateMonitorTable = (Ok n1, db1) ->
  exec db1 (CreateAnalyticsTable (table_of cfg) df keys) = (Ok n2, db2) ->
  exec db2 (UpsertByKey (table_of cfg) df keys updated) = (Ok n3, db3) ->
  exec db3 (LogRun entry) = (Ok n4, db4) ->
  load config_path execution_date w
  = (Ok {| run_id := fresh_run_id; rows_processed := n3;
           duration_sec := duration; status := "success" |},
     {| db := db4;
        calls := calls w
                 ++ [ (CreateMonitorTable, Ok n1);
                      (CreateAnalyticsTable (table_of cfg) df keys, Ok n2);
                      (UpsertByKey (table_of cfg) df keys updated, Ok n3);
                      (LogRun entry, Ok n4) ];
        ticks := S (S (ticks w)) |})
  /\ forall c, In c updated <-> In c (map fst (columns df)) /\ ~ In c keys.
Proof.
  intros keys updated duration entry Hcfg Heng Hkeys Htr Hne H1 H2 H3 H4.
  split.
  - unfold load_to_postgres, mbind, time, tick. rewrite Hcfg, Heng.
    unfold try_block, mbind, _create_pipeline_monitor_table, call, lift.
    simpl. rewrite H1, Htr, Hne.
    unfold _create_analytics_table, call. simpl.
    fold (table_of cfg). rewrite Hkeys. fold keys. rewrite H2.
    unfold with_run_date, _upsert_data, keys at 1 2. rewrite Hne.
    unfold call. simpl. fold keys.
    change (filter _ (map fst (columns df))) with updated. rewrite H3.
    unfold time, tick, _log_pipeline_run, call, ret, success. simpl.
    fold duration. fold (succeeded cfg execution_date n3 duration).
    fold entry. rewrite H4. rewrite <- !app_assoc. reflexivity.
  - intros c. unfold updated. rewrite filter_In, negb_true_iff.
    rewrite <- not_true_iff_false, DataTransformerFacts.mem_In. reflexivity.
Qed.

(** X26.  Without unique keys, a load whose calls all go through replaces
    the rows of the run date: it deletes them and inserts the frame in
    one transaction.  The frame it writes has a [run_date] column, the
    one of the transformer if it has one and otherwise the execution
    date in every row, and is otherwise the transformer's frame.  The
    row count it returns and records is the number of rows of the
    frame, whatever the database reports. *)
Theorem unkeyed_load_replaces_run_date
        (cfg : config) (config_path execution_date : string)
        (w : world DB) (df : frame)
        (n1 n2 n3 n4 : Z) (db1 db2 db3 db4 : DB) :
  let df1 := with_run_date [] execution_date df in
  let rows := Z.of_nat (length (index df)) in
  let duration := (clock (S (ticks w)) - clock (ticks w))%Q in
  let entry := succeeded cfg execution_date rows duration in
  read_config config_path = Ok cfg ->
  create_engine = Ok tt ->
  unique_keys cfg = [] ->
  transform config_path execution_date = Ok df ->
  frame_empty df = false ->
  exec (db w) CreateMonitorTable = (Ok n1, db1) ->
  exec db1 (CreateAnalyticsTable (table_of cfg) df []) = (Ok n2, db2) ->
  exec db2 (DeleteThenInsert (table_of cfg) execution_date df1)
  = (Ok n3, db3) ->
  exec db3 (LogRun entry) = (Ok n4, db4) ->
  load config_path execution_date w
  = (Ok {| run_id := fresh_run_id; rows_processed := rows;
           duration_sec := duration; status := "success" |},
     {| db := db4;
        calls := calls w
                 ++ [ (CreateMonitorTable, Ok n1);
                      (CreateAnalyticsTable (table_of cfg) df [], Ok n2);
                      (DeleteThenInsert (table_of cfg) execution_date df1,
                       Ok n3);
                      (LogRun entry, Ok n4) ];
        ticks := S (S (ticks w)) |})
  /\ index df1 = index df
  /\ (forall l, l <> "run_date"%string ->
                frame_get l (columns df1) = frame_get l (columns df))
  /\ frame_get "run_date" (columns df1)
     = (if RawStore.mem "run_date" (map fst (columns df))
        then frame_get "run_date" (columns df)
        else Ok (map (fun _ => Some (VStr execution_date)) (index df))).
Proof.
  intros df1 rows duration entry Hcfg Heng Hkeys Htr Hne H1 H2 H3 H4.
  split; [|split; [|split]].
  - unfold load_to_postgres, mbind, time, tick. rewrite Hcfg, Heng.
    unfold try_block, mbind, _create_pipeline_monitor_table, call, lift.
    simpl. rewrite H1, Htr, Hne.
    unfold _create_analytics_table, call. simpl.
    fold (table_of cfg). rewrite Hkeys. rewrite H2.
    fold df1. unfold _upsert_data.
    unfold df1 at 1. rewrite (with_run_date_not_empty _ _ Hne).
    unfold mbind, call. simpl. rewrite H3.
    unfold time, tick, _log_pipeline_run, call, ret, success. simpl.
    assert (Hidx : index df1 = index df).
    { unfold df1, with_run_date.
      destruct (RawStore.mem _ _); reflexivity. }
    rewrite Hidx. fold rows. fold duration.
    fold (succeeded cfg execution_date rows duration).
    fold entry. rewrite H4. rewrite <- !app_assoc. reflexivity.
  - unfold df1, with_run_date. destruct (RawStore.mem _ _); reflexivity.
  - intros l Hl. unfold df1, with_run_date.
    destruct (RawStore.mem _ _); [reflexivity|]. simpl.
    now apply DataTransformerFacts.frame_get_set_ne.
  - unfold df1, with_run_date.
    destruct (RawStore.mem _ _); [reflexivity|]. simpl.
    apply DataTransformerFacts.frame_get_set_eq.
Qed.

End Runs.

(** *** The column types of the destination table *)

(** X29.  The destination table does not get the types of the mappings.
    [_create_analytics_table] looks for the lower-case words [int],
    [float] and [datetime] in the dtype of a column, and the dtypes
    [_convert_series] produces for [int], [float], [bool] and string
    mappings are [Int64], [Float64], [boolean] and [string]: every
    mapped column is created as [VARCHAR(500)], except a [datetime]
    column, which is a [TIMESTAMP].  (The numpy dtypes [int64] and
    [float64] do give [INTEGER] and [DOUBLE PRECISION].)  The table has
    one column definition for each column of the frame, in order, and
    after them the primary key when unique keys are configured. *)
Theorem mapped_columns_are_varchar (target_type : string) :
  sql_type (converted_dtype target_type)
  = (if (target_type =? "datetime")%string then "TIMESTAMP"
     else "VARCHAR(500)")%string
  /\ sql_type "int64" = "INTEGER"%string
  /\ sql_type "float64" = "DOUBLE PRECISION"%string
  /\ forall (dtypes : list (string * string)) (keys : list string),
       firstn (length dtypes) (table_columns dtypes keys)
       = map (fun cd => (fst cd ++ " " ++ sql_type (snd cd))%string) dtypes
       /\ skipn (length dtypes) (table_columns dtypes keys)
          = match keys with
            | [] => []
            | _ :: _ => [("PRIMARY KEY (" ++ join_comma keys ++ ")")%string]
            end.
Proof.
  split; [|split; [reflexivity|split; [reflexivity|]]].
  - unfold converted_dtype.
    destruct (target_type =? "datetime")%string; [reflexivity|].
    destruct (target_type =? "int")%string; [reflexivity|].
    destruct (target_type =? "float")%string; [reflexivity|].
    destruct (target_type =? "bool")%string; reflexivity.
  - intros dtypes keys. unfold table_columns.
    set (defs := map _ dtypes).
    assert (Hlen : length dtypes = length defs)
      by (unfold defs; now rewrite length_map).
    rewrite Hlen. split.
    + rewrite firstn_app, Nat.sub_diag, firstn_all. simpl.
      now rewrite app_nil_r.
    + rewrite skipn_app, Nat.sub_diag, skipn_all. reflexivity.
Qed.

(** *** Concrete runs *)

(** The load of one event into a database that accepts every call. *)
Lemma result_matches_ledger_witness :
  exists steps m,
    calls (snd (demo_load accepting one_event)) = calls fresh ++ steps
    /\ last steps (CreateMonitorTable, Ok 0)
       = (LogRun (success_entry "run-1" loader_cfg "2024-06-10" 1
                                (seconds 1 - seconds 0)%Q), Ok m)
    /\ log_attempts steps = 1%nat.
Proof.
  destruct (result_matches_ledger (list db_call) accepting
              (fun _ => Ok loader_cfg) (Ok tt) (fun _ _ => Ok one_event)
              "run-1" seconds loader_cfg "configs/test_api.yaml"
              "2024-06-10" fresh
              {| run_id := "run-1"; rows_processed := 1;
                 duration_sec := (seconds 1 - seconds 0)%Q;
                 status := "success" |}
              eq_refl eq_refl eq_refl)
    as (steps & m & H1 & H2 & H3 & _).
  exists steps, m. split; [exact H1|]. split; [exact H2|exact H3].
Defined.

(** The upsert is refused and so is the failed entry: two calls, one
    ledger attempt, no ledger row. *)
Lemma one_ledger_row_per_run_witness :
  exists steps,
    calls (snd (demo_load flaky one_event)) = calls fresh ++ steps
    /\ (1 <= log_attempts steps <= 2)%nat
    /\ (log_writes steps <= 1)%nat.
Proof.
  destruct (one_ledger_row_per_run (list db_call) flaky
              (fun _ => Ok loader_cfg) (Ok tt) (fun _ _ => Ok one_event)
              "run-1" seconds loader_cfg "configs/test_api.yaml"
              "2024-06-10" fresh eq_refl eq_refl)
    as (steps & H1 & H2 & H3 & _).
  exists steps. split; [exact H1|]. split; [exact H2|exact H3].
Defined.

(** A config without a [name]. *)
Lemma failure_before_engine_is_not_logged_witness :
  demo_load_unreadable
  = (Raise (KeyError "name"), {| db := []; calls := []; ticks := 2 |}).
Proof.
  apply (failure_before_engine_is_not_logged (list db_call) accepting
           (fun _ => Raise (KeyError "name")) (Ok tt)
           (fun _ _ => Ok one_event) "run-1" seconds
           "configs/test_api.yaml" "2024-06-10" fresh (KeyError "name")).
  left. reflexivity.
Defined.

(** One event, keyed by [repo_id]: the other three columns are updated
    on conflict. *)
Lemma keyed_load_upserts_witness :
  demo_load accepting one_event
  = (Ok {| run_id := "run-1"; rows_processed := 1;
           duration_sec := (seconds 1 - seconds 0)%Q; status := "success" |},
     {| db := [ CreateMonitorTable;
                CreateAnalyticsTable "test_events" one_event ["repo_id"];
                UpsertByKey "test_events" one_event ["repo_id"]
                            ["event_type"; "ingestion_timestamp"; "source"];
                LogRun (success_entry "run-1" loader_cfg "2024-06-10" 1
                                      (seconds 1 - seconds 0)%Q) ];
        calls := [ (CreateMonitorTable, Ok 1);
                   (CreateAnalyticsTable "test_events" one_event ["repo_id"],
                    Ok 1);
                   (UpsertByKey "test_events" one_event ["repo_id"]
                                ["event_type"; "ingestion_timestamp"; "source"],
                    Ok 1);
                   (LogRun (success_entry "run-1" loader_cfg "2024-06-10" 1
                                          (seconds 1 - seconds 0)%Q), Ok 1) ];
        ticks := 2 |}).
Proof.
  exact (proj1 (keyed_load_upserts (list db_call) accepting
                  (fun _ => Ok loader_cfg) (Ok tt) (fun _ _ => Ok one_event)
                  "run-1" seconds loader_cfg "configs/test_api.yaml"
                  "2024-06-10" fresh one_event "repo_id"%string [] 1 1 1 1
                  _ _ _ _
                  eq_refl eq_refl eq_refl eq_refl eq_refl
                  eq_refl eq_refl eq_refl eq_refl)).
Defined.

(** One event, no unique keys, no table name: the frame gets its
    [run_date] and replaces the rows of the date in [test_api_events]. *)
Lemma unkeyed_load_replaces_run_date_witness :
  demo_load_unkeyed accepting one_event
  = (Ok {| run_id := "run-1"; rows_processed := 1;
           duration_sec := (seconds 1 - seconds 0)%Q; status := "success" |},
     {| db := [ CreateMonitorTable;
                CreateAnalyticsTable "test_api_events" one_event [];
                DeleteThenInsert "test_api_events" "2024-06-10"
                                 one_event_dated;
                LogRun (success_entry "run-1" unkeyed_cfg "2024-06-10" 1
                                      (seconds 1 - seconds 0)%Q) ];
        calls := [ (CreateMonitorTable, Ok 1);
                   (CreateAnalyticsTable "test_api_events" one_event [], Ok 1);
                   (DeleteThenInsert "test_api_events" "2024-06-10"
                                     one_event_dated, Ok 1);
                   (LogRun (success_entry "run-1" unkeyed_cfg "2024-06-10" 1
                                          (seconds 1 - seconds 0)%Q), Ok 1) ];
        ticks := 2 |}).
Proof.
  exact (proj1 (unkeyed_load_replaces_run_date (list db_call) accepting
                  (fun _ => Ok unkeyed_cfg) (Ok tt) (fun _ _ => Ok one_event)
                  "run-1" seconds unkeyed_cfg "configs/test_api.yaml"
                  "2024-06-10" fresh one_event 1 1 1 1
                  _ _ _ _
                  eq_refl eq_refl eq_refl eq_refl eq_refl
                  eq_refl eq_refl eq_refl eq_refl)).
Defined.

End PostgresLoaderRuns.

(** ** The connections the set-up script creates *)

Module InitConnectionsFacts.
Import InitConnections.
Local Open Scope nat_scope.

Lemma matching_nil (id : string) (l : list connection) :
  matching id l = [] <-> ~ In id (ids l).
Proof.
  unfold matching, ids. induction l as [|c l IH]; simpl; [tauto|].
  destruct (String.eqb_spec (conn_id c) id) as [E|Hne].
  - split; [discriminate|]. intros H. elim H. now left.
  - rewrite IH. tauto.
Qed.

Lemma matching_app (id : string) (a b : list connection) :
  matching id (a ++ b) = matching id a ++ matching id b.
Proof. unfold matching. apply filter_app. Qed.

Lemma matching_unique (id : string) (l : list connection) :
  NoDup (ids l) -> length (matching id l) <= 1.
Proof.
  unfold ids. induction l as [|c l IH]; simpl; intros H; [lia|].
  inversion H as [|? ? Hnotin Hnd]; subst.
  unfold matching in *. simpl.
  destruct (String.eqb_spec (conn_id c) id) as [E|Hne]; [|now apply IH].
  subst id. apply (matching_nil (conn_id c) l) in Hnotin.
  unfold matching in Hnotin. rewrite Hnotin. simpl. lia.
Qed.

Lemma matching_In (id : string) (l : list connection) (c : connection) :
  In c (matching id l) <-> In c l /\ conn_id c = id.
Proof.
  unfold matching. rewrite filter_In.
  destruct (String.eqb_spec (conn_id c) id); intuition congruence.
Qed.

(** One call on a table whose ids are distinct. *)
Lemma get_or_create_unique (conn : connection) (s : session) :
  NoDup (ids (rows s)) ->
  exists s',
    get_or_create_connection conn s = (Ok tt, s')
    /\ NoDup (ids (rows s'))
    /\ In (conn_id conn) (ids (rows s'))
    /\ (In (conn_id conn) (ids (rows s)) -> rows s' = rows s)
    /\ (~ In (conn_id conn) (ids (rows s)) -> rows s' = rows s ++ [conn]).
Proof.
  intros Hnd. unfold get_or_create_connection.
  pose proof (matching_unique (conn_id conn) (rows s) Hnd) as Hlen.
  destruct (matching (conn_id conn) (rows s)) as [|c [|c' l]] eqn:E.
  - apply matching_nil in E. eexists. split; [reflexivity|]. simpl.
    split; [|split; [|split]].
    + unfold ids. rewrite map_app. simpl.
      apply NoDup_app; [exact Hnd|constructor; [intros []|constructor]|].
      intros x Hx [<-|[]]. contradiction.
    + unfold ids. rewrite map_app. apply in_or_app. right. now left.
    + intros H. contradiction.
    + reflexivity.
  - assert (Hc : In c (matching (conn_id conn) (rows s)))
      by (rewrite E; now left).
    apply matching_In in Hc. destruct Hc as [Hin Hid].
    assert (Hid' : In (conn_id conn) (ids (rows s)))
      by (rewrite <- Hid; now apply in_map).
    eexists. split; [reflexivity|]. simpl.
    split; [exact Hnd|]. split; [exact Hid'|]. split; [reflexivity|].
    intros H. contradiction.
  - simpl in Hlen. lia.
Qed.

Lemma get_or_create_none (conn : connection) (s : session) :
  matching (conn_id conn) (rows s) = [] ->
  get_or_create_connection conn s
  = (Ok tt,
     {| rows := rows s ++ [conn];
        printed := printed s
                   ++ [("Connection '" ++ conn_id conn ++ "' created.")%string] |}).
Proof. intros H. unfold get_or_create_connection. now rewrite H. Qed.

Lemma get_or_create_one (conn old : connection) (s : session) :
  matching (conn_id conn) (rows s) = [old] ->
  get_or_create_connection conn s
  = (Ok tt,
     {| rows := rows s;
        printed := printed s
                   ++ [("Connection '" ++ conn_id conn
                        ++ "' already exists.")%string] |}).
Proof. intros H. unfold get_or_create_connection. now rewrite H. Qed.

Lemma get_or_create_many (conn a b : connection) (l : list connection)
      (s : session) :
  matching (conn_id conn) (rows s) = a :: b :: l ->
  get_or_create_connection conn s = (Raise MultipleResultsFound, s).
Proof. intros H. unfold get_or_create_connection. now rewrite H. Qed.

(** X27.  [get_or_create_connection] never touches a row that is there.  On a
    table with one row of the id it changes nothing, even when the
    fields it was given differ from those of the row; on a table
    without the id it appends the connection; on a table with several
    rows of the id it raises [MultipleResultsFound] and changes nothing.
    Whenever it returns, the table has the id, and a second call with
    the same id leaves the table as it is. *)
Theorem get_or_create_connection_is_idempotent
        (conn : connection) (s : session) :
  let run := get_or_create_connection conn s in
  let again := get_or_create_connection conn (snd run) in
  (exists added, rows (snd run) = rows s ++ added)
  /\ (forall old, matching (conn_id conn) (rows s) = [old] ->
                  fst run = Ok tt /\ rows (snd run) = rows s)
  /\ (matching (conn_id conn) (rows s) = [] ->
      fst run = Ok tt /\ rows (snd run) = rows s ++ [conn])
  /\ (2 <= length (matching (conn_id conn) (rows s)) ->
      run = (Raise MultipleResultsFound, s))
  /\ (fst run = Ok tt ->
      In (conn_id conn) (ids (rows (snd run)))
      /\ fst again = Ok tt
      /\ rows (snd again) = rows (snd run)).
Proof.
  cbv zeta.
  destruct (matching (conn_id conn) (rows s)) as [|c [|c' l]] eqn:E.
  - rewrite (get_or_create_none conn s E). cbn [fst snd rows].
    split; [eauto|]. split; [discriminate|]. split; [auto|].
    split; [simpl; lia|]. intros _. split.
    + unfold ids. rewrite map_app. apply in_or_app. right. now left.
    + rewrite (get_or_create_one conn conn); [auto|]. cbn [rows].
      rewrite matching_app, E. unfold matching. simpl.
      now rewrite String.eqb_refl.
  - rewrite (get_or_create_one conn c s E). cbn [fst snd rows].
    split; [exists []; now rewrite app_nil_r|]. split; [auto|].
    split; [discriminate|]. split; [simpl; lia|]. intros _.
    assert (Hc : In c (matching (conn_id conn) (rows s)))
      by (rewrite E; now left).
    apply matching_In in Hc. destruct Hc as [Hin Hid]. split.
    + rewrite <- Hid. now apply in_map.
    + rewrite (get_or_create_one conn c); [auto|]. exact E.
  - rewrite (get_or_create_many conn c c' l s E). cbn [fst snd rows].
    split; [exists []; now rewrite app_nil_r|]. split; [discriminate|].
    split; [discriminate|]. split; [reflexivity|]. discriminate.
Qed.

Lemma main_unique (env : string -> option string) (s : session) :
  NoDup (ids (rows s)) ->
  exists s',
    main env s = (Ok tt, s')
    /\ NoDup (ids (rows s'))
    /\ (exists added, rows s' = rows s ++ added)
    /\ In "postgres_default"%string (ids (rows s'))
    /\ In "minio_default"%string (ids (rows s'))
    /\ (forall wh, slack_webhook env = Some wh ->
                   In "slack_default"%string (ids (rows s')))
    /\ (In "postgres_default"%string (ids (rows s)) ->
        In "minio_default"%string (ids (rows s)) ->
        (forall wh, slack_webhook env = Some wh ->
                    In "slack_default"%string (ids (rows s))) ->
        rows s' = rows s).
Proof.
  intros Hnd. unfold main.
  destruct (get_or_create_unique (postgres_default env) s Hnd)
    as (s1 & -> & Hnd1 & Hin1 & Hsame1 & Hnew1).
  destruct (get_or_create_unique (minio_default env) s1 Hnd1)
    as (s2 & -> & Hnd2 & Hin2 & Hsame2 & Hnew2).
  assert (Hadd1 : exists added, rows s1 = rows s ++ added).
  { destruct (in_dec string_dec (conn_id (postgres_default env)) (ids (rows s)))
      as [H|H].
    - exists []. rewrite app_nil_r. now apply Hsame1.
    - eexists. now apply Hnew1. }
  assert (Hadd2 : exists added, rows s2 = rows s1 ++ added).
  { destruct (in_dec string_dec (conn_id (minio_default env)) (ids (rows s1)))
      as [H|H].
    - exists []. rewrite app_nil_r. now apply Hsame2.
    - eexists. now apply Hnew2. }
  destruct Hadd1 as [a1 Ha1]. destruct Hadd2 as [a2 Ha2].
  assert (Hmono1 : forall x, In x (ids (rows s)) -> In x (ids (rows s1))).
  { intros x Hx. rewrite Ha1. unfold ids in *. rewrite map_app.
    apply in_or_app. now left. }
  assert (Hmono2 : forall x, In x (ids (rows s1)) -> In x (ids (rows s2))).
  { intros x Hx. rewrite Ha2. unfold ids in *. rewrite map_app.
    apply in_or_app. now left. }
  destruct (slack_webhook env) as [wh|] eqn:Ew.
  - destruct (get_or_create_unique (slack_default wh) s2 Hnd2)
      as (s3 & -> & Hnd3 & Hin3 & Hsame3 & Hnew3).
    assert (Hadd3 : exists added, rows s3 = rows s2 ++ added).
    { destruct (in_dec string_dec (conn_id (slack_default wh)) (ids (rows s2)))
        as [H|H].
      - exists []. rewrite app_nil_r. now apply Hsame3.
      - eexists. now apply Hnew3. }
    destruct Hadd3 as [a3 Ha3].
    assert (Hmono3 : forall x, In x (ids (rows s2)) -> In x (ids (rows s3))).
    { intros x Hx. rewrite Ha3. unfold ids in *. rewrite map_app.
      apply in_or_app. now left. }
    exists s3. split; [reflexivity|]. split; [exact Hnd3|].
    split; [exists (a1 ++ a2 ++ a3); rewrite Ha3, Ha2, Ha1;
            now rewrite <- !app_assoc|].
    split; [apply Hmono3, Hmono2, Hin1|].
    split; [apply Hmono3, Hin2|].
    split; [intros _ _; exact Hin3|].
    intros Hp Hm Hs.
    rewrite (Hsame3 (Hmono2 _ (Hmono1 _ (Hs wh eq_refl)))).
    rewrite (Hsame2 (Hmono1 _ Hm)). now apply Hsame1.
  - exists s2. split; [reflexivity|]. split; [exact Hnd2|].
    split; [exists (a1 ++ a2); rewrite Ha2, Ha1; now rewrite <- app_assoc|].
    split; [apply Hmono2, Hin1|]. split; [exact Hin2|].
    split; [discriminate|].
    intros Hp Hm _. rewrite (Hsame2 (Hmono1 _ Hm)). now apply Hsame1.
Qed.

(** X28.  On a connection table whose ids are distinct the set-up script
    (its queries and commits going through) always succeeds, keeps every
    row that was there, unchanged and in place, and keeps the ids
    distinct.  Afterwards the table has
    [postgres_default] and [minio_default], and [slack_default] when
    the webhook variable is set and not empty.  Running the script
    again adds nothing. *)
Theorem main_is_idempotent (env : string -> option string) (s : session) :
  NoDup (ids (rows s)) ->
  let run := main env s in
  let again := main env (snd run) in
  fst run = Ok tt
  /\ (exists added, rows (snd run) = rows s ++ added)
  /\ NoDup (ids (rows (snd run)))
  /\ In "postgres_default"%string (ids (rows (snd run)))
  /\ In "minio_default"%string (ids (rows (snd run)))
  /\ (forall wh, slack_webhook env = Some wh ->
                 In "slack_default"%string (ids (rows (snd run))))
  /\ fst again = Ok tt
  /\ rows (snd again) = rows (snd run).
Proof.
  intros Hnd. cbv zeta.
  destruct (main_unique env s Hnd)
    as (s1 & -> & Hnd1 & Hadd & Hp & Hm & Hs & _).
  simpl.
  destruct (main_unique env s1 Hnd1) as (s2 & -> & _ & _ & _ & _ & _ & Hsame).
  simpl. repeat split; auto.
Qed.

(** A set-up without a webhook on a table that has a [postgres_default]
    of its own: the row is kept as it is and [minio_default] is added. *)
Lemma main_is_idempotent_witness :
  main no_env custom_session
  = (Ok tt,
     {| rows := [custom_postgres; minio_default no_env];
        printed := [ "Connection 'postgres_default' already exists.";
                     "Connection 'minio_default' created." ]%string |})
  /\ NoDup (ids [custom_postgres; minio_default no_env]).
Proof.
  split; [reflexivity|].
  assert (Hnd : NoDup (ids (rows custom_session)))
    by (repeat constructor; simpl; tauto).
  exact (proj1 (proj2 (proj2 (main_is_idempotent no_env custom_session Hnd)))).
Defined.

End InitConnectionsFacts.
